(** * Encrypted survey tool: the encrypted-artifact lifecycle

    A shallow embedding of [src/shared/crypto.js] (key derivation, sealing,
    opening, fingerprints, identifiers), of the D1 database layer and of the
    Cloudflare worker that routes requests to it.

    JavaScript values are modelled as follows.
    - a [Uint8Array], and an array of numbers 0..255 made from one with
      [Array.from], is a [list byte];
    - a string is a [string]; [s.length] is [String.length s];
    - [Date.now()] is an integer [Z] (milliseconds), below 2^53, so the
      arithmetic the code does on it is exact;
    - an exception is [Throw msg], where [msg] is the [message] of the
      [Error]; an [async] function is the same computation, its rejected
      promise being [Throw];
    - everything outside the program (the entropy source, the wall clock,
      [Math.random], the D1 database, and the record of calls made to the
      cryptographic libraries) is a [World], threaded by the monad [M]. *)

From Stdlib Require Import List String Ascii ZArith NArith Lia Bool Arith.
From Stdlib Require Import Strings.Byte.
From Stdlib Require Import Sorting.Sorted Sorting.Permutation.
Import ListNotations.

Open Scope string_scope.
Open Scope list_scope.

(* ================================================================== *)
(** * JavaScript strings and numbers *)
(* ================================================================== *)

Definition bytes := list byte.

(** [s[i]] inside a string concatenation: the character at [i], and the text
    of [undefined] when [i] is not an index of [s]. *)
Definition char_at (s : string) (i : Z) : string :=
  if (i <? 0)%Z then "undefined"
  else match String.get (Z.to_nat i) s with
       | Some c => String c EmptyString
       | None => "undefined"
       end.

(** [s.substring(a, b)] and [s.slice(a, b)] for [0 <= a <= b]. *)
Definition js_substring (a b : nat) (s : string) : string :=
  String.substring a (b - a) s.

Definition js_slice (a b : nat) (s : string) : string :=
  String.substring a (b - a) s.

(** [s.startsWith(p)] *)
Definition startsWith (p s : string) : bool := String.prefix p s.

(** [s.includes(p)] *)
Definition includes (p s : string) : bool :=
  match String.index 0 p s with
  | Some _ => true
  | None => false
  end.

(** [s.split(sep)[0]]: the text before the first [sep], all of [s] when
    there is none. *)
Definition split_head (sep s : string) : string :=
  match String.index 0 sep s with
  | Some i => String.substring 0 i s
  | None => s
  end.

Definition upper_ascii (c : ascii) : ascii :=
  let n := nat_of_ascii c in
  if ((97 <=? n) && (n <=? 122))%nat then ascii_of_nat (n - 32) else c.

(** [s.toUpperCase()] on the characters the program applies it to. *)
Fixpoint toUpperCase (s : string) : string :=
  match s with
  | EmptyString => EmptyString
  | String c s' => String (upper_ascii c) (toUpperCase s')
  end.

Fixpoint repeat_char (c : ascii) (n : nat) : string :=
  match n with
  | O => EmptyString
  | S n' => String c (repeat_char c n')
  end.

(** [s.padStart(n, c)] for a one-character pad. *)
Definition padStart (n : nat) (c : ascii) (s : string) : string :=
  (repeat_char c (n - String.length s) ++ s)%string.

Definition digits36 : string := "0123456789abcdefghijklmnopqrstuvwxyz".

(** The digits in upper case, as [toUpperCase] leaves them. *)
Definition upper_digits36 : string := "0123456789ABCDEFGHIJKLMNOPQRSTUVWXYZ".

Definition digit_of (d : Z) : ascii :=
  match String.get (Z.to_nat d) digits36 with
  | Some c => c
  | None => "0"%char
  end.

Fixpoint to_radix (radix : Z) (fuel : nat) (n : Z) (acc : string) : string :=
  match fuel with
  | O => acc
  | S fuel' =>
      if (n <? radix)%Z then String (digit_of n) acc
      else to_radix radix fuel' (n / radix)%Z (String (digit_of (n mod radix)%Z) acc)
  end.

(** [n.toString(radix)] for an integer [n] and [2 <= radix <= 36]. *)
Definition Number_toString (radix : Z) (n : Z) : string :=
  if (n <? 0)%Z
  then ("-" ++ to_radix radix (S (Z.to_nat (Z.log2 (- n)))) (- n)%Z "")%string
  else to_radix radix (S (Z.to_nat (Z.log2 n))) n "".

(** Truthiness of the values the program tests with [!x], [x && ...],
    [x || ...] and [x ? ... : ...]. *)
Definition truthy_string (s : string) : bool := negb (String.eqb s "").
Definition truthy_number (n : Z) : bool := negb (Z.eqb n 0).

Definition truthy_opt {A} (t : A -> bool) (o : option A) : bool :=
  match o with
  | Some a => t a
  | None => false
  end.

(* ================================================================== *)
(** * Results, the world and the monad *)
(* ================================================================== *)

Inductive Result (A : Type) : Type :=
| Ok (a : A)
| Throw (msg : string).
Arguments Ok {A} a.
Arguments Throw {A} msg.

(** Calls into the cryptographic libraries, in the order they are made. *)
Inductive Call : Type :=
| CallArgon2Hash
| CallSecretbox
| CallSecretboxOpen
| CallDigest.

Definition is_decrypt_call (c : Call) : bool :=
  match c with
  | CallSecretboxOpen => true
  | _ => false
  end.

(** ** Rows of the two tables (schemas/001, schemas/002) *)

Record SurveyRow := {
  sv_id : string;
  sv_analysis_id : option string;
  sv_title : string;
  sv_description : string;
  sv_questions : bytes;
  sv_salt : bytes;
  sv_created_at : Z;
  sv_expires_at : option Z;
  sv_max_responses : option Z;
  sv_creator_key_hash : string
}.

Record ResponseRow := {
  rs_id : string;
  rs_survey_id : string;
  rs_answers : bytes;
  rs_submitted_at : Z
}.

Record Database := {
  surveys : list SurveyRow;
  responses : list ResponseRow
}.

Record World := {
  entropy : nat -> byte;        (* output of the secure random generator *)
  entropy_pos : nat;
  clock : nat -> Z;             (* successive readings of Date.now() *)
  clock_pos : nat;
  random36 : nat -> string;     (* successive Math.random().toString(36) *)
  random36_pos : nat;
  DB : Database;
  calls : list Call
}.

Definition M (A : Type) : Type := World -> Result A * World.

Definition ret {A} (a : A) : M A := fun w => (Ok a, w).

Definition throw {A} (msg : string) : M A := fun w => (Throw msg, w).

Definition bind {A B} (m : M A) (k : A -> M B) : M B :=
  fun w =>
    match m w with
    | (Ok a, w') => k a w'
    | (Throw msg, w') => (Throw msg, w')
    end.

(** [try { m } catch (error) { h error.message }] *)
Definition try_catch {A} (m : M A) (h : string -> M A) : M A :=
  fun w =>
    match m w with
    | (Ok a, w') => (Ok a, w')
    | (Throw msg, w') => h msg w'
    end.

Declare Scope js_scope.
Delimit Scope js_scope with js.
Notation "x <- m ;; k" := (bind m (fun x => k))
  (at level 100, m at next level, right associativity) : js_scope.
Notation "m ;;; k" := (bind m (fun _ => k))
  (at level 100, right associativity) : js_scope.
Open Scope js_scope.

Definition lift {A} (r : Result A) : M A := fun w => (r, w).

Definition set_entropy_pos (n : nat) (w : World) : World :=
  {| entropy := entropy w; entropy_pos := n;
     clock := clock w; clock_pos := clock_pos w;
     random36 := random36 w; random36_pos := random36_pos w;
     DB := DB w; calls := calls w |}.

Definition set_clock_pos (n : nat) (w : World) : World :=
  {| entropy := entropy w; entropy_pos := entropy_pos w;
     clock := clock w; clock_pos := n;
     random36 := random36 w; random36_pos := random36_pos w;
     DB := DB w; calls := calls w |}.

Definition set_random36_pos (n : nat) (w : World) : World :=
  {| entropy := entropy w; entropy_pos := entropy_pos w;
     clock := clock w; clock_pos := clock_pos w;
     random36 := random36 w; random36_pos := n;
     DB := DB w; calls := calls w |}.

Definition set_DB (d : Database) (w : World) : World :=
  {| entropy := entropy w; entropy_pos := entropy_pos w;
     clock := clock w; clock_pos := clock_pos w;
     random36 := random36 w; random36_pos := random36_pos w;
     DB := d; calls := calls w |}.

Definition record_call (c : Call) (w : World) : World :=
  {| entropy := entropy w; entropy_pos := entropy_pos w;
     clock := clock w; clock_pos := clock_pos w;
     random36 := random36 w; random36_pos := random36_pos w;
     DB := DB w; calls := calls w ++ [c] |}.

(** The next [n] bytes of the entropy source. *)
Definition draw (n : nat) (w : World) : bytes :=
  map (entropy w) (seq (entropy_pos w) n).
Arguments draw : simpl never.

(** [Date.now()] *)
Definition Date_now : M Z :=
  fun w => (Ok (clock w (clock_pos w)), set_clock_pos (S (clock_pos w)) w).

(** [Math.random().toString(36)] *)
Definition Math_random_toString36 : M string :=
  fun w => (Ok (random36 w (random36_pos w)), set_random36_pos (S (random36_pos w)) w).

Definition get_DB : M Database := fun w => (Ok (DB w), w).
Definition put_DB (d : Database) : M unit := fun w => (Ok tt, set_DB d w).

(* ================================================================== *)
(** * The libraries the program is linked with *)
(* ================================================================== *)

Inductive ArgonType : Type := Argon2d | Argon2i | Argon2id.

Record Argon2Options := {
  pass : bytes;
  salt : bytes;
  time : nat;
  mem : N;
  hashLen : nat;
  parallelism : nat;
  type : ArgonType
}.

(** [nacl.secretbox.nonceLength] (README: 24 random bytes per message). *)
Definition secretbox_nonceLength : nat := 24.

(** TweetNaCl, argon2-browser, WebCrypto's digest, JSON and the text
    codecs are not part of the repository; the program is parametric in
    them. A [Platform] is the state after [initCrypto(naclLib, argon2Lib)]:
    the module variables [nacl] and [argon2] hold the libraries. [Value] is
    the type of JSON-serializable structured values. *)
Class Platform (Value : Type) := {
  JSON_stringify : Value -> string;
  JSON_parse : string -> Result Value;
  TextEncoder_encode : string -> bytes;
  TextDecoder_decode : bytes -> string;
  (* argon2.hash(options): the hash, or a rejection *)
  argon2_hash : Argon2Options -> Result bytes;
  (* nacl.secretbox(message, nonce, key): throws on a bad key or nonce size *)
  nacl_secretbox : bytes -> bytes -> bytes -> Result bytes;
  (* nacl.secretbox.open(box, nonce, key): null when authentication fails *)
  nacl_secretbox_open : bytes -> bytes -> bytes -> Result (option bytes);
  (* crypto.subtle.digest('SHA-256', data) *)
  subtle_digest_SHA256 : bytes -> bytes
}.

(** What the program relies on from the libraries. *)
Record PlatformLaws {Value : Type} (P : Platform Value) : Prop := {
  JSON_parse_stringify : forall v : Value, JSON_parse (JSON_stringify v) = Ok v;
  Text_decode_encode : forall s, TextDecoder_decode (TextEncoder_encode s) = s;
  argon2_accepts : forall o,
    8 <= List.length (salt o) -> 1 <= time o ->
    (8 * N.of_nat (parallelism o) <= mem o)%N ->
    4 <= hashLen o -> 1 <= parallelism o ->
    exists h, argon2_hash o = Ok h /\ List.length h = hashLen o;
  secretbox_seals : forall m n k,
    List.length n = secretbox_nonceLength -> List.length k = 32 ->
    exists c, nacl_secretbox m n k = Ok c /\ List.length c = List.length m + 16 /\
              nacl_secretbox_open c n k = Ok (Some m);
  digest_length : forall d, List.length (subtle_digest_SHA256 d) = 32
}.

(* ================================================================== *)
(** * src/shared/crypto.js *)
(* ================================================================== *)

Record PasswordValidation := {
  valid : bool;
  message : option string
}.

Record EncryptedSurvey := {
  es_id : string;
  es_salt : bytes;
  es_encryptedData : bytes;
  es_keyHash : string;
  es_createdAt : Z
}.

Record DecryptedSurvey (Value : Type) := {
  surveyData : Value;
  key : bytes
}.
Arguments surveyData {Value} d.
Arguments key {Value} d.

(** [randomBytes(length)]: [nacl.randomBytes] when the library is loaded,
    [crypto.getRandomValues] otherwise; both fill [length] fresh bytes. *)
Definition randomBytes (length : nat) : M bytes :=
  fun w => (Ok (draw length w), set_entropy_pos (entropy_pos w + length) w).

Definition chars : string := "0123456789ABCDEFGHJKMNPQRSTVWXYZ".

(** The first loop of [generateUlid]: ten rounds, each putting
    [chars[temp % 32]] in front of [result] and dividing [temp] by 32. *)
Fixpoint encode_timestamp (rounds : nat) (temp : Z) (result : string) : string :=
  match rounds with
  | O => result
  | S rounds' =>
      encode_timestamp rounds' (temp / 32)%Z
        (char_at chars (Z.rem temp 32) ++ result)%string
  end.

(** The second loop: every byte gives [chars[byte % 32]], and every byte
    but the last also [chars[Math.floor(byte / 32)]]. *)
Fixpoint encode_randomness (randomness : bytes) (result : string) : string :=
  match randomness with
  | [] => result
  | b :: rest =>
      let byte := Z.of_N (Byte.to_N b) in
      let result := (result ++ char_at chars (Z.rem byte 32))%string in
      let result :=
        match rest with
        | [] => result
        | _ :: _ => (result ++ char_at chars (byte / 32)%Z)%string
        end in
      encode_randomness rest result
  end.

Definition generateUlid : M string :=
  timestamp <- Date_now ;;
  randomness <- randomBytes 10 ;;
  let result := encode_timestamp 10 timestamp "" in
  let result := encode_randomness randomness result in
  ret (js_slice 0 26 result).

Definition validatePassword (password : string) : PasswordValidation :=
  if negb (truthy_string password) || (String.length password <? 8)%nat then
    {| valid := false;
       message := Some "Password must be at least 8 characters long" |}
  else if (128 <? String.length password)%nat then
    {| valid := false;
       message := Some "Password must be less than 128 characters" |}
  else {| valid := true; message := None |}.

(** [b.toString(16).padStart(2, '0')] *)
Definition hex_of_byte (b : byte) : string :=
  padStart 2 "0"%char (Number_toString 16 (Z.of_N (Byte.to_N b))).

(** [array.map(f).join('')] *)
Definition map_join {A} (f : A -> string) (l : list A) : string :=
  fold_right (fun a acc => (f a ++ acc)%string) "" l.

Section Crypto.

Context {Value : Type} {P : Platform Value}.

Definition call_argon2_hash (o : Argon2Options) : M bytes :=
  fun w => (argon2_hash o, record_call CallArgon2Hash w).

Definition call_secretbox (message nonce key : bytes) : M bytes :=
  fun w => (nacl_secretbox message nonce key, record_call CallSecretbox w).

Definition call_secretbox_open (box nonce key : bytes) : M (option bytes) :=
  fun w => (nacl_secretbox_open box nonce key, record_call CallSecretboxOpen w).

Definition call_digest (data : bytes) : M bytes :=
  fun w => (Ok (subtle_digest_SHA256 data), record_call CallDigest w).

Definition deriveKey_options (password : string) (salt : bytes) : Argon2Options :=
  let passwordBytes := TextEncoder_encode password in
  let opslimit := 3 in
  let memlimit := 262144%N in
  {| pass := passwordBytes;
     salt := salt;
     time := opslimit;
     mem := memlimit;
     hashLen := 32;
     parallelism := 1;
     type := Argon2i |}.

Definition deriveKey (password : string) (salt : bytes) : M bytes :=
  result <- call_argon2_hash (deriveKey_options password salt) ;;
  ret result.

Definition encryptData (data : Value) (key : bytes) : M bytes :=
  let message := TextEncoder_encode (JSON_stringify data) in
  nonce <- randomBytes secretbox_nonceLength ;;
  ciphertext <- call_secretbox message nonce key ;;
  (* output = nonce, then ciphertext at offset nonce.length *)
  ret (nonce ++ ciphertext).

Definition decryptData (encryptedData key : bytes) : M Value :=
  let nonceLength := secretbox_nonceLength in
  if (List.length encryptedData <? nonceLength)%nat then
    throw "Invalid encrypted data format"
  else
    let nonce := firstn nonceLength encryptedData in
    let ciphertext := skipn nonceLength encryptedData in
    decrypted <- call_secretbox_open ciphertext nonce key ;;
    match decrypted with
    | None => throw "Decryption failed - incorrect password or corrupted data"
    | Some plain =>
        let jsonString := TextDecoder_decode plain in
        lift (JSON_parse jsonString)
    end.

Definition createKeyHash (key : bytes) : M string :=
  hashBuffer <- call_digest key ;;
  ret (map_join hex_of_byte hashBuffer).

(** The fingerprint of a key: the value [createKeyHash] resolves to. *)
Definition keyHash_of (key : bytes) : string :=
  map_join hex_of_byte (subtle_digest_SHA256 key).

Definition createEncryptedSurvey (surveyData : Value) (password : string)
  : M EncryptedSurvey :=
  let validation := validatePassword password in
  if negb (valid validation) then
    throw (match message validation with Some m => m | None => "" end)
  else
    salt <- randomBytes 16 ;;
    key <- deriveKey password salt ;;
    encryptedData <- encryptData surveyData key ;;
    keyHash <- createKeyHash key ;;
    id <- generateUlid ;;
    createdAt <- Date_now ;;
    ret {| es_id := id;
           es_salt := salt;
           es_encryptedData := encryptedData;
           es_keyHash := keyHash;
           es_createdAt := createdAt |}.

Definition decryptSurvey (encryptedSurvey : EncryptedSurvey) (password : string)
  : M (DecryptedSurvey Value) :=
  let salt := es_salt encryptedSurvey in
  let encryptedData := es_encryptedData encryptedSurvey in
  let keyHash := es_keyHash encryptedSurvey in
  key <- deriveKey password salt ;;
  computedHash <- createKeyHash key ;;
  if negb (String.eqb computedHash keyHash) then
    throw "Invalid password"
  else
    surveyData <- decryptData encryptedData key ;;
    ret {| surveyData := surveyData; key := key |}.

End Crypto.

(* ================================================================== *)
(** * The database layer (D1) *)
(* ================================================================== *)

(** The object [getSurvey] and [getSurveyByAnalysisId] build from a row;
    [analysisId] is absent from the former. [createSurvey] takes the same
    fields. *)
Record Survey := {
  id : string;
  analysisId : option string;
  title : string;
  description : string;
  questions : bytes;
  salt_of : bytes;
  createdAt : Z;
  expiresAt : option Z;
  maxResponses : option Z;
  creatorKeyHash : string
}.

Record ResponseData := {
  rd_id : string;
  rd_surveyId : string;
  rd_answers : bytes;
  rd_submittedAt : Z
}.

Record ResponseItem := {
  ri_id : string;
  ri_answers : bytes;
  ri_submittedAt : Z
}.

Record Stats := {
  st_surveyId : string;
  st_analysisId : option string;
  st_responseCount : Z;
  st_createdAt : Z;
  st_expiresAt : option Z;
  st_maxResponses : option Z;
  st_isExpired : bool;
  st_isAtLimit : bool
}.

Record Acceptance := {
  canAccept : bool;
  reason : string;
  accepted_survey : option Survey
}.

(** [result.meta] of D1: the number of rows the statement changed. *)
Record Meta := {
  meta_changes : nat
}.

(** The result of [stmt.run()] on D1: [{ success, meta, results }]. The
    number of rows changed is [result.meta.changes]. *)
Record RunResult := {
  success : bool;
  meta : Meta
}.

(** [result.changes]: the result of D1 has no property of that name, so
    the value read is [undefined], here [None]. *)
Definition changes (result : RunResult) : option nat := None.

(** [x === 0] for a value that is a number or [undefined]. *)
Definition is_zero (x : option nat) : bool :=
  match x with
  | Some n => (n =? 0)%nat
  | None => false
  end.

(** ** The SQL statements

    A constraint violation makes D1 reject the statement; a rejected
    statement changes nothing. *)

Definition analysis_id_is (a : string) (r : SurveyRow) : bool :=
  match sv_analysis_id r with
  | Some x => String.eqb x a
  | None => false
  end.

(** [SELECT * FROM surveys WHERE id = ?] with [.first()] *)
Definition select_survey_by_id (i : string) : M (option SurveyRow) :=
  fun w => (Ok (find (fun r => String.eqb (sv_id r) i) (surveys (DB w))), w).

(** [SELECT * FROM surveys WHERE analysis_id = ?] with [.first()] *)
Definition select_survey_by_analysis_id (a : string) : M (option SurveyRow) :=
  fun w => (Ok (find (analysis_id_is a) (surveys (DB w))), w).

Definition unique_violation (r : SurveyRow) (db : Database) : bool :=
  existsb (fun x => String.eqb (sv_id x) (sv_id r)) (surveys db)
  || match sv_analysis_id r with
     | Some a => existsb (analysis_id_is a) (surveys db)
     | None => false
     end.

(** [INSERT INTO surveys (...) VALUES (...)] *)
Definition insert_survey (r : SurveyRow) : M RunResult :=
  fun w =>
    if unique_violation r (DB w) then
      (Throw "D1_ERROR: UNIQUE constraint failed", w)
    else
      (Ok {| success := true; meta := {| meta_changes := 1 |} |},
       set_DB {| surveys := surveys (DB w) ++ [r];
                 responses := responses (DB w) |} w).

(** [INSERT INTO responses (...) VALUES (...)] *)
Definition insert_response (r : ResponseRow) : M RunResult :=
  fun w =>
    if existsb (fun x => String.eqb (rs_id x) (rs_id r)) (responses (DB w)) then
      (Throw "D1_ERROR: UNIQUE constraint failed", w)
    else
      (Ok {| success := true; meta := {| meta_changes := 1 |} |},
       set_DB {| surveys := surveys (DB w);
                 responses := responses (DB w) ++ [r] |} w).

Definition responses_of (i : string) (db : Database) : list ResponseRow :=
  filter (fun r => String.eqb (rs_survey_id r) i) (responses db).

Fixpoint insert_by (le : ResponseRow -> ResponseRow -> bool) (x : ResponseRow)
  (l : list ResponseRow) : list ResponseRow :=
  match l with
  | [] => [x]
  | y :: l' => if le x y then x :: l else y :: insert_by le x l'
  end.

Definition order_by (le : ResponseRow -> ResponseRow -> bool)
  (l : list ResponseRow) : list ResponseRow :=
  fold_right (insert_by le) [] l.

(** [SELECT ... FROM responses WHERE survey_id = ? ORDER BY submitted_at ASC] *)
Definition select_responses_asc (i : string) : M (list ResponseRow) :=
  fun w =>
    (Ok (order_by (fun x y => (rs_submitted_at x <=? rs_submitted_at y)%Z)
           (responses_of i (DB w))), w).

(** [SELECT * FROM responses WHERE survey_id = ? ORDER BY submitted_at DESC] *)
Definition select_responses_desc (i : string) : M (list ResponseRow) :=
  fun w =>
    (Ok (order_by (fun x y => (rs_submitted_at y <=? rs_submitted_at x)%Z)
           (responses_of i (DB w))), w).

(** [SELECT COUNT( * ) as count FROM responses WHERE survey_id = ?] *)
Definition select_response_count (i : string) : M Z :=
  fun w => (Ok (Z.of_nat (List.length (responses_of i (DB w)))), w).

(** [DELETE FROM responses WHERE survey_id = ?] *)
Definition delete_responses (i : string) : M RunResult :=
  fun w =>
    (Ok {| success := true;
           meta := {| meta_changes := List.length (responses_of i (DB w)) |} |},
     set_DB {| surveys := surveys (DB w);
               responses := filter (fun r => negb (String.eqb (rs_survey_id r) i))
                              (responses (DB w)) |} w).

(** [DELETE FROM surveys WHERE id = ?] *)
Definition delete_survey_row (i : string) : M RunResult :=
  fun w =>
    (Ok {| success := true;
           meta := {| meta_changes :=
                        List.length (filter (fun r => String.eqb (sv_id r) i)
                                       (surveys (DB w))) |} |},
     set_DB {| surveys := filter (fun r => negb (String.eqb (sv_id r) i))
                            (surveys (DB w));
               responses := responses (DB w) |} w).

(** ** The exported operations *)

Definition row_of_survey (s : Survey) : SurveyRow :=
  {| sv_id := id s;
     sv_analysis_id := analysisId s;
     sv_title := title s;
     sv_description := description s;
     sv_questions := questions s;
     sv_salt := salt_of s;
     sv_created_at := createdAt s;
     sv_expires_at := expiresAt s;
     sv_max_responses := maxResponses s;
     sv_creator_key_hash := creatorKeyHash s |}.

Definition createSurvey (surveyData : Survey) : M (string * option string * bool) :=
  result <- insert_survey (row_of_survey surveyData) ;;
  if negb (success result) then throw "Failed to create survey"
  else ret (id surveyData, analysisId surveyData, true).

Definition getSurvey (surveyId : string) : M (option Survey) :=
  result <- select_survey_by_id surveyId ;;
  match result with
  | None => ret None
  | Some result =>
      ret (Some {| id := sv_id result;
                   analysisId := None;
                   title := sv_title result;
                   description := sv_description result;
                   questions := sv_questions result;
                   salt_of := sv_salt result;
                   createdAt := sv_created_at result;
                   expiresAt := sv_expires_at result;
                   maxResponses := sv_max_responses result;
                   creatorKeyHash := sv_creator_key_hash result |})
  end.

Definition getResponseCount (surveyId : string) : M Z :=
  select_response_count surveyId.

(** [x && Date.now() > x]: the clock is read only when [x] is truthy. *)
Definition expired (expiresAt : option Z) : M bool :=
  match expiresAt with
  | Some e =>
      if truthy_number e then now <- Date_now ;; ret (e <? now)%Z
      else ret false
  | None => ret false
  end.

Definition canAcceptResponses (surveyId : string) : M Acceptance :=
  survey <- getSurvey surveyId ;;
  match survey with
  | None =>
      ret {| canAccept := false; reason := "Survey not found";
             accepted_survey := None |}
  | Some survey =>
      is_expired <- expired (expiresAt survey) ;;
      if is_expired then
        ret {| canAccept := false; reason := "Survey has expired";
               accepted_survey := None |}
      else
        let accept :=
          ret {| canAccept := true; reason := "";
                 accepted_survey := Some survey |} in
        match maxResponses survey with
        | Some m =>
            if truthy_number m then
              responseCount <- getResponseCount surveyId ;;
              if (m <=? responseCount)%Z then
                ret {| canAccept := false;
                       reason := "Survey has reached maximum responses";
                       accepted_survey := None |}
              else accept
            else accept
        | None => accept
        end
  end.

Definition submitResponse (responseData : ResponseData) : M (string * bool) :=
  canAccept_ <- canAcceptResponses (rd_surveyId responseData) ;;
  if negb (canAccept canAccept_) then throw (reason canAccept_)
  else
    result <- insert_response {| rs_id := rd_id responseData;
                                 rs_survey_id := rd_surveyId responseData;
                                 rs_answers := rd_answers responseData;
                                 rs_submitted_at := rd_submittedAt responseData |} ;;
    if negb (success result) then throw "Failed to submit response"
    else ret (rd_id responseData, true).

Definition getSurveyByAnalysisId (analysisId_ : string) : M (option Survey) :=
  survey <- select_survey_by_analysis_id analysisId_ ;;
  match survey with
  | None => ret None
  | Some survey =>
      ret (Some {| id := sv_id survey;
                   analysisId := sv_analysis_id survey;
                   title := sv_title survey;
                   description := sv_description survey;
                   questions := sv_questions survey;
                   salt_of := sv_salt survey;
                   createdAt := sv_created_at survey;
                   expiresAt := sv_expires_at survey;
                   maxResponses := sv_max_responses survey;
                   creatorKeyHash := sv_creator_key_hash survey |})
  end.

Definition item_of_row (response : ResponseRow) : ResponseItem :=
  {| ri_id := rs_id response;
     ri_answers := rs_answers response;
     ri_submittedAt := rs_submitted_at response |}.

Definition getSurveyResponsesByAnalysisId (analysisId_ creatorKeyHash_ : string)
  : M (list ResponseItem) :=
  survey <- getSurveyByAnalysisId analysisId_ ;;
  match survey with
  | None => throw "Survey not found"
  | Some survey =>
      if negb (String.eqb (creatorKeyHash survey) creatorKeyHash_) then
        throw "Unauthorized - incorrect creator key"
      else
        responses <- select_responses_desc (id survey) ;;
        ret (map item_of_row responses)
  end.

Definition getSurveyResponses (surveyId creatorKeyHash_ : string)
  : M (list ResponseItem) :=
  survey <- getSurvey surveyId ;;
  match survey with
  | None => throw "Survey not found"
  | Some survey =>
      if negb (String.eqb (creatorKeyHash survey) creatorKeyHash_) then
        throw "Unauthorized - incorrect creator key"
      else
        results <- select_responses_asc surveyId ;;
        ret (map item_of_row results)
  end.

(** [m ? responseCount >= m : false] *)
Definition at_limit (maxResponses : option Z) (responseCount : Z) : bool :=
  match maxResponses with
  | Some m => if truthy_number m then (m <=? responseCount)%Z else false
  | None => false
  end.

Definition getSurveyStatsByAnalysisId (analysisId_ creatorKeyHash_ : string)
  : M Stats :=
  survey <- getSurveyByAnalysisId analysisId_ ;;
  match survey with
  | None => throw "Survey not found"
  | Some survey =>
      if negb (String.eqb (creatorKeyHash survey) creatorKeyHash_) then
        throw "Unauthorized - incorrect creator key"
      else
        responseCount <- getResponseCount (id survey) ;;
        isExpired <- expired (expiresAt survey) ;;
        ret {| st_surveyId := id survey;
               st_analysisId := analysisId survey;
               st_responseCount := responseCount;
               st_createdAt := createdAt survey;
               st_expiresAt := expiresAt survey;
               st_maxResponses := maxResponses survey;
               st_isExpired := isExpired;
               st_isAtLimit := at_limit (maxResponses survey) responseCount |}
  end.

Definition getSurveyStats (surveyId creatorKeyHash_ : string) : M Stats :=
  survey <- getSurvey surveyId ;;
  match survey with
  | None => throw "Survey not found"
  | Some survey =>
      if negb (String.eqb (creatorKeyHash survey) creatorKeyHash_) then
        throw "Unauthorized - incorrect creator key"
      else
        responseCount <- getResponseCount surveyId ;;
        isExpired <- expired (expiresAt survey) ;;
        ret {| st_surveyId := surveyId;
               st_analysisId := None;
               st_responseCount := responseCount;
               st_createdAt := createdAt survey;
               st_expiresAt := expiresAt survey;
               st_maxResponses := maxResponses survey;
               st_isExpired := isExpired;
               st_isAtLimit := at_limit (maxResponses survey) responseCount |}
  end.

(** What a deletion returns; [deletedResponses] is a number or
    [undefined] ([None]). *)
Record Deletion := {
  deletedSurvey : bool;
  deletedResponses : option nat
}.

Definition deleteSurveyByAnalysisId (analysisId_ creatorKeyHash_ : string)
  : M Deletion :=
  survey <- select_survey_by_analysis_id analysisId_ ;;
  match survey with
  | None => throw "Survey not found"
  | Some survey =>
      if negb (String.eqb (sv_creator_key_hash survey) creatorKeyHash_) then
        throw "Unauthorized - only survey creator can delete"
      else
        responseResult <- delete_responses (sv_id survey) ;;
        surveyResult <- delete_survey_row (sv_id survey) ;;
        if is_zero (changes surveyResult) then
          throw "Survey not found or already deleted"
        else
          ret {| deletedSurvey := true;
                 deletedResponses := changes responseResult |}
  end.

Definition deleteSurvey (surveyId creatorKeyHash_ : string) : M Deletion :=
  survey <- select_survey_by_id surveyId ;;
  match survey with
  | None => throw "Survey not found"
  | Some survey =>
      if negb (String.eqb (sv_creator_key_hash survey) creatorKeyHash_) then
        throw "Unauthorized - only survey creator can delete"
      else
        responseResult <- delete_responses surveyId ;;
        surveyResult <- delete_survey_row surveyId ;;
        if is_zero (changes surveyResult) then
          throw "Survey not found or already deleted"
        else
          ret {| deletedSurvey := true;
                 deletedResponses := changes responseResult |}
  end.

(* ================================================================== *)
(** * The worker *)
(* ================================================================== *)

(** The body of a creation request, [body.encryptedSurvey]; a field that
    is missing from the JSON text is [None]. *)
Record SurveyMessage := {
  m_id : option string;
  m_salt : option bytes;
  m_encryptedData : option bytes;
  m_keyHash : option string;
  m_createdAt : option Z;
  m_expiresAt : option Z;
  m_maxResponses : option Z
}.

(** [body.encryptedResponse] *)
Record ResponseMessage := {
  m_response_id : option string;
  m_encryptedAnswers : option bytes
}.

(** The two properties the handlers read of the body; one that is
    missing, or falsy, is [None]. *)
Record RequestBody := {
  encryptedSurvey : option SurveyMessage;
  encryptedResponse : option ResponseMessage
}.

(** What [request.json()] resolves to: [null], or another value with
    the properties read of it (a number, a string, a boolean or an array
    has neither of them). *)
Inductive JsonBody : Type :=
| JsonNull
| JsonFields (fields : RequestBody).

Record Request := {
  method : string;
  url : string;                     (* request.url *)
  pathname : string;                (* new URL(request.url).pathname *)
  keyHashParam : option string;     (* url.searchParams.get('keyHash') *)
  json : Result JsonBody            (* await request.json() *)
}.

(** [const { property } = body]: reading a property of [null] throws a
    [TypeError], with this message on V8. *)
Definition destructure (property : string) (body : JsonBody) : M RequestBody :=
  match body with
  | JsonNull =>
      throw ("Cannot destructure property '" ++ property
             ++ "' of 'body' as it is null.")%string
  | JsonFields fields => ret fields
  end.

Record SurveyShell := {
  sh_id : string;
  sh_salt : bytes;
  sh_encryptedData : bytes;
  sh_keyHash : string;
  sh_createdAt : Z;
  sh_expiresAt : option Z;
  sh_maxResponses : option Z
}.

(** The [data] of a successful answer, and the error of a failed one. *)
Inductive Payload : Type :=
| Failure (error : string)
| Created (id analysisId url analysisUrl : string)
| Shell (data : SurveyShell)
| Submitted (id : string)
| Listing (responses : list ResponseItem) (stats : Stats)
| Deleted (result : Deletion).

Record File := {
  content : string;
  contentType : string
}.

Inductive Body : Type :=
| NoBody
| Json (data : Payload)
| Raw (contentType : string) (content : string).

Record Response := {
  status : nat;
  body : Body
}.

(** [handleOptions()] *)
Definition handleOptions : Response := {| status := 204; body := NoBody |}.

Definition apiResponse (data : Payload) (status : nat) : Response :=
  {| status := status; body := Json data |}.

Definition errorResponse (message : string) (status : nat) : Response :=
  apiResponse (Failure message) status.

(** [generateId()]: the base-36 clock reading followed by characters 2..14
    of a base-36 random fraction, upper-cased and cut to 26 characters. *)
Definition generateId : M string :=
  now <- Date_now ;;
  let timestamp := Number_toString 36 now in
  random <- Math_random_toString36 ;;
  let randomPart := js_substring 2 15 random in
  ret (js_substring 0 26 (toUpperCase (timestamp ++ randomPart)%string)).

(** [!x] for a field that may be missing. *)
Definition missing {A} (t : A -> bool) (o : option A) : bool :=
  negb (truthy_opt t o).

Definition truthy_array (_ : bytes) : bool := true.

(** The loop over [required]: the first field that is falsy, if any. *)
Definition first_missing_field (s : SurveyMessage) : option string :=
  if missing truthy_string (m_id s) then Some "id"
  else if missing truthy_array (m_salt s) then Some "salt"
  else if missing truthy_array (m_encryptedData s) then Some "encryptedData"
  else if missing truthy_string (m_keyHash s) then Some "keyHash"
  else if missing truthy_number (m_createdAt s) then Some "createdAt"
  else None.

(** [x || null] *)
Definition or_null (o : option Z) : option Z :=
  match o with
  | Some n => if truthy_number n then Some n else None
  | None => None
  end.

Definition get {A} (d : A) (o : option A) : A :=
  match o with
  | Some a => a
  | None => d
  end.

Definition handleCreateSurvey (request : Request) : M Response :=
  try_catch
    (body <- lift (json request) ;;
     body <- destructure "encryptedSurvey" body ;;
     match encryptedSurvey body with
     | None => ret (errorResponse "Missing encrypted survey data" 400)
     | Some encryptedSurvey =>
         match first_missing_field encryptedSurvey with
         | Some field =>
             ret (errorResponse ("Missing required field: " ++ field)%string 400)
         | None =>
             analysisId_ <- generateId ;;
             let surveyData :=
               {| id := get "" (m_id encryptedSurvey);
                  analysisId := Some analysisId_;
                  title := "";
                  description := "";
                  questions := get [] (m_encryptedData encryptedSurvey);
                  salt_of := get [] (m_salt encryptedSurvey);
                  createdAt := get 0%Z (m_createdAt encryptedSurvey);
                  expiresAt := or_null (m_expiresAt encryptedSurvey);
                  maxResponses := or_null (m_maxResponses encryptedSurvey);
                  creatorKeyHash := get "" (m_keyHash encryptedSurvey) |} in
             result <- createSurvey surveyData ;;
             let '(result_id, result_analysisId, _) := result in
             let base := split_head "/api" (url request) in
             ret (apiResponse
                    (Created result_id (get "" result_analysisId)
                       (base ++ "/survey/" ++ result_id)%string
                       (base ++ "/analyze/" ++ get "" result_analysisId)%string)
                    200)
         end
     end)
    (fun error_message => ret (errorResponse error_message 500)).

Definition shell_of (survey : Survey) : SurveyShell :=
  {| sh_id := id survey;
     sh_salt := salt_of survey;
     sh_encryptedData := questions survey;
     sh_keyHash := creatorKeyHash survey;
     sh_createdAt := createdAt survey;
     sh_expiresAt := expiresAt survey;
     sh_maxResponses := maxResponses survey |}.

Definition handleGetSurvey (surveyId : string) : M Response :=
  try_catch
    (survey <- getSurvey surveyId ;;
     match survey with
     | None => ret (errorResponse "Survey not found" 404)
     | Some survey => ret (apiResponse (Shell (shell_of survey)) 200)
     end)
    (fun error_message => ret (errorResponse error_message 500)).

Definition handleGetSurveyByAnalysisId (analysisId_ : string) : M Response :=
  try_catch
    (survey <- getSurveyByAnalysisId analysisId_ ;;
     match survey with
     | None => ret (errorResponse "Survey not found" 404)
     | Some survey => ret (apiResponse (Shell (shell_of survey)) 200)
     end)
    (fun error_message => ret (errorResponse error_message 500)).

Definition handleSubmitResponse (surveyId : string) (request : Request)
  : M Response :=
  try_catch
    (body <- lift (json request) ;;
     body <- destructure "encryptedResponse" body ;;
     match encryptedResponse body with
     | None => ret (errorResponse "Missing encrypted response data" 400)
     | Some encryptedResponse =>
         if missing truthy_string (m_response_id encryptedResponse)
            || missing truthy_array (m_encryptedAnswers encryptedResponse)
         then ret (errorResponse "Missing required response fields" 400)
         else
           canAccept_ <- canAcceptResponses surveyId ;;
           if negb (canAccept canAccept_) then
             ret (errorResponse (reason canAccept_) 400)
           else
             submittedAt <- Date_now ;;
             let responseData :=
               {| rd_id := get "" (m_response_id encryptedResponse);
                  rd_surveyId := surveyId;
                  rd_answers := get [] (m_encryptedAnswers encryptedResponse);
                  rd_submittedAt := submittedAt |} in
             result <- submitResponse responseData ;;
             ret (apiResponse (Submitted (fst result)) 200)
     end)
    (fun error_message => ret (errorResponse error_message 500)).

Definition handleGetResponses (surveyId : string) (request : Request)
  : M Response :=
  try_catch
    (let keyHash := keyHashParam request in
     if missing truthy_string keyHash then
       ret (errorResponse "Missing authorization key hash" 401)
     else
       responses <- getSurveyResponses surveyId (get "" keyHash) ;;
       stats <- getSurveyStats surveyId (get "" keyHash) ;;
       ret (apiResponse (Listing responses stats) 200))
    (fun error_message =>
       if includes "Unauthorized" error_message then
         ret (errorResponse error_message 401)
       else ret (errorResponse error_message 500)).

Definition handleGetResponsesByAnalysisId (analysisId_ : string)
  (request : Request) : M Response :=
  try_catch
    (let keyHash := keyHashParam request in
     if missing truthy_string keyHash then
       ret (errorResponse "Missing authorization key hash" 401)
     else
       responses <- getSurveyResponsesByAnalysisId analysisId_ (get "" keyHash) ;;
       stats <- getSurveyStatsByAnalysisId analysisId_ (get "" keyHash) ;;
       ret (apiResponse (Listing responses stats) 200))
    (fun error_message =>
       if includes "Unauthorized" error_message then
         ret (errorResponse error_message 401)
       else ret (errorResponse error_message 500)).

Definition handleDeleteSurveyByAnalysisId (analysisId_ : string)
  (request : Request) : M Response :=
  try_catch
    (let keyHash := keyHashParam request in
     if missing truthy_string keyHash then
       ret (errorResponse "Missing authorization key hash" 401)
     else
       result <- deleteSurveyByAnalysisId analysisId_ (get "" keyHash) ;;
       ret (apiResponse (Deleted result) 200))
    (fun error_message =>
       if includes "Unauthorized" error_message
          || includes "not found" error_message then
         ret (errorResponse error_message 401)
       else ret (errorResponse error_message 500)).

Definition handleDeleteSurvey (surveyId : string) (request : Request)
  : M Response :=
  try_catch
    (let keyHash := keyHashParam request in
     if missing truthy_string keyHash then
       ret (errorResponse "Missing authorization key hash" 401)
     else
       result <- deleteSurvey surveyId (get "" keyHash) ;;
       ret (apiResponse (Deleted result) 200))
    (fun error_message =>
       if includes "Unauthorized" error_message
          || includes "not found" error_message then
         ret (errorResponse error_message 401)
       else ret (errorResponse error_message 500)).

(** ** Routing *)

Definition is_alnum (c : ascii) : bool :=
  let n := nat_of_ascii c in
  (((48 <=? n) && (n <=? 57)) || ((65 <=? n) && (n <=? 90))
   || ((97 <=? n) && (n <=? 122)))%nat.

Fixpoint strip_prefix (p s : string) : option string :=
  match p, s with
  | EmptyString, _ => Some s
  | String a p', String b s' =>
      if Ascii.eqb a b then strip_prefix p' s' else None
  | String _ _, EmptyString => None
  end.

(** The longest run of [[a-zA-Z0-9]] at the head of [s], and what follows. *)
Fixpoint span_alnum (s : string) : string * string :=
  match s with
  | EmptyString => (EmptyString, EmptyString)
  | String c s' =>
      if is_alnum c then
        let (run, rest) := span_alnum s' in (String c run, rest)
      else (EmptyString, s)
  end.

(** [path.match(/^prefix([a-zA-Z0-9]+)suffix$/)] for a [suffix] that is
    empty or begins with a slash: the captured group, when there is a
    match. The group is then the whole run of letters and digits. *)
Definition match_route (prefix suffix path : string) : option string :=
  match strip_prefix prefix path with
  | None => None
  | Some rest =>
      let (group, tail) := span_alnum rest in
      if truthy_string group && String.eqb tail suffix then Some group
      else None
  end.

(** [match && test]: the match, when there is one and the test holds. *)
Definition and_then (m : option string) (test : bool) : option string :=
  if test then m else None.

Notation "m &&& test" := (and_then m test) (at level 40, left associativity).

Section Worker.

(** [getFile] of [assets.js], the inlined static assets. *)
Variable getFile : string -> option File.

Definition serveStaticFile (path : string) : Response :=
  let path := if String.eqb path "/" then "/index.html" else path in
  let path :=
    if startsWith "/survey/" path then "/survey.html"
    else if startsWith "/create" path then "/create.html"
    else if startsWith "/analyze/" path then "/analyze.html"
    else path in
  match getFile path with
  | Some file => {| status := 200; body := Raw (contentType file) (content file) |}
  | None => {| status := 404; body := Raw "text/plain" "File not found" |}
  end.

Definition handleRequest (request : Request) : M Response :=
  let path := pathname request in
  let method := method request in
  if String.eqb method "OPTIONS" then ret handleOptions
  else if startsWith "/api/" path then
    if String.eqb path "/api/survey" && String.eqb method "POST" then
      handleCreateSurvey request
    else
      let surveyMatch := match_route "/api/survey/" "" path in
      match surveyMatch &&& String.eqb method "GET" with
      | Some surveyId => handleGetSurvey surveyId
      | None =>
      let responseMatch := match_route "/api/survey/" "/response" path in
      match responseMatch &&& String.eqb method "POST" with
      | Some surveyId => handleSubmitResponse surveyId request
      | None =>
      let responsesMatch := match_route "/api/survey/" "/responses" path in
      match responsesMatch &&& String.eqb method "GET" with
      | Some surveyId => handleGetResponses surveyId request
      | None =>
      let deleteMatch := match_route "/api/survey/" "" path in
      match deleteMatch &&& String.eqb method "DELETE" with
      | Some surveyId => handleDeleteSurvey surveyId request
      | None =>
      let analysisSurveyMatch := match_route "/api/analysis/" "/survey" path in
      match analysisSurveyMatch &&& String.eqb method "GET" with
      | Some analysisId => handleGetSurveyByAnalysisId analysisId
      | None =>
      let analysisResponsesMatch :=
        match_route "/api/analysis/" "/responses" path in
      match analysisResponsesMatch &&& String.eqb method "GET" with
      | Some analysisId => handleGetResponsesByAnalysisId analysisId request
      | None =>
      let analysisDeleteMatch := match_route "/api/analysis/" "" path in
      match analysisDeleteMatch &&& String.eqb method "DELETE" with
      | Some analysisId => handleDeleteSurveyByAnalysisId analysisId request
      | None => ret (errorResponse "API endpoint not found" 404)
      end end end end end end end
  else if startsWith "/src/shared/" path then ret (serveStaticFile path)
  else ret (serveStaticFile path).

End Worker.

(* ================================================================== *)
(** * A sample platform

    Small stand-ins with the interface of the libraries, on which the
    program can be run: a three-constructor value type with its printer
    and reader, a key derivation that rejects short salts as Argon2 does,
    a keystream cipher with a 16-byte tag, and a 32-byte digest. *)
(* ================================================================== *)

Definition byte_of_nat (n : nat) : byte :=
  match Byte.of_nat (n mod 256) with
  | Some b => b
  | None => x00
  end.

Definition byte_xor (a b : byte) : byte :=
  let '(a0, (a1, (a2, (a3, (a4, (a5, (a6, a7))))))) := Byte.to_bits a in
  let '(b0, (b1, (b2, (b3, (b4, (b5, (b6, b7))))))) := Byte.to_bits b in
  Byte.of_bits (xorb a0 b0, (xorb a1 b1, (xorb a2 b2, (xorb a3 b3,
               (xorb a4 b4, (xorb a5 b5, (xorb a6 b6, xorb a7 b7))))))).

Fixpoint bytes_eqb (a b : bytes) : bool :=
  match a, b with
  | [], [] => true
  | x :: a', y :: b' => Byte.eqb x y && bytes_eqb a' b'
  | _, _ => false
  end.

Inductive SampleValue : Type :=
| VNull
| VBool (b : bool)
| VText (s : string).

Definition quote : ascii := "034"%char.

Fixpoint drop_last (s : string) : string :=
  match s with
  | EmptyString => EmptyString
  | String c EmptyString => EmptyString
  | String c s' => String c (drop_last s')
  end.

Definition sample_stringify (v : SampleValue) : string :=
  match v with
  | VNull => "null"
  | VBool true => "true"
  | VBool false => "false"
  | VText s => String quote (s ++ String quote EmptyString)
  end.

Definition sample_parse (s : string) : Result SampleValue :=
  if String.eqb s "null" then Ok VNull
  else if String.eqb s "true" then Ok (VBool true)
  else if String.eqb s "false" then Ok (VBool false)
  else match s with
       | String c rest =>
           if Ascii.eqb c quote then Ok (VText (drop_last rest))
           else Throw "Unexpected token"
       | EmptyString => Throw "Unexpected end of JSON input"
       end.

(** [n] bytes read cyclically from [src]. *)
Definition stretch (n : nat) (src : bytes) : bytes :=
  map (fun i => nth (i mod (List.length src)) src x00) (seq 0 n).

Definition sample_argon2 (o : Argon2Options) : Result bytes :=
  if (List.length (salt o) <? 8)%nat then Throw "Salt is too short"
  else Ok (stretch (hashLen o) (pass o ++ salt o)).

Definition sample_tag (nonce key : bytes) : bytes :=
  map (fun i => byte_xor (nth i key x00) (nth i nonce x00)) (seq 0 16).

Fixpoint sample_stream (i : nat) (nonce key data : bytes) : bytes :=
  match data with
  | [] => []
  | b :: rest =>
      byte_xor b (byte_xor (nth (i mod 32) key x00) (nth (i mod 24) nonce x00))
      :: sample_stream (S i) nonce key rest
  end.

Definition sample_secretbox (message nonce key : bytes) : Result bytes :=
  if negb (List.length key =? 32)%nat then Throw "bad key size"
  else if negb (List.length nonce =? 24)%nat then Throw "bad nonce size"
  else Ok (sample_tag nonce key ++ sample_stream 0 nonce key message).

Definition sample_secretbox_open (box nonce key : bytes) : Result (option bytes) :=
  if negb (List.length key =? 32)%nat then Throw "bad key size"
  else if negb (List.length nonce =? 24)%nat then Throw "bad nonce size"
  else if bytes_eqb (firstn 16 box) (sample_tag nonce key) then
    Ok (Some (sample_stream 0 nonce key (skipn 16 box)))
  else Ok None.

Definition sample_digest (data : bytes) : bytes :=
  stretch 32 (rev data ++ [x2a]).

Definition sample : Platform SampleValue :=
  {| JSON_stringify := sample_stringify;
     JSON_parse := sample_parse;
     TextEncoder_encode := list_byte_of_string;
     TextDecoder_decode := string_of_list_byte;
     argon2_hash := sample_argon2;
     nacl_secretbox := sample_secretbox;
     nacl_secretbox_open := sample_secretbox_open;
     subtle_digest_SHA256 := sample_digest |}.

Definition empty_database : Database := {| surveys := []; responses := [] |}.

(** A world whose clock starts on 2023-11-14T22:13:20Z and ticks one
    millisecond per reading, and whose random fraction is 0.712 (the
    double 3206562934687793 / 2^52), in base 36 the text
    [0.pmr2lb8co6p]. *)
Definition sample_world : World :=
  {| entropy := fun i => byte_of_nat (7 * i + 3);
     entropy_pos := 0;
     clock := fun i => (1700000000000 + Z.of_nat i)%Z;
     clock_pos := 0;
     random36 := fun _ => "0.pmr2lb8co6p";
     random36_pos := 0;
     DB := empty_database;
     calls := [] |}.

Definition sample_row : SurveyRow :=
  {| sv_id := "01HF7YAT00V3C1S4R6D0F7M2K9";
     sv_analysis_id := Some "LOYW3V28PMR2LB8CO6P";
     sv_title := "";
     sv_description := "";
     sv_questions := [x01; x02; x03];
     sv_salt := [x0a; x0b];
     sv_created_at := 1700000000000%Z;
     sv_expires_at := None;
     sv_max_responses := None;
     sv_creator_key_hash := "5e884898da28047151d0e56f8dc62927" |}.

Definition sample_response_row : ResponseRow :=
  {| rs_id := "01HF7YB5Q2E8X4N6T0W3Z5A7C9";
     rs_survey_id := "01HF7YAT00V3C1S4R6D0F7M2K9";
     rs_answers := [x09; x08];
     rs_submitted_at := 1700000005000%Z |}.

Definition sample_database : Database :=
  {| surveys := [sample_row]; responses := [sample_response_row] |}.

Definition sample_assets (_ : string) : option File := None.


(** The package [createEncryptedSurvey] makes of [VText "Q?"] under the
    password [correct-horse-battery] on the sample platform. *)
Definition sample_package : EncryptedSurvey :=
  Eval vm_compute in
    match fst (createEncryptedSurvey (P := sample) (VText "Q?")
                 "correct-horse-battery" sample_world) with
    | Ok pkg => pkg
    | Throw _ =>
        {| es_id := ""; es_salt := []; es_encryptedData := [];
           es_keyHash := ""; es_createdAt := 0 |}
    end.

Definition sample_key : bytes := stretch 32 [x6b; x65; x79].

(* ================================================================== *)
(** * Vocabulary of the statements *)
(* ================================================================== *)

Fixpoint string_forallb (p : ascii -> bool) (s : string) : bool :=
  match s with
  | EmptyString => true
  | String c s' => p c && string_forallb p s'
  end.

Definition in_alphabet (alphabet : string) (c : ascii) : bool :=
  existsb (Ascii.eqb c) (list_ascii_of_string alphabet).

(** Every character of [s] is a symbol of [alphabet]. *)
Definition over_alphabet (alphabet s : string) : bool :=
  string_forallb (in_alphabet alphabet) s.

(** A creator-only operation went through: the answer is a 200 carrying
    the responses with their statistics, or the outcome of a deletion. *)
Definition creator_only_success (r : Response) : bool :=
  match body r with
  | Json (Listing _ _) | Json (Deleted _) => (status r =? 200)%nat
  | _ => false
  end.

(** A computation that never answers with a creator-only success. *)
Definition plain (m : M Response) : Prop :=
  forall w r w', m w = (Ok r, w') -> creator_only_success r = false.

(** The request [GET /api/survey/<id>/responses?keyHash=<hash>] that names
    the sample survey by its response-scope id. *)
Definition sample_request : Request :=
  {| method := "GET";
     url := "https://survey.example/api/survey/01HF7YAT00V3C1S4R6D0F7M2K9/responses?keyHash=5e884898da28047151d0e56f8dc62927";
     pathname := "/api/survey/01HF7YAT00V3C1S4R6D0F7M2K9/responses";
     keyHashParam := Some "5e884898da28047151d0e56f8dc62927";
     json := Throw "Unexpected end of JSON input" |}.

(** The same for [DELETE /api/survey/<id>?keyHash=<hash>]. *)
Definition sample_delete_request : Request :=
  {| method := "DELETE";
     url := "https://survey.example/api/survey/01HF7YAT00V3C1S4R6D0F7M2K9?keyHash=5e884898da28047151d0e56f8dc62927";
     pathname := "/api/survey/01HF7YAT00V3C1S4R6D0F7M2K9";
     keyHashParam := Some "5e884898da28047151d0e56f8dc62927";
     json := Throw "Unexpected end of JSON input" |}.

Definition stored_world : World := set_DB sample_database sample_world.

(* ================================================================== *)
(** * The rest of the database layer and of the worker *)
(* ================================================================== *)

(** The default of [maxAge]: [30 * 24 * 60 * 60 * 1000]. *)
Definition default_maxAge : Z := 30 * 24 * 60 * 60 * 1000.

Definition is_old (cutoffTime : Z) (s : SurveyRow) : bool :=
  (sv_created_at s <? cutoffTime)%Z.

(** [DELETE FROM responses WHERE survey_id IN
     (SELECT id FROM surveys WHERE created_at < ?)] *)
Definition delete_responses_of_old (cutoffTime : Z) : M RunResult :=
  fun w =>
    let old_ids := map sv_id (filter (is_old cutoffTime) (surveys (DB w))) in
    let doomed r := existsb (String.eqb (rs_survey_id r)) old_ids in
    (Ok {| success := true;
           meta := {| meta_changes :=
                        List.length (filter doomed (responses (DB w))) |} |},
     set_DB {| surveys := surveys (DB w);
               responses := filter (fun r => negb (doomed r)) (responses (DB w)) |}
       w).

(** [DELETE FROM surveys WHERE created_at < ?] *)
Definition delete_old_surveys (cutoffTime : Z) : M RunResult :=
  fun w =>
    (Ok {| success := true;
           meta := {| meta_changes :=
                        List.length (filter (is_old cutoffTime)
                                       (surveys (DB w))) |} |},
     set_DB {| surveys := filter (fun s => negb (is_old cutoffTime s))
                            (surveys (DB w));
               responses := responses (DB w) |} w).

(** What the cleanup returns; [deletedCount] is a number or [undefined]
    ([None]). *)
Record Cleanup := {
  deletedCount : option nat
}.

Definition cleanupExpiredSurveys (maxAge : Z) : M Cleanup :=
  now <- Date_now ;;
  let cutoffTime := (now - maxAge)%Z in
  delete_responses_of_old cutoffTime ;;;
  result <- delete_old_surveys cutoffTime ;;
  ret {| deletedCount := changes result |}.

(** The worker's [fetch]: [handleRequest], and a 500 for what it throws. *)
Definition fetch (getFile : string -> option File) (request : Request)
  : M Response :=
  try_catch (handleRequest getFile request)
    (fun _ => ret (errorResponse "Internal server error" 500)).

(* ================================================================== *)
(** * Vocabulary for the database *)
(* ================================================================== *)

Definition analysis_ids (db : Database) : list string :=
  flat_map (fun s => match sv_analysis_id s with
                     | Some a => [a]
                     | None => []
                     end) (surveys db).

(** The constraints of the schema: the two primary keys, the unique index
    on [analysis_id], and the foreign key of [responses]. *)
Record db_wf (db : Database) : Prop := {
  wf_survey_ids : NoDup (map sv_id (surveys db));
  wf_analysis_ids : NoDup (analysis_ids db);
  wf_response_ids : NoDup (map rs_id (responses db));
  wf_parent : forall r, In r (responses db) ->
                exists s, In s (surveys db) /\ sv_id s = rs_survey_id r
}.

Definition add_survey (row : SurveyRow) (db : Database) : Database :=
  {| surveys := surveys db ++ [row]; responses := responses db |}.

Definition add_response (r : ResponseRow) (db : Database) : Database :=
  {| surveys := surveys db; responses := responses db ++ [r] |}.

(** A survey gone with all its responses. *)
Definition remove_survey (i : string) (db : Database) : Database :=
  {| surveys := filter (fun s => negb (String.eqb (sv_id s) i)) (surveys db);
     responses := filter (fun r => negb (String.eqb (rs_survey_id r) i))
                    (responses db) |}.

(** What one request may do to the database. *)
Inductive db_step (db : Database) : Database -> Prop :=
| step_none : db_step db db
| step_created row :
    unique_violation row db = false -> db_step db (add_survey row db)
| step_submitted r :
    existsb (fun x => String.eqb (rs_id x) (rs_id r)) (responses db) = false ->
    (exists s, In s (surveys db) /\ sv_id s = rs_survey_id r) ->
    db_step db (add_response r db)
| step_deleted i : db_step db (remove_survey i db).

(** A computation that leaves the database as it found it. *)
Definition readonly {A} (m : M A) : Prop :=
  forall w r w', m w = (r, w') -> DB w' = DB w.

(** The reading [Date.now()] gives next. *)
Definition clock_now (w : World) : Z := clock w (clock_pos w).

(** The number of stored responses to a survey. *)
Definition response_count (i : string) (db : Database) : Z :=
  Z.of_nat (List.length (responses_of i db)).

Definition find_survey (i : string) (db : Database) : option SurveyRow :=
  find (fun r => String.eqb (sv_id r) i) (surveys db).

Definition row_of_response (rd : ResponseData) : ResponseRow :=
  {| rs_id := rd_id rd;
     rs_survey_id := rd_surveyId rd;
     rs_answers := rd_answers rd;
     rs_submitted_at := rd_submittedAt rd |}.

(** The survey as [getSurvey] reports it: the fields of the row, without
    the analysis id. *)
Definition without_analysisId (s : Survey) : Survey :=
  {| id := id s;
     analysisId := None;
     title := title s;
     description := description s;
     questions := questions s;
     salt_of := salt_of s;
     createdAt := createdAt s;
     expiresAt := expiresAt s;
     maxResponses := maxResponses s;
     creatorKeyHash := creatorKeyHash s |}.

Definition sample_survey : Survey :=
  {| id := "01HF7YD000BBBBBBBBBBBBBBBB";
     analysisId := Some "LOYW3V2APMR2LB8CO6P";
     title := "";
     description := "";
     questions := [x04; x05];
     salt_of := [x0c; x0d];
     createdAt := 1700000007000;
     expiresAt := None;
     maxResponses := Some 10%Z;
     creatorKeyHash := "c0ffee" |}.

(** The survey a row holds. *)
Definition shell_survey_of_row (row : SurveyRow) : Survey :=
  {| id := sv_id row;
     analysisId := sv_analysis_id row;
     title := sv_title row;
     description := sv_description row;
     questions := sv_questions row;
     salt_of := sv_salt row;
     createdAt := sv_created_at row;
     expiresAt := sv_expires_at row;
     maxResponses := sv_max_responses row;
     creatorKeyHash := sv_creator_key_hash row |}.

(** A computation that changes the database by at most one [db_step]. *)
Definition steps {A} (m : M A) : Prop :=
  forall w r w', m w = (r, w') -> db_step (DB w) (DB w').

(** A computation that never throws. *)
Definition answers {A} (m : M A) : Prop :=
  forall w, exists a w', m w = (Ok a, w').

Definition oldest_first (a b : ResponseItem) : Prop :=
  (ri_submittedAt a <= ri_submittedAt b)%Z.

Definition newest_first (a b : ResponseItem) : Prop :=
  (ri_submittedAt b <= ri_submittedAt a)%Z.

(** A creation request whose body has every required field. *)
Definition sample_create_request : Request :=
  {| method := "POST";
     url := "https://survey.example/api/survey";
     pathname := "/api/survey";
     keyHashParam := None;
     json := Ok (JsonFields
                   {| encryptedSurvey :=
                        Some {| m_id := Some "01HF7YD000BBBBBBBBBBBBBBBB";
                                m_salt := Some [x0c; x0d];
                                m_encryptedData := Some [x04; x05];
                                m_keyHash := Some "c0ffee";
                                m_createdAt := Some 1700000007000%Z;
                                m_expiresAt := None;
                                m_maxResponses := Some 0%Z |};
                      encryptedResponse := None |}) |}.

(** The JSON data of a response, when it has some. *)
Definition body_of (r : Response) : option Payload :=
  match body r with
  | Json data => Some data
  | _ => None
  end.

(** The stored world five clock readings later. *)
Definition later_world : World := set_clock_pos 5 stored_world.

(* ================================================================== *)
(** * Vocabulary for the crypto module *)
(* ================================================================== *)

(** The number a lower-case hexadecimal digit stands for. *)
Definition unhex_digit (c : ascii) : option N :=
  let n := N_of_ascii c in
  if ((48 <=? n) && (n <=? 57))%N then Some (n - 48)%N
  else if ((97 <=? n) && (n <=? 102))%N then Some (n - 87)%N
  else None.

(** The byte two hexadecimal digits stand for. *)
Definition unhex_byte (s : string) : option byte :=
  match s with
  | String a (String b EmptyString) =>
      match unhex_digit a, unhex_digit b with
      | Some x, Some y => Byte.of_N (16 * x + y)
      | _, _ => None
      end
  | _ => None
  end.

(** The bytes a hexadecimal text stands for. *)
Fixpoint unhex (s : string) : option bytes :=
  match s with
  | EmptyString => Some []
  | String a (String b rest) =>
      match unhex_byte (String a (String b EmptyString)), unhex rest with
      | Some x, Some l => Some (x :: l)
      | _, _ => None
      end
  | String _ EmptyString => None
  end.

(** The text of a weak-password error. *)
Definition weak_password_message (password : string) : string :=
  if (String.length password <? 8)%nat
  then "Password must be at least 8 characters long"
  else "Password must be less than 128 characters".

(** The last [n] base-32 digits of [t], most significant first, in the
    alphabet [chars]. *)
Fixpoint timestamp_text (n : nat) (t : Z) : string :=
  match n with
  | O => EmptyString
  | S n' => (timestamp_text n' (t / 32) ++ char_at chars (Z.rem t 32))%string
  end.

(* ================================================================== *)
(** * src/shared/survey-parser.js

    The characters of a string are code units below 256. Of those, the
    white space and line terminators of JavaScript, which [trim] removes
    and [\s] matches, are 9 to 13, 32 and 160. *)
(* ================================================================== *)

Definition is_space (c : ascii) : bool :=
  let n := nat_of_ascii c in
  (((9 <=? n) && (n <=? 13)) || (n =? 32) || (n =? 160))%nat.

(** What [.] does not match: the line terminators, 10 and 13. *)
Definition is_line_terminator (c : ascii) : bool :=
  let n := nat_of_ascii c in ((n =? 10) || (n =? 13))%nat.

Definition newline : ascii := "010"%char.

Fixpoint trimStart (s : string) : string :=
  match s with
  | EmptyString => EmptyString
  | String c s' => if is_space c then trimStart s' else s
  end.

Fixpoint trimEnd (s : string) : string :=
  match s with
  | EmptyString => EmptyString
  | String c s' =>
      match trimEnd s' with
      | EmptyString => if is_space c then EmptyString else String c EmptyString
      | t => String c t
      end
  end.

(** [s.trim()] *)
Definition trim (s : string) : string := trimEnd (trimStart s).

(** [s.split('\n')] *)
Fixpoint split_lines (s : string) : list string :=
  match s with
  | EmptyString => [EmptyString]
  | String c s' =>
      if Ascii.eqb c newline then EmptyString :: split_lines s'
      else match split_lines s' with
           | line :: rest => String c line :: rest
           | [] => [String c EmptyString]
           end
  end.

(** [lines.join(' ')] *)
Fixpoint join_spaces (lines : list string) : string :=
  match lines with
  | [] => EmptyString
  | [line] => line
  | line :: rest => (line ++ String " " (join_spaces rest))%string
  end.

(** [s.replace(/\s+/g, ' ')]: every run of white space becomes one
    space; [in_run] says that the character before was white space. *)
Fixpoint collapse_from (in_run : bool) (s : string) : string :=
  match s with
  | EmptyString => EmptyString
  | String c s' =>
      if is_space c then
        if in_run then collapse_from true s'
        else String " " (collapse_from true s')
      else String c (collapse_from false s')
  end.

Definition collapse_spaces (s : string) : string := collapse_from false s.

(** [s.slice(n)] *)
Fixpoint slice_from (n : nat) (s : string) : string :=
  match n, s with
  | O, _ => s
  | S n', String _ s' => slice_from n' s'
  | S _, EmptyString => EmptyString
  end.

Record Question := {
  q_id : string;
  q_type : string;
  q_text : string
}.

Record ParsedSurvey := {
  p_title : string;
  p_description : string;
  p_questions : list Question
}.

Inductive Section_ : Type := header | questions_section.

Record ParserState := {
  ps_title : string;
  ps_description : string;
  ps_questions : list Question;
  ps_currentSection : Section_;
  ps_questionId : Z;
  ps_descriptionLines : list string
}.

Definition no_line_terminator (s : string) : bool :=
  string_forallb (fun c => negb (is_line_terminator c)) s.

(** [trimmed.match(/^- \*\*(yes\/no|text)\*\* (.+)$/)]: the two groups.
    The two alternatives begin differently, so at most one of them can be
    followed by the rest of the pattern; [(.+)$] takes what is left when
    it is not empty and has no line terminator. *)
Definition match_question (trimmed : string) : option (string * string) :=
  match strip_prefix "- **yes/no** " trimmed with
  | Some text =>
      if truthy_string text && no_line_terminator text
      then Some ("yes/no", text) else None
  | None =>
      match strip_prefix "- **text** " trimmed with
      | Some text =>
          if truthy_string text && no_line_terminator text
          then Some ("text", text) else None
      | None => None
      end
  end.

(** The description, from the lines collected for it. *)
Definition description_of (descriptionLines : list string) : string :=
  trim (collapse_spaces (join_spaces descriptionLines)).

(** One pass of the loop over the lines. *)
Definition parse_line (st : ParserState) (line : string) : ParserState :=
  let trimmed := trim line in
  if negb (truthy_string trimmed) then
    match ps_currentSection st, ps_descriptionLines st with
    | header, _ :: _ =>
        {| ps_title := ps_title st;
           ps_description := ps_description st;
           ps_questions := ps_questions st;
           ps_currentSection := ps_currentSection st;
           ps_questionId := ps_questionId st;
           ps_descriptionLines := ps_descriptionLines st ++ [EmptyString] |}
    | _, _ => st
    end
  else if startsWith "# " trimmed && negb (truthy_string (ps_title st)) then
    {| ps_title := trim (slice_from 2 trimmed);
       ps_description := ps_description st;
       ps_questions := ps_questions st;
       ps_currentSection := ps_currentSection st;
       ps_questionId := ps_questionId st;
       ps_descriptionLines := ps_descriptionLines st |}
  else if String.eqb trimmed "## Questions" then
    {| ps_title := ps_title st;
       ps_description := description_of (ps_descriptionLines st);
       ps_questions := ps_questions st;
       ps_currentSection := questions_section;
       ps_questionId := ps_questionId st;
       ps_descriptionLines := ps_descriptionLines st |}
  else
    match ps_currentSection st with
    | questions_section =>
        if startsWith "- **" trimmed then
          match match_question trimmed with
          | Some (type, text) =>
              {| ps_title := ps_title st;
                 ps_description := ps_description st;
                 ps_questions :=
                   ps_questions st
                   ++ [{| q_id := ("q" ++ Number_toString 10 (ps_questionId st))%string;
                          q_type := if String.eqb type "yes/no"
                                    then "yes_no" else "text";
                          q_text := trim text |}];
                 ps_currentSection := ps_currentSection st;
                 ps_questionId := (ps_questionId st + 1)%Z;
                 ps_descriptionLines := ps_descriptionLines st |}
          | None => st
          end
        else st
    | header =>
        if negb (startsWith "#" trimmed) then
          {| ps_title := ps_title st;
             ps_description := ps_description st;
             ps_questions := ps_questions st;
             ps_currentSection := ps_currentSection st;
             ps_questionId := ps_questionId st;
             ps_descriptionLines := ps_descriptionLines st ++ [trimmed] |}
        else st
    end.

Definition initial_state : ParserState :=
  {| ps_title := "";
     ps_description := "";
     ps_questions := [];
     ps_currentSection := header;
     ps_questionId := 1;
     ps_descriptionLines := [] |}.

Definition parseSurveyMarkdown (markdown : string) : ParsedSurvey :=
  let lines := split_lines markdown in
  let st := fold_left parse_line lines initial_state in
  let description :=
    match ps_currentSection st with
    | header => description_of (ps_descriptionLines st)
    | questions_section => ps_description st
    end in
  {| p_title := ps_title st;
     p_description := description;
     p_questions := ps_questions st |}.

Record Validation := {
  v_valid : bool;
  v_errors : list string
}.

Definition blank (s : string) : bool :=
  negb (truthy_string s) || (String.length (trim s) =? 0)%nat.

Definition question_number (index : nat) : string :=
  Number_toString 10 (Z.of_nat index + 1).

(** The errors [validateSurvey] reports for the question at [index]. *)
Definition question_errors (index : nat) (question : Question) : list string :=
  (if blank (q_text question) then
     [("Question " ++ question_number index ++ " cannot be empty")%string]
   else if (500 <? String.length (q_text question))%nat then
     [("Question " ++ question_number index
       ++ " must be less than 500 characters")%string]
   else [])
  ++ (if negb (String.eqb (q_type question) "yes_no"
               || String.eqb (q_type question) "text") then
        [("Question " ++ question_number index ++ " has invalid type: "
          ++ q_type question)%string]
      else []).

Fixpoint questions_errors (index : nat) (questions : list Question)
  : list string :=
  match questions with
  | [] => []
  | question :: rest =>
      question_errors index question ++ questions_errors (S index) rest
  end.

Definition validateSurvey (survey : ParsedSurvey) : Validation :=
  let errors :=
    (if blank (p_title survey) then ["Survey must have a title"]
     else if (200 <? String.length (p_title survey))%nat then
       ["Survey title must be less than 200 characters"]
     else [])
    ++ (if truthy_string (p_description survey)
           && (1000 <? String.length (p_description survey))%nat then
          ["Survey description must be less than 1000 characters"]
        else [])
    ++ (if (List.length (p_questions survey) =? 0)%nat then
          ["Survey must have at least one question"]
        else if (50 <? List.length (p_questions survey))%nat then
          ["Survey cannot have more than 50 questions"]
        else [])
    ++ questions_errors 0 (p_questions survey) in
  {| v_valid := (List.length errors =? 0)%nat; v_errors := errors |}.

Definition getExampleSurvey : string :=
  String.concat (String newline EmptyString)
    ["# Customer Feedback Survey";
     "We'd love to hear your thoughts about our service. All responses are anonymous and encrypted.";
     "";
     "## Questions";
     "";
     "- **yes/no** Are you satisfied with our service?";
     "- **text** What could we improve?";
     "- **yes/no** Would you recommend us to a friend?";
     "- **text** Any additional comments?"].

Definition nl : string := String newline EmptyString.

Definition question_line (question : Question) : string :=
  let type := if String.eqb (q_type question) "yes_no" then "yes/no" else "text" in
  ("- **" ++ type ++ "** " ++ q_text question ++ nl)%string.

Definition surveyToMarkdown (survey : ParsedSurvey) : string :=
  let markdown := ("# " ++ p_title survey ++ nl)%string in
  let markdown :=
    if truthy_string (p_description survey)
    then (markdown ++ p_description survey ++ nl)%string
    else markdown in
  let markdown := (markdown ++ nl ++ "## Questions" ++ nl ++ nl)%string in
  fold_left (fun markdown question => (markdown ++ question_line question)%string)
    (p_questions survey) markdown.

(** A value, by what [validateResponses] can tell of it: [true],
    [false], [null], a string, [undefined], or anything else (a number,
    an object, a function), of which it matters whether it is truthy and
    what its own property [value] holds. *)
Inductive AnswerValue : Type :=
| ATrue
| AFalse
| ANull
| AString (s : string)
| AUndefined
| AOther (truthy : bool) (value : AnswerValue).

(** An answer, [{ type, value }]. *)
Record Answer := {
  a_type : string;
  a_value : AnswerValue
}.

(** A [responses] object: a plain object. [r_own] holds its own
    properties, the latest assignment of a key first; [r_proto] is the
    answer that an assignment to [__proto__] has put in the place of
    [Object.prototype], if there was one. *)
Record Responses := {
  r_own : list (string * Answer);
  r_proto : option Answer
}.

(** [{}] *)
Definition empty_object : Responses := {| r_own := []; r_proto := None |}.

(** The properties every plain object inherits from [Object.prototype]:
    functions, and the accessor [__proto__]. *)
Definition Object_prototype_names : list string :=
  ["constructor"; "hasOwnProperty"; "isPrototypeOf"; "propertyIsEnumerable";
   "toLocaleString"; "toString"; "valueOf"; "__proto__";
   "__defineGetter__"; "__defineSetter__"; "__lookupGetter__";
   "__lookupSetter__"].

(** A function of [Object.prototype], or [Object.prototype] itself:
    truthy, and without a property [value]. *)
Definition builtin : AnswerValue := AOther true AUndefined.

(** What reading a property gives: an answer, or another value. *)
Inductive Property : Type :=
| PAnswer (response : Answer)
| PValue (v : AnswerValue).

Fixpoint own_property (key : string) (own : list (string * Answer))
  : option Answer :=
  match own with
  | [] => None
  | (k, a) :: rest => if String.eqb k key then Some a else own_property key rest
  end.

(** [Object.prototype[key]] *)
Definition Object_prototype (key : string) : Property :=
  if existsb (String.eqb key) Object_prototype_names then PValue builtin
  else PValue AUndefined.

(** [responses[key]]: an own property; or else what [__proto__] gives,
    the prototype; or else a property of the answer that stands in the
    place of the prototype; or else a property of [Object.prototype]. *)
Definition lookup_answer (key : string) (responses : Responses) : Property :=
  match own_property key (r_own responses) with
  | Some a => PAnswer a
  | None =>
      match r_proto responses with
      | Some a =>
          if String.eqb key "__proto__" then PAnswer a
          else if String.eqb key "type" then PValue (AString (a_type a))
          else if String.eqb key "value" then PValue (a_value a)
          else Object_prototype key
      | None => Object_prototype key
      end
  end.

(** [responses[key] = answer]: an own property is made or updated,
    except that [__proto__], when it is not an own property, is the
    setter of [Object.prototype], which changes the prototype. *)
Definition assign (key : string) (answer : Answer) (responses : Responses)
  : Responses :=
  match own_property key (r_own responses) with
  | None =>
      if String.eqb key "__proto__" then
        {| r_own := r_own responses; r_proto := Some answer |}
      else
        {| r_own := (key, answer) :: r_own responses;
           r_proto := r_proto responses |}
  | Some _ =>
      {| r_own := (key, answer) :: r_own responses;
         r_proto := r_proto responses |}
  end.

Definition createResponseStructure (survey : ParsedSurvey) : Responses :=
  fold_left
    (fun responses question =>
       assign (q_id question)
         {| a_type := q_type question;
            a_value := if String.eqb (q_type question) "yes_no"
                       then ANull else AString "" |}
         responses)
    (p_questions survey) empty_object.

(** [!!v] *)
Definition truthy_value (v : AnswerValue) : bool :=
  match v with
  | ATrue => true
  | AFalse | ANull | AUndefined => false
  | AString s => truthy_string s
  | AOther truthy _ => truthy
  end.

Definition truthy_property (p : Property) : bool :=
  match p with
  | PAnswer _ => true
  | PValue v => truthy_value v
  end.

(** [response.value], for a [response] that is not [null] or
    [undefined]: a boolean or a string has no such property. *)
Definition value_of (p : Property) : AnswerValue :=
  match p with
  | PAnswer a => a_value a
  | PValue (AOther _ value) => value
  | PValue _ => AUndefined
  end.

(** The error [validateResponses] reports for one question, if any. *)
Definition answer_errors (responses : Responses) (question : Question)
  : list string :=
  let response := lookup_answer (q_id question) responses in
  if negb (truthy_property response) then
    [("Missing response for question: " ++ q_text question)%string]
  else if String.eqb (q_type question) "yes_no" then
    match value_of response with
    | ATrue | AFalse | ANull => []
    | _ => [("Invalid yes/no response for: " ++ q_text question)%string]
    end
  else if String.eqb (q_type question) "text" then
    match value_of response with
    | AString s =>
        if (5000 <? String.length s)%nat then
          [("Text response too long for: " ++ q_text question
            ++ " (max 5000 characters)")%string]
        else []
    | _ => [("Invalid text response for: " ++ q_text question)%string]
    end
  else [].

Definition validateResponses (survey : ParsedSurvey) (responses : Responses)
  : Validation :=
  let errors := flat_map (answer_errors responses) (p_questions survey) in
  {| v_valid := (List.length errors =? 0)%nat; v_errors := errors |}.

(* ================================================================== *)
(** * Vocabulary for the parser *)
(* ================================================================== *)

Definition all_space (s : string) : bool := string_forallb is_space s.

(** The identifiers [q1], [q2], ... of [n] questions. *)
Definition question_ids (n : nat) : list string :=
  map (fun k => ("q" ++ Number_toString 10 (Z.of_nat k))%string) (seq 1 n).

(** A question as the parser makes them. *)
Definition parsed_question (question : Question) : Prop :=
  (q_type question = "yes_no" \/ q_type question = "text")
  /\ trim (q_text question) = q_text question
  /\ q_text question <> ""
  /\ no_line_terminator (q_text question) = true.

Definition contains_newline (s : string) : bool :=
  negb (string_forallb (fun c => negb (Ascii.eqb c newline)) s).

(** A survey that [surveyToMarkdown] writes on lines of its own: a
    one-line title, a description that is empty or one line of words
    separated by single spaces and not a heading, and questions as the
    parser makes them, numbered from [q1]. *)
Record writable (survey : ParsedSurvey) : Prop := {
  w_title_trimmed : trim (p_title survey) = p_title survey;
  w_title_present : p_title survey <> "";
  w_title_line : contains_newline (p_title survey) = false;
  w_description_trimmed : trim (p_description survey) = p_description survey;
  w_description_spaces :
    collapse_spaces (p_description survey) = p_description survey;
  w_description_plain : startsWith "#" (p_description survey) = false;
  w_questions : Forall parsed_question (p_questions survey);
  w_ids : map q_id (p_questions survey)
          = question_ids (List.length (p_questions survey))
}.

(** What the loop of [parseSurveyMarkdown] keeps true of its state. *)
Record parser_invariant (st : ParserState) : Prop := {
  inv_title : trim (ps_title st) = ps_title st;
  inv_description : trim (ps_description st) = ps_description st;
  inv_questions : Forall parsed_question (ps_questions st);
  inv_ids : map q_id (ps_questions st)
            = question_ids (List.length (ps_questions st));
  inv_next : ps_questionId st = (Z.of_nat (List.length (ps_questions st)) + 1)%Z
}.

(** The number a digit of [digits36] stands for. *)
Definition digit_value (c : ascii) : Z :=
  match String.index 0 (String c EmptyString) digits36 with
  | Some i => Z.of_nat i
  | None => 0
  end.

(** The number a text in base [radix] stands for, after the digits [v]. *)
Fixpoint of_digits (radix : Z) (v : Z) (s : string) : Z :=
  match s with
  | EmptyString => v
  | String c s' => of_digits radix (v * radix + digit_value c) s'
  end.

(** A question [validateSurvey] has nothing to say against. *)
Definition acceptable_question (question : Question) : Prop :=
  trim (q_text question) <> ""
  /\ String.length (q_text question) <= 500
  /\ (q_type question = "yes_no" \/ q_type question = "text").

(** The entry [createResponseStructure] makes for a question. *)
Definition empty_answer (question : Question) : Answer :=
  {| a_type := q_type question;
     a_value := if String.eqb (q_type question) "yes_no"
                then ANull else AString "" |}.

(** The lines [surveyToMarkdown] writes for the questions. *)
Definition question_lines (questions : list Question) : string :=
  fold_right (fun question rest => (question_line question ++ rest)%string)
    "" questions.

(** The identifiers of [n] questions numbered from [start]. *)
Definition question_ids_from (start n : nat) : list string :=
  map (fun k => ("q" ++ Number_toString 10 (Z.of_nat k))%string) (seq start n).

(** A submission whose body has both required fields. *)
Definition sample_submit_request : Request :=
  {| method := "POST";
     url := "https://survey.example/api/survey/01HF7YAT00V3C1S4R6D0F7M2K9/responses";
     pathname := "/api/survey/01HF7YAT00V3C1S4R6D0F7M2K9/responses";
     keyHashParam := None;
     json := Ok (JsonFields
                   {| encryptedSurvey := None;
                      encryptedResponse :=
                        Some {| m_response_id := Some "01HF7YC000AAAAAAAAAAAAAAAA";
                                m_encryptedAnswers := Some [x07; x08] |} |}) |}.

(** A line of text that begins with something else than white space or
    [#]. *)
Definition plain_start (s : string) : Prop :=
  exists c r, s = String c r /\ is_space c = false /\ c <> "#"%char.

(** The lines collected for the description: none, or the first of them
    begins a plain line. *)
Definition description_lines (lines : list string) : Prop :=
  match lines with
  | [] => True
  | line :: _ => plain_start line
  end.

(** A description that [surveyToMarkdown] writes on one line which is
    read as a description again. *)
Definition plain_description (d : string) : Prop :=
  collapse_spaces d = d /\ startsWith "#" d = false.

(** More of what the loop of [parseSurveyMarkdown] keeps true of its
    state, when no line holds a line feed. *)
Record parser_lines_invariant (st : ParserState) : Prop := {
  inv_title_line : contains_newline (ps_title st) = false;
  inv_description_plain : plain_description (ps_description st);
  inv_lines : description_lines (ps_descriptionLines st)
}.

(** An answer [validateResponses] has nothing to say against: what is
    read under the id of the question is truthy; for a yes/no question
    its [value] is [true], [false] or [null], for a text question a
    string of at most 5000 characters. *)
Definition acceptable_answer (responses : Responses) (question : Question)
  : Prop :=
  truthy_property (lookup_answer (q_id question) responses) = true
  /\ (q_type question = "yes_no" ->
      value_of (lookup_answer (q_id question) responses) = ATrue
      \/ value_of (lookup_answer (q_id question) responses) = AFalse
      \/ value_of (lookup_answer (q_id question) responses) = ANull)
  /\ (q_type question = "text" ->
      exists s,
        value_of (lookup_answer (q_id question) responses) = AString s
        /\ String.length s <= 5000).

(** A creation request whose body is the JSON text [null]. *)
Definition sample_null_request : Request :=
  {| method := "POST";
     url := "https://survey.example/api/survey";
     pathname := "/api/survey";
     keyHashParam := None;
     json := Ok JsonNull |}.

(** The answer stored under [key]: an own property, or, for [__proto__]
    when it is not an own property, the answer put in the place of the
    prototype. *)
Definition assigned (key : string) (answer : Answer) (responses : Responses)
  : Prop :=
  own_property key (r_own responses) = Some answer
  \/ (key = "__proto__"
      /\ own_property key (r_own responses) = None
      /\ r_proto responses = Some answer).
(* ================================================================== *)
(** * The helpers on concrete inputs *)
(* ================================================================== *)

Example Number_toString_base36 :
  Number_toString 36 1700000000000 = "loyw3v28"
  /\ Number_toString 36 35 = "z" /\ Number_toString 36 36 = "10"
  /\ Number_toString 36 0 = "0".
Proof. repeat split; reflexivity. Qed.

Example hex_of_byte_pads :
  hex_of_byte x0a = "0a" /\ hex_of_byte xff = "ff" /\ hex_of_byte x00 = "00".
Proof. repeat split; reflexivity. Qed.

Example char_at_out_of_range :
  char_at chars 31 = "Z" /\ char_at chars 32 = "undefined"
  /\ char_at chars (-1) = "undefined".
Proof. repeat split; reflexivity. Qed.

Example match_route_captures :
  match_route "/api/survey/" "/responses" "/api/survey/01ABC/responses"
  = Some "01ABC"
  /\ match_route "/api/survey/" "" "/api/survey/01ABC/responses" = None
  /\ match_route "/api/survey/" "" "/api/survey/" = None
  /\ match_route "/api/analysis/" "" "/api/analysis/LOYW3V28" = Some "LOYW3V28".
Proof. repeat split; reflexivity. Qed.

Example includes_marks_unauthorized :
  includes "Unauthorized" "Unauthorized - incorrect creator key" = true
  /\ includes "Unauthorized" "Survey not found" = false
  /\ includes "not found" "Survey not found" = true.
Proof. repeat split; reflexivity. Qed.

Example validatePassword_bounds :
  valid (validatePassword "") = false
  /\ valid (validatePassword "1234567") = false
  /\ valid (validatePassword "12345678") = true.
Proof. repeat split; reflexivity. Qed.

Example generateUlid_sample :
  fst (generateUlid sample_world) = Ok "01HF7YAT0030A0H0R0Z061D1M1".
Proof. reflexivity. Qed.

(* ================================================================== *)
(** * Properties of the crypto module *)
(* ================================================================== *)

Lemma length_draw (n : nat) (w : World) : List.length (draw n w) = n.
Proof. unfold draw. now rewrite length_map, length_seq. Qed.

Lemma bind_Ok {A B} (m : M A) (k : A -> M B) (w w' : World) (a : A) :
  m w = (Ok a, w') -> bind m k w = k a w'.
Proof. intros H. unfold bind. now rewrite H. Qed.

Lemma bind_Throw {A B} (m : M A) (k : A -> M B) (w w' : World) (msg : string) :
  m w = (Throw msg, w') -> bind m k w = (Throw msg, w').
Proof. intros H. unfold bind. now rewrite H. Qed.

Lemma bind_inv_Ok {A B} (m : M A) (k : A -> M B) (w w' : World) (b : B) :
  bind m k w = (Ok b, w') ->
  exists a w1, m w = (Ok a, w1) /\ k a w1 = (Ok b, w').
Proof.
  unfold bind. destruct (m w) as [[a | msg] w1]; intros H.
  - now exists a, w1.
  - discriminate.
Qed.

Section CryptoFacts.

Context {Value : Type} {P : Platform Value}.

Lemma randomBytes_spec (n : nat) (w : World) :
  randomBytes n w = (Ok (draw n w), set_entropy_pos (entropy_pos w + n) w).
Proof. reflexivity. Qed.

Lemma deriveKey_spec (password : string) (salt : bytes) (w : World) :
  deriveKey password salt w
  = (argon2_hash (deriveKey_options password salt), record_call CallArgon2Hash w).
Proof.
  unfold deriveKey, bind, call_argon2_hash, ret.
  now destruct (argon2_hash _).
Qed.

Lemma createKeyHash_spec (key : bytes) (w : World) :
  createKeyHash key w
  = (Ok (map_join hex_of_byte (subtle_digest_SHA256 key)), record_call CallDigest w).
Proof. reflexivity. Qed.

(** C10. An input shorter than one nonce (24 bytes) makes [decryptData]
    throw its malformed-input error at the length test: the world it
    returns is the one it was given, so nothing was split and
    [nacl.secretbox.open] was not called. *)
Theorem decryptData_short_input_rejected :
  forall (encryptedData key : bytes) (w : World),
    List.length encryptedData < secretbox_nonceLength ->
    decryptData encryptedData key w
    = (Throw "Invalid encrypted data format", w).
Proof.
  intros encryptedData key w Hshort.
  unfold decryptData.
  apply Nat.ltb_lt in Hshort. now rewrite Hshort.
Qed.

Lemma encryptData_inv (data : Value) (key out : bytes) (w w' : World) :
  encryptData data key w = (Ok out, w') ->
  exists ciphertext,
    out = draw secretbox_nonceLength w ++ ciphertext
    /\ entropy_pos w' = entropy_pos w + secretbox_nonceLength.
Proof.
  unfold encryptData. intros H.
  rewrite (bind_Ok _ _ _ _ _ (randomBytes_spec _ w)) in H.
  apply bind_inv_Ok in H. destruct H as (c & w1 & Hc & Hret).
  unfold call_secretbox in Hc. unfold ret in Hret.
  inversion Hc; subst w1. inversion Hret; subst.
  exists c. split; reflexivity.
Qed.

Lemma encryptData_sealed (data : Value) (key out : bytes) (w w' : World) :
  encryptData data key w = (Ok out, w') ->
  exists box,
    nacl_secretbox (TextEncoder_encode (JSON_stringify data))
      (draw secretbox_nonceLength w) key = Ok box
    /\ out = draw secretbox_nonceLength w ++ box
    /\ w' = record_call CallSecretbox
              (set_entropy_pos (entropy_pos w + secretbox_nonceLength) w).
Proof.
  unfold encryptData. cbv zeta. intros H.
  rewrite (bind_Ok _ _ _ _ _ (randomBytes_spec _ w)) in H.
  apply bind_inv_Ok in H. destruct H as (box & w1 & Hbox & Hret).
  unfold call_secretbox in Hbox. unfold ret in Hret.
  injection Hbox as Hseal Hw1. injection Hret as Hout Hw'.
  exists box. split; [exact Hseal |].
  split; [now symmetry | now rewrite <- Hw', <- Hw1].
Qed.

Lemma firstn_draw_app (n : nat) (w : World) (rest : bytes) :
  firstn n (draw n w ++ rest) = draw n w.
Proof.
  rewrite firstn_app, length_draw, Nat.sub_diag, firstn_O, app_nil_r.
  apply firstn_all2. now rewrite length_draw.
Qed.

Lemma skipn_draw_app (n : nat) (w : World) (rest : bytes) :
  skipn n (draw n w ++ rest) = rest.
Proof.
  rewrite skipn_app, length_draw, Nat.sub_diag, skipn_O.
  rewrite skipn_all2 by now rewrite length_draw. reflexivity.
Qed.

(** C7. Each call of [encryptData] draws 24 bytes from the entropy
    source, moves the source past them, seals the message under exactly
    these bytes as the nonce of [nacl.secretbox], in its one call of the
    library, and returns the nonce followed by the box it got. Two calls
    on the same data and key whose nonces differ therefore return
    different byte strings. *)
Theorem encryptData_distinct_nonces :
  forall (data : Value) (key : bytes) (w1 w2 w1' w2' : World) (out1 out2 : bytes),
    encryptData data key w1 = (Ok out1, w1') ->
    encryptData data key w2 = (Ok out2, w2') ->
    draw secretbox_nonceLength w1 <> draw secretbox_nonceLength w2 ->
    firstn secretbox_nonceLength out1 = draw secretbox_nonceLength w1
    /\ firstn secretbox_nonceLength out2 = draw secretbox_nonceLength w2
    /\ nacl_secretbox (TextEncoder_encode (JSON_stringify data))
         (firstn secretbox_nonceLength out1) key
       = Ok (skipn secretbox_nonceLength out1)
    /\ nacl_secretbox (TextEncoder_encode (JSON_stringify data))
         (firstn secretbox_nonceLength out2) key
       = Ok (skipn secretbox_nonceLength out2)
    /\ w1' = record_call CallSecretbox
               (set_entropy_pos (entropy_pos w1 + secretbox_nonceLength) w1)
    /\ w2' = record_call CallSecretbox
               (set_entropy_pos (entropy_pos w2 + secretbox_nonceLength) w2)
    /\ draw secretbox_nonceLength w1'
       = map (entropy w1)
           (seq (entropy_pos w1 + secretbox_nonceLength) secretbox_nonceLength)
    /\ out1 <> out2.
Proof.
  intros data key w1 w2 w1' w2' out1 out2 H1 H2 Hnonce.
  apply encryptData_sealed in H1. destruct H1 as (box1 & Hbox1 & -> & ->).
  apply encryptData_sealed in H2. destruct H2 as (box2 & Hbox2 & -> & ->).
  rewrite !firstn_draw_app, !skipn_draw_app.
  repeat split; try assumption; try reflexivity.
  intros Heq. apply Hnonce.
  apply (f_equal (firstn secretbox_nonceLength)) in Heq.
  now rewrite !firstn_draw_app in Heq.
Qed.

Lemma decryptSurvey_inv (pkg : EncryptedSurvey) (password : string)
  (w w' : World) (r : DecryptedSurvey Value) :
  decryptSurvey pkg password w = (Ok r, w') ->
  argon2_hash (deriveKey_options password (es_salt pkg)) = Ok (key r)
  /\ map_join hex_of_byte (subtle_digest_SHA256 (key r)) = es_keyHash pkg
  /\ decryptData (es_encryptedData pkg) (key r)
       (record_call CallDigest (record_call CallArgon2Hash w))
     = (Ok (surveyData r), w').
Proof.
  unfold decryptSurvey. intros H.
  apply bind_inv_Ok in H. destruct H as (k & w1 & Hk & H).
  rewrite deriveKey_spec in Hk. inversion Hk as [[Hargon Hw1]]. clear Hk.
  rewrite (bind_Ok _ _ _ _ _ (createKeyHash_spec k w1)) in H.
  destruct (String.eqb _ _) eqn:Heq; simpl in H; [| discriminate].
  apply String.eqb_eq in Heq.
  apply bind_inv_Ok in H. destruct H as (v & w2 & Hv & Hret).
  unfold ret in Hret. inversion Hret; subst. simpl.
  repeat split; assumption.
Qed.

Lemma decryptData_inv (encryptedData key : bytes) (v : Value) (w w' : World) :
  decryptData encryptedData key w = (Ok v, w') ->
  secretbox_nonceLength <= List.length encryptedData
  /\ (exists plain,
        nacl_secretbox_open (skipn secretbox_nonceLength encryptedData)
          (firstn secretbox_nonceLength encryptedData) key = Ok (Some plain)
        /\ JSON_parse (TextDecoder_decode plain) = Ok v)
  /\ w' = record_call CallSecretboxOpen w.
Proof.
  unfold decryptData. cbv zeta. intros H.
  destruct (List.length encryptedData <? secretbox_nonceLength)%nat eqn:Hlen;
    [discriminate H |].
  apply Nat.ltb_ge in Hlen. split; [exact Hlen |].
  apply bind_inv_Ok in H. destruct H as (opened & w1 & Hopen & Hparse).
  unfold call_secretbox_open in Hopen. injection Hopen as Hbox Hw1.
  destruct opened as [plain |]; [| discriminate Hparse].
  unfold lift in Hparse. injection Hparse as Hv Hw'.
  split; [| now rewrite <- Hw', <- Hw1]. exists plain. split; [exact Hbox | exact Hv].
Qed.

(** C4, as amended. What [decryptSurvey] returns to its caller is the
    pair of the decrypted value and the key. The [key] field of the
    result is the key that Argon2 derived from the password and the
    package's salt, the one whose fingerprint the package carries; the
    [surveyData] field is the value read from the JSON text of the box
    that [nacl.secretbox.open] opened with that key, under the nonce
    that heads the package's encrypted data. *)
Theorem decryptSurvey_returns_key :
  forall (pkg : EncryptedSurvey) (password : string) (w w' : World)
         (r : DecryptedSurvey Value),
    decryptSurvey pkg password w = (Ok r, w') ->
    argon2_hash (deriveKey_options password (es_salt pkg)) = Ok (key r)
    /\ map_join hex_of_byte (subtle_digest_SHA256 (key r)) = es_keyHash pkg
    /\ (exists plain,
          nacl_secretbox_open
            (skipn secretbox_nonceLength (es_encryptedData pkg))
            (firstn secretbox_nonceLength (es_encryptedData pkg)) (key r)
          = Ok (Some plain)
          /\ JSON_parse (TextDecoder_decode plain) = Ok (surveyData r))
    /\ decryptData (es_encryptedData pkg) (key r)
         (record_call CallDigest (record_call CallArgon2Hash w))
       = (Ok (surveyData r), w').
Proof.
  intros pkg password w w' r H.
  apply decryptSurvey_inv in H. destruct H as (Hkey & Hhash & Hopen).
  split; [exact Hkey |]. split; [exact Hhash |]. split; [| exact Hopen].
  apply decryptData_inv in Hopen. tauto.
Qed.

End CryptoFacts.

Lemma validatePassword_policy (password : string) :
  valid (validatePassword password) = true
  <-> 8 <= String.length password <= 128.
Proof.
  unfold validatePassword, truthy_string.
  destruct (String.eqb password "") eqn:Hempty.
  - apply String.eqb_eq in Hempty. subst password. simpl.
    split; [intros H; discriminate H | lia].
  - change (negb (negb false) || (String.length password <? 8)%nat)
      with (String.length password <? 8)%nat.
    destruct (String.length password <? 8)%nat eqn:Hlo.
    + apply Nat.ltb_lt in Hlo. simpl.
      split; [intros H; discriminate H | lia].
    + apply Nat.ltb_ge in Hlo.
      destruct (128 <? String.length password)%nat eqn:Hhi; simpl.
      * apply Nat.ltb_lt in Hhi. split; [intros H; discriminate H | lia].
      * apply Nat.ltb_ge in Hhi. split; [lia | reflexivity].
Qed.

Lemma length_hex_of_byte (b : byte) : String.length (hex_of_byte b) = 2.
Proof. destruct b; reflexivity. Qed.

Lemma length_append (s t : string) :
  String.length (s ++ t) = String.length s + String.length t.
Proof. induction s as [| c s IH]; simpl; [reflexivity | now rewrite IH]. Qed.

Lemma length_map_join_hex (l : bytes) :
  String.length (map_join hex_of_byte l) = 2 * List.length l.
Proof.
  induction l as [| b l IH]; [reflexivity |].
  unfold map_join in *. simpl fold_right.
  rewrite length_append, length_hex_of_byte, IH. simpl. lia.
Qed.

Section Sealing.

Context {Value : Type} {P : Platform Value}.

Lemma createEncryptedSurvey_inv (surveyData : Value) (password : string)
  (w w' : World) (pkg : EncryptedSurvey) :
  createEncryptedSurvey surveyData password w = (Ok pkg, w') ->
  exists key ciphertext,
    es_salt pkg = draw 16 w
    /\ argon2_hash (deriveKey_options password (es_salt pkg)) = Ok key
    /\ es_keyHash pkg = keyHash_of key
    /\ nacl_secretbox (TextEncoder_encode (JSON_stringify surveyData))
         (firstn secretbox_nonceLength (es_encryptedData pkg)) key
       = Ok ciphertext
    /\ es_encryptedData pkg
       = draw secretbox_nonceLength (set_entropy_pos (entropy_pos w + 16) w)
         ++ ciphertext.
Proof.
  unfold createEncryptedSurvey. intros H.
  destruct (negb (valid (validatePassword password))); [discriminate |].
  rewrite (bind_Ok _ _ _ _ _ (randomBytes_spec 16 w)) in H.
  apply bind_inv_Ok in H. destruct H as (k & w1 & Hk & H).
  rewrite deriveKey_spec in Hk. inversion Hk as [[Hargon Hw1]]. clear Hk.
  apply bind_inv_Ok in H. destruct H as (enc & w2 & Henc & H).
  rewrite (bind_Ok _ _ _ _ _ (createKeyHash_spec k w2)) in H.
  apply bind_inv_Ok in H. destruct H as (i & w3 & _ & H).
  apply bind_inv_Ok in H. destruct H as (t & w4 & _ & H).
  unfold ret in H. inversion H; subst pkg w'. clear H.
  cbn [es_salt es_encryptedData es_keyHash].
  unfold encryptData in Henc.
  rewrite (bind_Ok _ _ _ _ _ (randomBytes_spec _ w1)) in Henc.
  apply bind_inv_Ok in Henc. destruct Henc as (c & w5 & Hc & Hret).
  unfold call_secretbox in Hc. inversion Hc as [[Hbox Hw5]]. clear Hc.
  unfold ret in Hret. inversion Hret; subst enc. clear Hret.
  exists k, c. subst w1.
  assert (Hdraw : draw secretbox_nonceLength
                    (record_call CallArgon2Hash (set_entropy_pos (entropy_pos w + 16) w))
                  = draw secretbox_nonceLength (set_entropy_pos (entropy_pos w + 16) w))
    by reflexivity.
  rewrite Hdraw in *.
  repeat split; try reflexivity; try exact Hargon.
  (* the first 24 bytes of the output are the nonce that was drawn *)
  exact Hbox.
Qed.

(** C2. When a package was sealed under one password and is opened with
    another whose derived key has a different fingerprint,
    [decryptSurvey] throws [Invalid password]: it returns no value, and
    the only library calls it has made are the derivation and the
    digest, so [nacl.secretbox.open] was never reached and no error of
    the cipher can come out. *)
Theorem decryptSurvey_wrong_password :
  forall (surveyData : Value) (password1 password2 : string)
         (w w' w2 : World) (pkg : EncryptedSurvey) (key1 key2 : bytes),
    createEncryptedSurvey surveyData password1 w = (Ok pkg, w') ->
    argon2_hash (deriveKey_options password1 (es_salt pkg)) = Ok key1 ->
    argon2_hash (deriveKey_options password2 (es_salt pkg)) = Ok key2 ->
    keyHash_of key1 <> keyHash_of key2 ->
    exists w2',
      decryptSurvey pkg password2 w2 = (Throw "Invalid password", w2')
      /\ calls w2' = calls w2 ++ [CallArgon2Hash; CallDigest]
      /\ existsb is_decrypt_call [CallArgon2Hash; CallDigest] = false.
Proof.
  intros surveyData password1 password2 w w' w2 pkg key1 key2
         Hseal Hkey1 Hkey2 Hdiff.
  apply createEncryptedSurvey_inv in Hseal.
  destruct Hseal as (k & c & _ & Hk & Hhash & _).
  rewrite Hkey1 in Hk. inversion Hk; subst k. clear Hk.
  exists (record_call CallDigest (record_call CallArgon2Hash w2)).
  split; [| split].
  - unfold decryptSurvey.
    erewrite bind_Ok by (rewrite deriveKey_spec, Hkey2; reflexivity).
    erewrite bind_Ok by apply createKeyHash_spec.
    fold (keyHash_of key2). rewrite Hhash.
    destruct (String.eqb (keyHash_of key2) (keyHash_of key1)) eqn:Heq.
    + apply String.eqb_eq in Heq. congruence.
    + reflexivity.
  - simpl. now rewrite <- app_assoc.
  - reflexivity.
Qed.

Hypothesis laws : PlatformLaws P.

(** C8, as amended. [deriveKey] checks neither the password nor the
    salt: whatever they are, it calls [argon2.hash] once, with time cost
    3, memory 262144 KiB, one lane, Argon2i and a 32-byte output, and
    its outcome is the outcome of that call. So it fails only where the
    library does, and for every salt the library accepts (eight bytes or
    more, sixteen or not) and every password, empty or not, it returns a
    32-byte key. *)
Theorem deriveKey_defers_to_argon2 :
  forall (password : string) (salt : bytes) (w : World),
    deriveKey password salt w
    = (argon2_hash {| pass := TextEncoder_encode password;
                      salt := salt;
                      time := 3;
                      mem := 262144;
                      hashLen := 32;
                      parallelism := 1;
                      type := Argon2i |},
       record_call CallArgon2Hash w)
    /\ (8 <= List.length salt ->
        exists key,
          deriveKey password salt w = (Ok key, record_call CallArgon2Hash w)
          /\ List.length key = 32).
Proof.
  intros password salt w. split.
  - apply deriveKey_spec.
  - intros Hsalt.
    destruct (argon2_accepts P laws (deriveKey_options password salt))
      as (k & Hk & Hlen);
      [ exact Hsalt | cbn; lia .. |].
    exists k. split; [| exact Hlen].
    rewrite deriveKey_spec, Hk. reflexivity.
Qed.

Lemma createEncryptedSurvey_run (surveyData : Value) (password : string)
  (w : World) :
  8 <= String.length password <= 128 ->
  exists pkg w' key ciphertext,
    createEncryptedSurvey surveyData password w = (Ok pkg, w')
    /\ es_salt pkg = draw 16 w
    /\ argon2_hash (deriveKey_options password (draw 16 w)) = Ok key
    /\ List.length key = 32
    /\ es_keyHash pkg = keyHash_of key
    /\ es_encryptedData pkg
       = draw secretbox_nonceLength (set_entropy_pos (entropy_pos w + 16) w)
         ++ ciphertext
    /\ List.length ciphertext
       = List.length (TextEncoder_encode (JSON_stringify surveyData)) + 16
    /\ nacl_secretbox_open ciphertext
         (draw secretbox_nonceLength (set_entropy_pos (entropy_pos w + 16) w)) key
       = Ok (Some (TextEncoder_encode (JSON_stringify surveyData))).
Proof.
  intros Hpolicy. apply validatePassword_policy in Hpolicy.
  destruct (argon2_accepts P laws (deriveKey_options password (draw 16 w)))
    as (k & Hk & Hlen);
    [ cbn [deriveKey_options salt]; rewrite length_draw; lia
    | cbn; lia .. |].
  cbn [deriveKey_options hashLen] in Hlen.
  set (nonce := draw secretbox_nonceLength (set_entropy_pos (entropy_pos w + 16) w)).
  destruct (secretbox_seals P laws
              (TextEncoder_encode (JSON_stringify surveyData)) nonce k)
    as (c & Hc & Hclen & Hopen); [apply length_draw | exact Hlen |].
  eexists _, _, k, c. split.
  - unfold createEncryptedSurvey. rewrite Hpolicy. cbn [negb].
    rewrite (bind_Ok _ _ _ _ _ (randomBytes_spec 16 w)).
    erewrite bind_Ok by (rewrite deriveKey_spec, Hk; reflexivity).
    unfold encryptData.
    erewrite (bind_Ok (bind (randomBytes secretbox_nonceLength) _)).
    2:{ rewrite (bind_Ok _ _ _ _ _ (randomBytes_spec _ _)).
        unfold bind, call_secretbox, ret.
        change (draw secretbox_nonceLength
                  (record_call CallArgon2Hash
                     (set_entropy_pos (entropy_pos w + 16) w)))
          with nonce.
        rewrite Hc. reflexivity. }
    erewrite bind_Ok by apply createKeyHash_spec.
    unfold generateUlid, Date_now, randomBytes, bind, ret.
    reflexivity.
  - cbn [es_salt es_encryptedData es_keyHash].
    repeat split; try assumption; reflexivity.
Qed.

(** C9. Sealing a value under a password of 8 to 128 characters
    succeeds, and the package has a 16-byte salt, an encrypted-data
    field of 24 + (length of the encoded JSON text) + 16 bytes, and a
    fingerprint that is present: 64 hexadecimal characters. *)
Theorem createEncryptedSurvey_package_shape :
  forall (surveyData : Value) (password : string) (w : World),
    8 <= String.length password <= 128 ->
    exists pkg w',
      createEncryptedSurvey surveyData password w = (Ok pkg, w')
      /\ List.length (es_salt pkg) = 16
      /\ List.length (es_encryptedData pkg)
         = 24 + List.length (TextEncoder_encode (JSON_stringify surveyData)) + 16
      /\ String.length (es_keyHash pkg) = 64
      /\ es_keyHash pkg <> "".
Proof.
  intros surveyData password w Hpolicy.
  destruct (createEncryptedSurvey_run surveyData password w Hpolicy)
    as (pkg & w' & k & c & Hrun & Hsalt & _ & _ & Hhash & Henc & Hclen & _).
  assert (Hlen : String.length (es_keyHash pkg) = 64).
  { rewrite Hhash. unfold keyHash_of.
    rewrite length_map_join_hex, (digest_length P laws). reflexivity. }
  exists pkg, w'. repeat split.
  - exact Hrun.
  - rewrite Hsalt. apply length_draw.
  - rewrite Henc, length_app, length_draw, Hclen.
    unfold secretbox_nonceLength. lia.
  - exact Hlen.
  - intros Hempty. rewrite Hempty in Hlen. discriminate.
Qed.

(** C1. Sealing a value under a password of 8 to 128 characters
    succeeds, and opening the package with the same password, in
    whatever state the world is by then, succeeds with that value as
    [surveyData]. *)
Theorem decryptSurvey_createEncryptedSurvey :
  forall (surveyData_ : Value) (password : string) (w : World),
    8 <= String.length password <= 128 ->
    exists pkg w',
      createEncryptedSurvey surveyData_ password w = (Ok pkg, w')
      /\ forall w2, exists r w2',
           decryptSurvey pkg password w2 = (Ok r, w2')
           /\ surveyData r = surveyData_.
Proof.
  intros surveyData_ password w Hpolicy.
  destruct (createEncryptedSurvey_run surveyData_ password w Hpolicy)
    as (pkg & w' & k & c & Hrun & Hsalt & Hk & _ & Hhash & Henc & _ & Hopen).
  exists pkg, w'. split; [exact Hrun |].
  intros w2.
  exists {| surveyData := surveyData_; key := k |}.
  eexists. split; [| reflexivity].
  unfold decryptSurvey. rewrite Hsalt, Hhash, Henc.
  erewrite bind_Ok by (rewrite deriveKey_spec, Hk; reflexivity).
  erewrite bind_Ok by apply createKeyHash_spec.
  fold (keyHash_of k). rewrite String.eqb_refl. simpl negb. cbv iota.
  unfold decryptData.
  set (nonce := draw secretbox_nonceLength (set_entropy_pos (entropy_pos w + 16) w)).
  fold nonce in Hopen.
  assert (Hn : List.length nonce = secretbox_nonceLength) by apply length_draw.
  assert (Hge : (List.length (nonce ++ c) <? secretbox_nonceLength)%nat = false).
  { apply Nat.ltb_ge. rewrite length_app. lia. }
  rewrite Hge.
  assert (Hfirst : firstn secretbox_nonceLength (nonce ++ c) = nonce).
  { rewrite firstn_app, Hn, Nat.sub_diag, firstn_O, app_nil_r.
    apply firstn_all2. lia. }
  assert (Hskip : skipn secretbox_nonceLength (nonce ++ c) = c).
  { rewrite skipn_app, Hn, Nat.sub_diag, skipn_all2 by lia. reflexivity. }
  rewrite Hfirst, Hskip.
  unfold bind, call_secretbox_open. rewrite Hopen.
  unfold lift. rewrite (Text_decode_encode P laws), (JSON_parse_stringify P laws).
  reflexivity.
Qed.

End Sealing.

(* ================================================================== *)
(** * The sample platform meets the laws *)
(* ================================================================== *)

Lemma byte_xor_cancel (a p : byte) : byte_xor (byte_xor a p) p = a.
Proof.
  unfold byte_xor.
  destruct (Byte.to_bits p) as (p0 & p1 & p2 & p3 & p4 & p5 & p6 & p7).
  destruct (Byte.to_bits a) as (a0 & a1 & a2 & a3 & a4 & a5 & a6 & a7) eqn:Ha.
  rewrite Byte.to_bits_of_bits.
  rewrite !xorb_assoc, !xorb_nilpotent, !xorb_false_r.
  rewrite <- Ha. apply Byte.of_bits_to_bits.
Qed.

Lemma bytes_eqb_refl (a : bytes) : bytes_eqb a a = true.
Proof.
  induction a as [| x a IH]; [reflexivity |].
  simpl. rewrite IH, andb_true_r. now apply Byte.byte_dec_lb.
Qed.

Lemma length_stretch (n : nat) (src : bytes) : List.length (stretch n src) = n.
Proof. unfold stretch. now rewrite length_map, length_seq. Qed.

Lemma length_sample_tag (nonce key : bytes) :
  List.length (sample_tag nonce key) = 16.
Proof. reflexivity. Qed.

Lemma length_sample_stream (i : nat) (nonce key data : bytes) :
  List.length (sample_stream i nonce key data) = List.length data.
Proof.
  revert i. induction data as [| b data IH]; intros i; [reflexivity |].
  simpl. now rewrite IH.
Qed.

Lemma sample_stream_cancel (i : nat) (nonce key data : bytes) :
  sample_stream i nonce key (sample_stream i nonce key data) = data.
Proof.
  revert i. induction data as [| b data IH]; intros i; [reflexivity |].
  cbn [sample_stream]. now rewrite byte_xor_cancel, IH.
Qed.

Lemma drop_last_append (s : string) (c : ascii) :
  drop_last (s ++ String c EmptyString) = s.
Proof.
  induction s as [| a s IH]; [reflexivity |].
  cbn [append drop_last]. rewrite IH.
  destruct s; reflexivity.
Qed.

Lemma sample_parse_stringify (v : SampleValue) :
  sample_parse (sample_stringify v) = Ok v.
Proof.
  destruct v as [| [|] | s]; try reflexivity.
  unfold sample_stringify, sample_parse.
  cbn [String.eqb Ascii.eqb quote Bool.eqb].
  now rewrite drop_last_append.
Qed.

Lemma sample_laws : PlatformLaws sample.
Proof.
  split.
  - exact sample_parse_stringify.
  - exact string_of_list_byte_of_string.
  - intros o Hsalt _ _ _ _. cbn [argon2_hash sample]. unfold sample_argon2.
    apply Nat.ltb_ge in Hsalt. rewrite Hsalt.
    eexists. split; [reflexivity | apply length_stretch].
  - intros m n k Hn Hk. cbn [nacl_secretbox nacl_secretbox_open sample].
    unfold sample_secretbox, sample_secretbox_open.
    unfold secretbox_nonceLength in Hn. rewrite Hn, Hk. cbn [Nat.eqb negb].
    eexists. split; [reflexivity |]. split.
    + rewrite length_app, length_sample_tag, length_sample_stream. lia.
    + rewrite firstn_app, length_sample_tag, Nat.sub_diag, firstn_O, app_nil_r.
      rewrite firstn_all2 by (rewrite length_sample_tag; lia).
      rewrite bytes_eqb_refl.
      rewrite skipn_app, length_sample_tag, Nat.sub_diag.
      rewrite skipn_all2 by (rewrite length_sample_tag; lia).
      cbn [skipn app]. now rewrite sample_stream_cancel.
  - intros d. apply length_stretch.
Qed.

(* ================================================================== *)
(** * The crypto module on the sample platform *)
(* ================================================================== *)

Lemma decryptData_short_input_rejected_witness :
  List.length [x01; x02; x03] < secretbox_nonceLength
  /\ decryptData (P := sample) [x01; x02; x03] sample_key sample_world
     = (Throw "Invalid encrypted data format", sample_world).
Proof.
  assert (Hshort : List.length [x01; x02; x03] < secretbox_nonceLength)
    by (unfold secretbox_nonceLength; simpl; lia).
  split; [exact Hshort |].
  exact (decryptData_short_input_rejected (P := sample) _ sample_key sample_world Hshort).
Defined.

Lemma encryptData_distinct_nonces_witness :
  exists out1 w1 out2 w2,
    encryptData (P := sample) (VText "Q?") sample_key sample_world = (Ok out1, w1)
    /\ encryptData (P := sample) (VText "Q?") sample_key w1 = (Ok out2, w2)
    /\ draw secretbox_nonceLength sample_world <> draw secretbox_nonceLength w1
    /\ out1 <> out2.
Proof.
  pose (seal := encryptData (P := sample) (VText "Q?") sample_key).
  pose (out_of := fun r : Result bytes * World =>
                    match fst r with Ok out => out | Throw _ => [] end).
  pose (w1 := snd (seal sample_world)).
  assert (H1 : seal sample_world = (Ok (out_of (seal sample_world)), w1))
    by reflexivity.
  assert (H2 : seal w1 = (Ok (out_of (seal w1)), snd (seal w1)))
    by reflexivity.
  assert (Hne : draw secretbox_nonceLength sample_world
                <> draw secretbox_nonceLength w1)
    by (vm_compute; intros H; discriminate H).
  exists (out_of (seal sample_world)), w1, (out_of (seal w1)), (snd (seal w1)).
  split; [exact H1 |]. split; [exact H2 |]. split; [exact Hne |].
  apply (encryptData_distinct_nonces (P := sample) _ _ _ _ _ _ _ _ H1 H2 Hne).
Defined.

Lemma decryptSurvey_wrong_password_witness :
  exists w' key1 key2 w2',
    createEncryptedSurvey (P := sample) (VText "Q?") "correct-horse-battery"
      sample_world = (Ok sample_package, w')
    /\ argon2_hash (Platform := sample) (deriveKey_options (P := sample) "correct-horse-battery"
                      (es_salt sample_package)) = Ok key1
    /\ argon2_hash (Platform := sample) (deriveKey_options (P := sample) "wrong-password"
                      (es_salt sample_package)) = Ok key2
    /\ keyHash_of (P := sample) key1 <> keyHash_of (P := sample) key2
    /\ decryptSurvey (P := sample) sample_package "wrong-password" sample_world
       = (Throw "Invalid password", w2')
    /\ calls w2' = calls sample_world ++ [CallArgon2Hash; CallDigest].
Proof.
  pose (w' := snd (createEncryptedSurvey (P := sample) (VText "Q?")
                     "correct-horse-battery" sample_world)).
  pose (key1 := stretch 32 (list_byte_of_string "correct-horse-battery"
                            ++ es_salt sample_package)).
  pose (key2 := stretch 32 (list_byte_of_string "wrong-password"
                            ++ es_salt sample_package)).
  assert (Hseal : createEncryptedSurvey (P := sample) (VText "Q?")
                    "correct-horse-battery" sample_world
                  = (Ok sample_package, w')) by reflexivity.
  assert (Hkey1 : argon2_hash (Platform := sample)
                     (deriveKey_options (P := sample) "correct-horse-battery"
                        (es_salt sample_package)) = Ok key1)
    by reflexivity.
  assert (Hkey2 : argon2_hash (Platform := sample)
                     (deriveKey_options (P := sample) "wrong-password"
                        (es_salt sample_package)) = Ok key2)
    by reflexivity.
  assert (Hne : keyHash_of (P := sample) key1 <> keyHash_of (P := sample) key2)
    by (vm_compute; intros H; discriminate H).
  destruct (decryptSurvey_wrong_password (P := sample) _ _ _ _ _ sample_world
              _ _ _ Hseal Hkey1 Hkey2 Hne) as (w2' & Hopen & Hcalls & _).
  exists w', key1, key2, w2'. repeat split; assumption.
Defined.

Lemma createEncryptedSurvey_package_shape_witness :
  8 <= String.length "correct-horse-battery" <= 128
  /\ exists pkg w',
       createEncryptedSurvey (P := sample) (VText "Q?") "correct-horse-battery"
         sample_world = (Ok pkg, w')
       /\ List.length (es_salt pkg) = 16
       /\ List.length (es_encryptedData pkg)
          = 24 + List.length (TextEncoder_encode (Platform := sample)
                                (JSON_stringify (Platform := sample) (VText "Q?")))
            + 16
       /\ String.length (es_keyHash pkg) = 64
       /\ es_keyHash pkg <> "".
Proof.
  assert (Hpolicy : 8 <= String.length "correct-horse-battery" <= 128)
    by (simpl; lia).
  split; [exact Hpolicy |].
  exact (createEncryptedSurvey_package_shape (P := sample) sample_laws
           (VText "Q?") "correct-horse-battery" sample_world Hpolicy).
Defined.

Lemma decryptSurvey_createEncryptedSurvey_witness :
  8 <= String.length "correct-horse-battery" <= 128
  /\ exists pkg w',
       createEncryptedSurvey (P := sample) (VText "Q?") "correct-horse-battery"
         sample_world = (Ok pkg, w')
       /\ forall w2, exists r w2',
            decryptSurvey (P := sample) pkg "correct-horse-battery" w2 = (Ok r, w2')
            /\ surveyData r = VText "Q?".
Proof.
  assert (Hpolicy : 8 <= String.length "correct-horse-battery" <= 128)
    by (simpl; lia).
  split; [exact Hpolicy |].
  exact (decryptSurvey_createEncryptedSurvey (P := sample) sample_laws
           (VText "Q?") "correct-horse-battery" sample_world Hpolicy).
Defined.

Lemma decryptSurvey_returns_key_witness :
  exists r w',
    decryptSurvey (P := sample) sample_package "correct-horse-battery" sample_world
    = (Ok r, w')
    /\ argon2_hash (Platform := sample) (deriveKey_options (P := sample) "correct-horse-battery"
                      (es_salt sample_package)) = Ok (key r)
    /\ keyHash_of (P := sample) (key r) = es_keyHash sample_package
    /\ surveyData r = VText "Q?".
Proof.
  pose (run := decryptSurvey (P := sample) sample_package
                 "correct-horse-battery" sample_world).
  pose (r := {| surveyData := VText "Q?";
                key := stretch 32 (list_byte_of_string "correct-horse-battery"
                                   ++ es_salt sample_package) |}).
  assert (Hrun : run = (Ok r, snd run)) by reflexivity.
  destruct (decryptSurvey_returns_key (P := sample) sample_package
              "correct-horse-battery" sample_world _ _ Hrun)
    as (Hkey & Hhash & _ & _).
  exists r, (snd run). split; [exact Hrun |]. split; [exact Hkey |].
  split; [exact Hhash | reflexivity].
Defined.

(** C4, the claim as stated fails. Opening the sample package with its
    password returns, next to the value, the 32 bytes of the derived key:
    the [key] field of the result is what [deriveKey] returned. *)
Lemma decryptSurvey_result_carries_key :
  fst (decryptSurvey (P := sample) sample_package "correct-horse-battery"
         sample_world)
  = Ok {| surveyData := VText "Q?";
          key := stretch 32 (list_byte_of_string "correct-horse-battery"
                             ++ es_salt sample_package) |}
  /\ fst (deriveKey (P := sample) "correct-horse-battery"
            (es_salt sample_package) sample_world)
     = Ok (stretch 32 (list_byte_of_string "correct-horse-battery"
                       ++ es_salt sample_package))
  /\ List.length (stretch 32 (list_byte_of_string "correct-horse-battery"
                             ++ es_salt sample_package)) = 32.
Proof. repeat split; reflexivity. Qed.

Lemma deriveKey_defers_to_argon2_witness :
  8 <= List.length (draw 20 sample_world)
  /\ exists key,
       deriveKey (P := sample) "" (draw 20 sample_world) sample_world
       = (Ok key, record_call CallArgon2Hash sample_world)
       /\ List.length key = 32.
Proof.
  assert (Hsalt : 8 <= List.length (draw 20 sample_world))
    by (rewrite length_draw; lia).
  split; [exact Hsalt |].
  exact (proj2 (deriveKey_defers_to_argon2 (P := sample) sample_laws
                  "" (draw 20 sample_world) sample_world) Hsalt).
Defined.

(** C8, the claim as stated fails. With a salt of 20 bytes, not 16,
    [deriveKey] does not fail: the library accepts the salt (Argon2 takes
    any salt of eight bytes or more) and a 32-byte key comes back. *)
Lemma deriveKey_accepts_20_byte_salt :
  List.length (draw 20 sample_world) = 20
  /\ exists key,
       fst (deriveKey (P := sample) "correct-horse-battery"
              (draw 20 sample_world) sample_world) = Ok key
       /\ List.length key = 32.
Proof.
  split; [reflexivity |].
  eexists. split; reflexivity.
Qed.

(* ================================================================== *)
(** * Identifiers *)
(* ================================================================== *)

Lemma length_substring_0 (m : nat) (s : string) :
  String.length (substring 0 m s) = Nat.min m (String.length s).
Proof.
  revert s. induction m as [| m IH]; intros [| c s]; simpl; auto.
Qed.

Lemma length_substring_le (a m : nat) (s : string) :
  String.length (substring a m s) <= m.
Proof.
  revert a m. induction s as [| c s IH]; intros [| a] [| m]; simpl; try lia.
  - specialize (IH 0 m). lia.
  - apply (IH a 0).
  - apply (IH a (S m)).
Qed.

Lemma string_forallb_append (p : ascii -> bool) (s t : string) :
  string_forallb p (s ++ t) = string_forallb p s && string_forallb p t.
Proof.
  induction s as [| c s IH]; simpl; [reflexivity |].
  now rewrite IH, andb_assoc.
Qed.

Lemma string_forallb_substring_0 (p : ascii -> bool) (m : nat) (s : string) :
  string_forallb p s = true -> string_forallb p (substring 0 m s) = true.
Proof.
  revert s. induction m as [| m IH]; intros [| c s]; simpl; auto.
  intros H. apply andb_true_iff in H. destruct H as [Hc Hs].
  now rewrite Hc, IH.
Qed.

Lemma get_chars (n : nat) :
  n < 32 ->
  exists c, String.get n chars = Some c /\ in_alphabet chars c = true.
Proof.
  intros Hn.
  do 32 (destruct n as [| n]; [eexists; split; reflexivity |]).
  lia.
Qed.

Lemma char_at_chars (i : Z) :
  (0 <= i < 32)%Z ->
  exists c, char_at chars i = String c EmptyString
            /\ in_alphabet chars c = true.
Proof.
  intros Hi. unfold char_at.
  destruct (i <? 0)%Z eqn:Hneg; [apply Z.ltb_lt in Hneg; lia |].
  destruct (get_chars (Z.to_nat i)) as (c & Hget & Hin); [lia |].
  rewrite Hget. now exists c.
Qed.

Lemma encode_timestamp_shape (rounds : nat) :
  forall (temp : Z) (result : string),
    (0 <= temp)%Z ->
    over_alphabet chars result = true ->
    String.length (encode_timestamp rounds temp result)
    = rounds + String.length result
    /\ over_alphabet chars (encode_timestamp rounds temp result) = true.
Proof.
  induction rounds as [| rounds IH]; intros temp result Htemp Hres.
  - split; [reflexivity | exact Hres].
  - cbn [encode_timestamp].
    destruct (char_at_chars (Z.rem temp 32)) as (c & Hc & Hin).
    { apply Z.rem_bound_pos; lia. }
    rewrite Hc. cbn [append].
    destruct (IH (temp / 32)%Z (String c result)) as [Hlen Hover].
    { apply Z.div_pos; lia. }
    { unfold over_alphabet in *. cbn [string_forallb]. now rewrite Hin, Hres. }
    split; [rewrite Hlen; simpl; lia | exact Hover].
Qed.

Lemma byte_range (b : byte) : (0 <= Z.of_N (Byte.to_N b) < 256)%Z.
Proof. pose proof (Byte.to_N_bounded b). lia. Qed.

Lemma encode_randomness_shape (randomness : bytes) :
  forall result : string,
    over_alphabet chars result = true ->
    String.length (encode_randomness randomness result)
    = String.length result + (2 * List.length randomness - 1)
    /\ over_alphabet chars (encode_randomness randomness result) = true.
Proof.
  induction randomness as [| b rest IH]; intros result Hres.
  - split; [simpl; lia | exact Hres].
  - cbn [encode_randomness].
    pose proof (byte_range b) as Hb.
    destruct (char_at_chars (Z.rem (Z.of_N (Byte.to_N b)) 32)) as (c1 & Hc1 & Hin1).
    { apply Z.rem_bound_pos; lia. }
    destruct (char_at_chars (Z.of_N (Byte.to_N b) / 32)) as (c2 & Hc2 & Hin2).
    { split; [apply Z.div_pos; lia | apply Z.div_lt_upper_bound; lia]. }
    rewrite Hc1, Hc2.
    assert (H1 : over_alphabet chars (result ++ String c1 EmptyString) = true).
    { unfold over_alphabet in *. rewrite string_forallb_append, Hres.
      cbn [string_forallb]. now rewrite Hin1. }
    destruct rest as [| b' rest'].
    + cbn [encode_randomness]. split; [| exact H1].
      rewrite length_append. simpl. lia.
    + assert (H2 : over_alphabet chars
                     ((result ++ String c1 EmptyString) ++ String c2 EmptyString)
                   = true).
      { unfold over_alphabet in *. rewrite string_forallb_append, H1.
        cbn [string_forallb]. now rewrite Hin2. }
      destruct (IH _ H2) as [Hlen Hover].
      split; [| exact Hover].
      rewrite Hlen, !length_append. simpl. lia.
Qed.

Lemma toUpperCase_append (a b : string) :
  toUpperCase (a ++ b) = (toUpperCase a ++ toUpperCase b)%string.
Proof.
  induction a as [| c a IH]; [reflexivity |].
  cbn [append toUpperCase]. now rewrite IH.
Qed.

Lemma length_toUpperCase (s : string) :
  String.length (toUpperCase s) = String.length s.
Proof.
  induction s as [| c s IH]; [reflexivity |].
  cbn [toUpperCase String.length]. now rewrite IH.
Qed.

Lemma substring_0_all (m : nat) (s : string) :
  String.length s <= m -> substring 0 m s = s.
Proof.
  revert s. induction m as [| m IH]; intros [| c s] H; cbn in *;
    try reflexivity; try lia.
  rewrite IH by lia. reflexivity.
Qed.

Lemma get_in_alphabet (alphabet : string) :
  forall (k : nat) (c : ascii),
    String.get k alphabet = Some c -> in_alphabet alphabet c = true.
Proof.
  unfold in_alphabet.
  induction alphabet as [| a alphabet IH]; intros k c H; [discriminate H |].
  cbn [list_ascii_of_string existsb]. destruct k as [| k]; cbn [String.get] in H.
  - injection H as ->. now rewrite Ascii.eqb_refl.
  - rewrite (IH k c H). apply orb_true_r.
Qed.

Lemma digit_of_digits36 (d : Z) : in_alphabet digits36 (digit_of d) = true.
Proof.
  unfold digit_of.
  destruct (String.get (Z.to_nat d) digits36) as [c |] eqn:Hget;
    [now apply (get_in_alphabet _ _ _ Hget) | reflexivity].
Qed.

Lemma to_radix_digits36 (radix : Z) (fuel : nat) :
  forall (n : Z) (acc : string),
    over_alphabet digits36 acc = true ->
    over_alphabet digits36 (to_radix radix fuel n acc) = true.
Proof.
  unfold over_alphabet.
  induction fuel as [| fuel IH]; intros n acc Hacc; [exact Hacc |].
  cbn [to_radix]. destruct (n <? radix)%Z.
  - cbn [string_forallb]. now rewrite digit_of_digits36.
  - apply IH. cbn [string_forallb]. now rewrite digit_of_digits36.
Qed.

Lemma upper_digit (c : ascii) :
  in_alphabet digits36 c = true ->
  in_alphabet upper_digits36 (upper_ascii c) = true.
Proof.
  unfold in_alphabet at 1. intros H. apply existsb_exists in H.
  destruct H as (d & Hin & Heq). apply Ascii.eqb_eq in Heq. subst d.
  assert (Hall : forallb (fun c => in_alphabet upper_digits36 (upper_ascii c))
                   (list_ascii_of_string digits36) = true) by reflexivity.
  rewrite forallb_forall in Hall. now apply Hall.
Qed.

Lemma toUpperCase_digits36 (s : string) :
  over_alphabet digits36 s = true ->
  over_alphabet upper_digits36 (toUpperCase s) = true.
Proof.
  unfold over_alphabet. induction s as [| c s IH]; [reflexivity |].
  cbn [toUpperCase string_forallb]. intros H.
  apply andb_true_iff in H. destruct H as [Hc Hs].
  now rewrite (upper_digit c Hc), IH.
Qed.

(** C6, as amended. [generateUlid], whose clock reading is not negative,
    returns exactly 26 characters, all from the alphabet [chars]: 32
    symbols, with none of I, L, O and U. [generateId] returns the first
    26 characters, or all there are, of the clock reading, written in
    base 36 with its letters in upper case, followed by the upper-cased
    characters 2 to 14 of the random text: at most 13 of them. Nothing
    is padded. *)
Theorem generated_identifier_shape :
  forall w : World,
    (0 <= clock w (clock_pos w))%Z ->
    (exists s w',
        generateUlid w = (Ok s, w')
        /\ String.length s = 26
        /\ over_alphabet chars s = true)
    /\ String.length chars = 32
    /\ string_forallb (fun c => negb (in_alphabet chars c)) "ILOU" = true
    /\ (exists s w',
           generateId w = (Ok s, w')
           /\ String.length s <= 26
           /\ let timestamp :=
                toUpperCase (Number_toString 36 (clock w (clock_pos w))) in
              let randomPart :=
                toUpperCase
                  (js_substring 2 15 (random36 w (random36_pos w)))
              in
              s = js_substring 0 26 (timestamp ++ randomPart)
              /\ over_alphabet upper_digits36 timestamp = true
              /\ String.length randomPart <= 13
              /\ String.length s
                 = Nat.min 26 (String.length timestamp + String.length randomPart)
              /\ (String.length timestamp + String.length randomPart <= 26 ->
                  s = (timestamp ++ randomPart)%string)).
Proof.
  intros w Hclock. split; [| split; [reflexivity | split; [reflexivity |]]].
  - unfold generateUlid, bind, Date_now, randomBytes, ret.
    eexists _, _. split; [reflexivity |].
    destruct (encode_timestamp_shape 10 (clock w (clock_pos w)) "" Hclock eq_refl)
      as [Hlen Hover].
    destruct (encode_randomness_shape
                (draw 10 (set_clock_pos (S (clock_pos w)) w)) _ Hover)
      as [Hlen' Hover'].
    unfold js_slice. split.
    + rewrite length_substring_0, Hlen', Hlen, length_draw. reflexivity.
    + apply string_forallb_substring_0. exact Hover'.
  - unfold generateId, bind, Date_now, Math_random_toString36, ret.
    eexists _, _. split; [reflexivity |].
    split; [unfold js_substring at 1; apply length_substring_le |].
    cbv zeta. cbn [random36 set_clock_pos random36_pos].
    rewrite toUpperCase_append. split; [reflexivity |].
    split.
    { apply toUpperCase_digits36. unfold Number_toString.
      apply Z.ltb_ge in Hclock. rewrite Hclock.
      now apply to_radix_digits36. }
    split.
    { rewrite length_toUpperCase. unfold js_substring.
      apply (length_substring_le 2 (15 - 2)). }
    split.
    { unfold js_substring at 1. change (26 - 0) with 26.
      now rewrite length_substring_0, length_append. }
    intros Hshort. unfold js_substring at 1. change (26 - 0) with 26.
    apply substring_0_all. now rewrite length_append.
Qed.

Lemma generated_identifier_shape_witness :
  (0 <= clock sample_world (clock_pos sample_world))%Z
  /\ (exists s w',
         generateUlid sample_world = (Ok s, w')
         /\ String.length s = 26
         /\ over_alphabet chars s = true)
  /\ (exists s w',
         generateId sample_world = (Ok s, w') /\ String.length s <= 26).
Proof.
  assert (Hclock : (0 <= clock sample_world (clock_pos sample_world))%Z)
    by (simpl; lia).
  split; [exact Hclock |].
  pose proof (generated_identifier_shape sample_world Hclock) as H.
  split; [exact (proj1 H) |].
  destruct (proj2 (proj2 (proj2 H))) as (s & w' & Hrun & Hlen & _).
  now exists s, w'.
Defined.

(** C6, the claim as stated fails. At clock reading 1700000000000 and
    random fraction [0.pmr2lb8co6p], [generateId] returns 19 characters,
    and they include L and O. *)
Lemma generateId_is_not_a_ulid :
  fst (generateId sample_world) = Ok "LOYW3V28PMR2LB8CO6P"
  /\ String.length "LOYW3V28PMR2LB8CO6P" = 19
  /\ over_alphabet chars "LOYW3V28PMR2LB8CO6P" = false.
Proof. repeat split; reflexivity. Qed.

(* ================================================================== *)
(** * The database layer and the worker *)
(* ================================================================== *)

Lemma find_by_id (l : list SurveyRow) (row : SurveyRow) :
  NoDup (map sv_id l) -> In row l ->
  find (fun r => String.eqb (sv_id r) (sv_id row)) l = Some row.
Proof.
  induction l as [| x l IH]; intros Hnodup Hin; [contradiction |].
  cbn [map] in Hnodup. inversion Hnodup as [| ? ? Hnotin Hnodup']; subst.
  cbn [find]. destruct Hin as [-> | Hin].
  - now rewrite String.eqb_refl.
  - destruct (String.eqb (sv_id x) (sv_id row)) eqn:Heq.
    + apply String.eqb_eq in Heq. exfalso. apply Hnotin.
      rewrite Heq. now apply in_map.
    + now apply IH.
Qed.

Lemma getSurvey_found (surveyId : string) (w : World) (row : SurveyRow) :
  find (fun r => String.eqb (sv_id r) surveyId) (surveys (DB w)) = Some row ->
  exists survey,
    getSurvey surveyId w = (Ok (Some survey), w)
    /\ creatorKeyHash survey = sv_creator_key_hash row
    /\ shell_of survey
       = {| sh_id := sv_id row;
            sh_salt := sv_salt row;
            sh_encryptedData := sv_questions row;
            sh_keyHash := sv_creator_key_hash row;
            sh_createdAt := sv_created_at row;
            sh_expiresAt := sv_expires_at row;
            sh_maxResponses := sv_max_responses row |}.
Proof.
  intros Hfind. unfold getSurvey, bind, select_survey_by_id, ret.
  rewrite Hfind. eexists. repeat split.
Qed.

Lemma getSurvey_inv (surveyId : string) (w w' : World) (survey : Survey) :
  getSurvey surveyId w = (Ok (Some survey), w') ->
  w' = w
  /\ exists row,
       In row (surveys (DB w)) /\ sv_id row = surveyId
       /\ creatorKeyHash survey = sv_creator_key_hash row.
Proof.
  unfold getSurvey, bind, select_survey_by_id, ret.
  destruct (find _ _) as [row |] eqn:Hfind; intros H; inversion H; subst.
  split; [reflexivity |].
  apply find_some in Hfind. destruct Hfind as [Hin Heq].
  apply String.eqb_eq in Heq. now exists row.
Qed.

Lemma getSurveyByAnalysisId_inv (analysisId_ : string) (w w' : World)
  (survey : Survey) :
  getSurveyByAnalysisId analysisId_ w = (Ok (Some survey), w') ->
  w' = w
  /\ exists row,
       In row (surveys (DB w)) /\ sv_analysis_id row = Some analysisId_
       /\ creatorKeyHash survey = sv_creator_key_hash row.
Proof.
  unfold getSurveyByAnalysisId, bind, select_survey_by_analysis_id, ret.
  destruct (find _ _) as [row |] eqn:Hfind; intros H; inversion H; subst.
  split; [reflexivity |].
  apply find_some in Hfind. destruct Hfind as [Hin Heq].
  unfold analysis_id_is in Heq.
  destruct (sv_analysis_id row) as [a |] eqn:Ha; [| discriminate].
  apply String.eqb_eq in Heq. subst a. now exists row.
Qed.

(** The check every creator-only operation of the database layer makes. *)
Lemma getSurveyResponses_inv (surveyId kh : string) (w w' : World)
  (items : list ResponseItem) :
  getSurveyResponses surveyId kh w = (Ok items, w') ->
  exists row,
    In row (surveys (DB w)) /\ sv_id row = surveyId
    /\ sv_creator_key_hash row = kh.
Proof.
  unfold getSurveyResponses. intros H.
  apply bind_inv_Ok in H. destruct H as ([survey |] & w1 & Hget & H);
    [| discriminate].
  apply getSurvey_inv in Hget. destruct Hget as (-> & row & Hin & Hid & Hhash).
  destruct (String.eqb (creatorKeyHash survey) kh) eqn:Heq; [| discriminate].
  apply String.eqb_eq in Heq. exists row. repeat split; congruence.
Qed.

Lemma getSurveyResponsesByAnalysisId_inv (analysisId_ kh : string)
  (w w' : World) (items : list ResponseItem) :
  getSurveyResponsesByAnalysisId analysisId_ kh w = (Ok items, w') ->
  exists row,
    In row (surveys (DB w)) /\ sv_analysis_id row = Some analysisId_
    /\ sv_creator_key_hash row = kh.
Proof.
  unfold getSurveyResponsesByAnalysisId. intros H.
  apply bind_inv_Ok in H. destruct H as ([survey |] & w1 & Hget & H);
    [| discriminate].
  apply getSurveyByAnalysisId_inv in Hget.
  destruct Hget as (-> & row & Hin & Hid & Hhash).
  destruct (String.eqb (creatorKeyHash survey) kh) eqn:Heq; [| discriminate].
  apply String.eqb_eq in Heq. exists row. repeat split; congruence.
Qed.

Lemma deleteSurvey_inv (surveyId kh : string) (w w' : World) (d : Deletion) :
  deleteSurvey surveyId kh w = (Ok d, w') ->
  exists row,
    In row (surveys (DB w)) /\ sv_id row = surveyId
    /\ sv_creator_key_hash row = kh.
Proof.
  unfold deleteSurvey. intros H.
  apply bind_inv_Ok in H. destruct H as (found & w1 & Hsel & H).
  unfold select_survey_by_id in Hsel. inversion Hsel; subst found w1. clear Hsel.
  destruct (find _ _) as [row |] eqn:Hfind; [| discriminate].
  apply find_some in Hfind. destruct Hfind as [Hin Hid].
  apply String.eqb_eq in Hid.
  destruct (String.eqb (sv_creator_key_hash row) kh) eqn:Heq; [| discriminate].
  apply String.eqb_eq in Heq. now exists row.
Qed.

Lemma deleteSurveyByAnalysisId_inv (analysisId_ kh : string) (w w' : World)
  (d : Deletion) :
  deleteSurveyByAnalysisId analysisId_ kh w = (Ok d, w') ->
  exists row,
    In row (surveys (DB w)) /\ sv_analysis_id row = Some analysisId_
    /\ sv_creator_key_hash row = kh.
Proof.
  unfold deleteSurveyByAnalysisId. intros H.
  apply bind_inv_Ok in H. destruct H as (found & w1 & Hsel & H).
  unfold select_survey_by_analysis_id in Hsel.
  inversion Hsel; subst found w1. clear Hsel.
  destruct (find _ _) as [row |] eqn:Hfind; [| discriminate].
  apply find_some in Hfind. destruct Hfind as [Hin Hid].
  unfold analysis_id_is in Hid.
  destruct (sv_analysis_id row) as [a |] eqn:Ha; [| discriminate].
  apply String.eqb_eq in Hid. subst a.
  destruct (String.eqb (sv_creator_key_hash row) kh) eqn:Heq; [| discriminate].
  apply String.eqb_eq in Heq. now exists row.
Qed.

(** C5. For a survey stored under a primary key, the unauthenticated
    [handleGetSurvey] answers 200 with the survey shell, and the [keyHash]
    of that shell is the stored creator key hash: the very value against
    which [getSurveyResponses] compares the fingerprint a requester
    supplies, so that it accepts that value and no other. *)
Theorem handleGetSurvey_discloses_keyHash :
  forall (w : World) (row : SurveyRow),
    NoDup (map sv_id (surveys (DB w))) ->
    In row (surveys (DB w)) ->
    exists shell,
      handleGetSurvey (sv_id row) w = (Ok (apiResponse (Shell shell) 200), w)
      /\ sh_keyHash shell = sv_creator_key_hash row
      /\ forall kh,
           (exists items, getSurveyResponses (sv_id row) kh w = (Ok items, w))
           <-> kh = sh_keyHash shell.
Proof.
  intros w row Hkey Hin.
  pose proof (find_by_id _ _ Hkey Hin) as Hfind.
  destruct (getSurvey_found _ _ _ Hfind) as (survey & Hget & Hhash & Hshell).
  exists (shell_of survey). split; [| split].
  - unfold handleGetSurvey, try_catch.
    rewrite (bind_Ok _ _ _ _ _ Hget). reflexivity.
  - rewrite Hshell. reflexivity.
  - intros kh. rewrite Hshell. cbn [sh_keyHash]. split.
    + intros (items & Hrun).
      apply getSurveyResponses_inv in Hrun.
      destruct Hrun as (row' & Hin' & Hid & Hkh).
      pose proof (find_by_id _ _ Hkey Hin') as Hfind'.
      rewrite Hid in Hfind'. rewrite Hfind in Hfind'. congruence.
    + intros ->. unfold getSurveyResponses.
      rewrite (bind_Ok _ _ _ _ _ Hget), Hhash, String.eqb_refl.
      cbn [negb]. unfold bind, select_responses_asc, ret.
      eexists. reflexivity.
Qed.

Lemma handleGetSurvey_discloses_keyHash_witness :
  NoDup (map sv_id (surveys (DB (set_DB sample_database sample_world))))
  /\ In sample_row (surveys (DB (set_DB sample_database sample_world)))
  /\ exists shell,
       handleGetSurvey (sv_id sample_row) (set_DB sample_database sample_world)
       = (Ok (apiResponse (Shell shell) 200), set_DB sample_database sample_world)
       /\ sh_keyHash shell = sv_creator_key_hash sample_row.
Proof.
  assert (Hkey : NoDup (map sv_id
                          (surveys (DB (set_DB sample_database sample_world)))))
    by (simpl; constructor; [intros [] | constructor]).
  assert (Hin : In sample_row
                  (surveys (DB (set_DB sample_database sample_world))))
    by (simpl; left; reflexivity).
  split; [exact Hkey |]. split; [exact Hin |].
  destruct (handleGetSurvey_discloses_keyHash _ _ Hkey Hin)
    as (shell & Hrun & Hhash & _).
  exists shell. split; assumption.
Defined.

(** ** Routing *)

Lemma strip_prefix_spec (p s rest : string) :
  strip_prefix p s = Some rest -> s = (p ++ rest)%string.
Proof.
  revert s. induction p as [| a p IH]; intros s H.
  - cbn in H. now inversion H.
  - destruct s as [| b s]; cbn in H; [discriminate |].
    destruct (Ascii.eqb a b) eqn:Hab; [| discriminate].
    apply Ascii.eqb_eq in Hab. subst b.
    cbn [append]. f_equal. now apply IH.
Qed.

Lemma span_alnum_spec (s run rest : string) :
  span_alnum s = (run, rest) -> s = (run ++ rest)%string.
Proof.
  revert run rest. induction s as [| c s IH]; intros run rest H; cbn in H.
  - now inversion H.
  - destruct (is_alnum c).
    + destruct (span_alnum s) as [run' rest'] eqn:Hs.
      inversion H; subst. cbn [append]. f_equal. now apply IH.
    + now inversion H.
Qed.

Lemma match_route_spec (prefix suffix path group : string) :
  match_route prefix suffix path = Some group ->
  path = (prefix ++ group ++ suffix)%string.
Proof.
  unfold match_route. intros H.
  destruct (strip_prefix prefix path) as [rest |] eqn:Hstrip; [| discriminate].
  destruct (span_alnum rest) as [run tail] eqn:Hspan.
  destruct (truthy_string run && String.eqb tail suffix) eqn:Hok; [| discriminate].
  inversion H; subst run. clear H.
  apply andb_true_iff in Hok. destruct Hok as [_ Htail].
  apply String.eqb_eq in Htail. subst tail.
  apply strip_prefix_spec in Hstrip. apply span_alnum_spec in Hspan.
  now subst.
Qed.

(** ** Handlers that never answer with a creator-only success *)

Lemma plain_ret (r : Response) : creator_only_success r = false -> plain (ret r).
Proof. intros Hr w r' w' H. unfold ret in H. now inversion H; subst. Qed.

Lemma plain_bind {A} (m : M A) (k : A -> M Response) :
  (forall a, plain (k a)) -> plain (bind m k).
Proof.
  intros Hk w r w' H. apply bind_inv_Ok in H.
  destruct H as (a & w1 & _ & H). exact (Hk a _ _ _ H).
Qed.

Lemma plain_try_catch (m : M Response) (h : string -> M Response) :
  plain m -> (forall msg, plain (h msg)) -> plain (try_catch m h).
Proof.
  intros Hm Hh w r w' H. unfold try_catch in H.
  destruct (m w) as [[a | msg] w1] eqn:Hrun.
  - inversion H; subst. exact (Hm _ _ _ Hrun).
  - exact (Hh msg _ _ _ H).
Qed.

Ltac plain_step :=
  first
    [ apply plain_try_catch
    | apply plain_bind; intros ?
    | apply plain_ret; reflexivity
    | match goal with
      | |- plain (if ?b then _ else _) => destruct b
      | |- plain (match ?x with _ => _ end) => destruct x
      | |- plain (let '(_, _) := ?x in _) => destruct x
      | |- forall _, _ => intros ?
      end ].

Lemma plain_handleCreateSurvey (request : Request) :
  plain (handleCreateSurvey request).
Proof. unfold handleCreateSurvey. repeat plain_step. Qed.

Lemma plain_handleGetSurvey (surveyId : string) : plain (handleGetSurvey surveyId).
Proof. unfold handleGetSurvey. repeat plain_step. Qed.

Lemma plain_handleGetSurveyByAnalysisId (analysisId_ : string) :
  plain (handleGetSurveyByAnalysisId analysisId_).
Proof. unfold handleGetSurveyByAnalysisId. repeat plain_step. Qed.

Lemma plain_handleSubmitResponse (surveyId : string) (request : Request) :
  plain (handleSubmitResponse surveyId request).
Proof. unfold handleSubmitResponse. repeat plain_step. Qed.

Lemma plain_serveStaticFile (getFile : string -> option File) (path : string) :
  plain (ret (serveStaticFile getFile path)).
Proof.
  apply plain_ret. unfold serveStaticFile.
  destruct (getFile _); reflexivity.
Qed.

(** ** Handlers of the creator-only operations *)

Lemma supplied_keyHash (o : option string) :
  missing truthy_string o = false ->
  exists kh, o = Some kh /\ kh <> "" /\ get "" o = kh.
Proof.
  unfold missing, truthy_opt, truthy_string. destruct o as [kh |]; [| discriminate].
  intros H. exists kh. repeat split.
  intros ->. discriminate.
Qed.

(** What a guarded handler does once the fingerprint parameter is there:
    [op], then an answer built from its result. *)
Lemma guarded_handler_inv {A} (request : Request) (op : string -> M A)
  (answer : A -> M Response) (h : string -> M Response)
  (w w' : World) (r : Response) :
  (forall msg, plain (h msg)) ->
  try_catch
    (if missing truthy_string (keyHashParam request) then
       ret (errorResponse "Missing authorization key hash" 401)
     else bind (op (get "" (keyHashParam request))) answer)
    h w = (Ok r, w') ->
  creator_only_success r = true ->
  exists kh a w1,
    keyHashParam request = Some kh /\ kh <> ""
    /\ op kh w = (Ok a, w1).
Proof.
  intros Hh Hrun Hok. unfold try_catch in Hrun.
  destruct (missing truthy_string (keyHashParam request)) eqn:Hmiss.
  - unfold ret in Hrun. inversion Hrun; subst. discriminate.
  - destruct (supplied_keyHash _ Hmiss) as (kh & Hparam & Hne & Hget).
    rewrite Hget in Hrun.
    destruct (bind (op kh) answer w) as [[resp | msg] w1] eqn:Hbody.
    + apply bind_inv_Ok in Hbody. destruct Hbody as (a & w2 & Hop & _).
      now exists kh, a, w2.
    + rewrite (Hh msg _ _ _ Hrun) in Hok. discriminate.
Qed.

Lemma plain_catch_401 (msg : string) :
  plain (if includes "Unauthorized" msg then ret (errorResponse msg 401)
         else ret (errorResponse msg 500)).
Proof. repeat plain_step. Qed.

Lemma plain_catch_delete (msg : string) :
  plain (if includes "Unauthorized" msg || includes "not found" msg
         then ret (errorResponse msg 401)
         else ret (errorResponse msg 500)).
Proof. repeat plain_step. Qed.

Lemma handleGetResponses_inv (surveyId : string) (request : Request)
  (w w' : World) (r : Response) :
  handleGetResponses surveyId request w = (Ok r, w') ->
  creator_only_success r = true ->
  exists kh row,
    keyHashParam request = Some kh /\ kh <> ""
    /\ In row (surveys (DB w)) /\ sv_id row = surveyId
    /\ sv_creator_key_hash row = kh.
Proof.
  intros Hrun Hok. unfold handleGetResponses in Hrun.
  destruct (guarded_handler_inv _ _ _ _ _ _ _ plain_catch_401 Hrun Hok)
    as (kh & items & w1 & Hparam & Hne & Hop).
  apply getSurveyResponses_inv in Hop. destruct Hop as (row & Hin & Hid & Hkh).
  now exists kh, row.
Qed.

Lemma handleGetResponsesByAnalysisId_inv (analysisId_ : string)
  (request : Request) (w w' : World) (r : Response) :
  handleGetResponsesByAnalysisId analysisId_ request w = (Ok r, w') ->
  creator_only_success r = true ->
  exists kh row,
    keyHashParam request = Some kh /\ kh <> ""
    /\ In row (surveys (DB w)) /\ sv_analysis_id row = Some analysisId_
    /\ sv_creator_key_hash row = kh.
Proof.
  intros Hrun Hok. unfold handleGetResponsesByAnalysisId in Hrun.
  destruct (guarded_handler_inv _ _ _ _ _ _ _ plain_catch_401 Hrun Hok)
    as (kh & items & w1 & Hparam & Hne & Hop).
  apply getSurveyResponsesByAnalysisId_inv in Hop.
  destruct Hop as (row & Hin & Hid & Hkh).
  now exists kh, row.
Qed.

Lemma handleDeleteSurvey_inv (surveyId : string) (request : Request)
  (w w' : World) (r : Response) :
  handleDeleteSurvey surveyId request w = (Ok r, w') ->
  creator_only_success r = true ->
  exists kh row,
    keyHashParam request = Some kh /\ kh <> ""
    /\ In row (surveys (DB w)) /\ sv_id row = surveyId
    /\ sv_creator_key_hash row = kh.
Proof.
  intros Hrun Hok. unfold handleDeleteSurvey in Hrun.
  destruct (guarded_handler_inv _ _ _ _ _ _ _ plain_catch_delete Hrun Hok)
    as (kh & d & w1 & Hparam & Hne & Hop).
  apply deleteSurvey_inv in Hop. destruct Hop as (row & Hin & Hid & Hkh).
  now exists kh, row.
Qed.

Lemma handleDeleteSurveyByAnalysisId_inv (analysisId_ : string)
  (request : Request) (w w' : World) (r : Response) :
  handleDeleteSurveyByAnalysisId analysisId_ request w = (Ok r, w') ->
  creator_only_success r = true ->
  exists kh row,
    keyHashParam request = Some kh /\ kh <> ""
    /\ In row (surveys (DB w)) /\ sv_analysis_id row = Some analysisId_
    /\ sv_creator_key_hash row = kh.
Proof.
  intros Hrun Hok. unfold handleDeleteSurveyByAnalysisId in Hrun.
  destruct (guarded_handler_inv _ _ _ _ _ _ _ plain_catch_delete Hrun Hok)
    as (kh & d & w1 & Hparam & Hne & Hop).
  apply deleteSurveyByAnalysisId_inv in Hop.
  destruct Hop as (row & Hin & Hid & Hkh).
  now exists kh, row.
Qed.

Lemma and_then_Some (m : option string) (test : bool) (group : string) :
  m &&& test = Some group -> m = Some group.
Proof. unfold and_then. now destruct test. Qed.

Ltac route_step H :=
  match type of H with
  | context [match ?m &&& ?test with _ => _ end] =>
      let Hm := fresh "Hmatch" in
      destruct (m &&& test) eqn:Hm;
      [apply and_then_Some, match_route_spec in Hm | clear Hm]
  end.

Ltac not_creator_only H Hok :=
  exfalso;
  let Hplain := fresh "Hplain" in
  match type of H with
  | ?m _ = _ =>
      assert (Hplain : plain m)
        by first
             [ apply plain_handleCreateSurvey
             | apply plain_handleGetSurvey
             | apply plain_handleGetSurveyByAnalysisId
             | apply plain_handleSubmitResponse
             | apply plain_serveStaticFile
             | apply plain_ret; reflexivity ]
  end;
  rewrite (Hplain _ _ _ H) in Hok; discriminate Hok.

(* ================================================================== *)
(** * The database keeps the constraints of its schema *)
(* ================================================================== *)

Lemma NoDup_map_filter {Row Key} (key : Row -> Key) (keep : Row -> bool)
  (rows : list Row) :
  NoDup (map key rows) -> NoDup (map key (filter keep rows)).
Proof.
  induction rows as [| row rows IH]; intros H; [exact H |].
  cbn [map] in H. apply NoDup_cons_iff in H. destruct H as [Hrow Hrows].
  cbn [filter]. destruct (keep row); [| now apply IH].
  cbn [map]. apply NoDup_cons_iff. split; [| now apply IH].
  intros Hin. apply Hrow. apply in_map_iff in Hin.
  destruct Hin as (other & Hkey & Hother). apply filter_In in Hother.
  apply in_map_iff. exists other. tauto.
Qed.

Lemma NoDup_flat_map_filter {A B} (g : A -> list B) (p : A -> bool) (l : list A) :
  NoDup (flat_map g l) -> NoDup (flat_map g (filter p l)).
Proof.
  induction l as [| x l IH]; intros H; [exact H |].
  cbn [flat_map] in H. cbn [filter].
  pose proof (NoDup_app_remove_l _ _ H) as Hl.
  destruct (p x); [| now apply IH].
  cbn [flat_map]. apply NoDup_app.
  - exact (NoDup_app_remove_r _ _ H).
  - now apply IH.
  - intros a Ha Hin. apply in_flat_map in Hin.
    destruct Hin as (y & Hy & Hay). apply filter_In in Hy.
    assert (Hin' : In a (flat_map g l)).
    { apply in_flat_map. exists y. tauto. }
    clear - H Ha Hin'. induction (g x) as [| b gx IHg]; [contradiction |].
    cbn [app] in H. apply NoDup_cons_iff in H. destruct H as [Hb Hrest].
    destruct Ha as [-> | Ha].
    + apply Hb. apply in_app_iff. now right.
    + now apply IHg.
Qed.

Lemma NoDup_snoc {A} (l : list A) (a : A) :
  NoDup l -> ~ In a l -> NoDup (l ++ [a]).
Proof.
  intros Hl Ha. apply NoDup_app; [exact Hl | |].
  - constructor; [intros [] | constructor].
  - intros b Hb [<- | []]. exact (Ha Hb).
Qed.

Lemma existsb_id_false (l : list SurveyRow) (i : string) :
  existsb (fun x => String.eqb (sv_id x) i) l = false ->
  ~ In i (map sv_id l).
Proof.
  intros H Hin. apply in_map_iff in Hin. destruct Hin as (x & Hx & Hxin).
  assert (Ht : existsb (fun x => String.eqb (sv_id x) i) l = true).
  { apply existsb_exists. exists x. split; [exact Hxin |].
    now apply String.eqb_eq. }
  congruence.
Qed.

Lemma in_analysis_ids (db : Database) (a : string) :
  In a (analysis_ids db)
  <-> exists s, In s (surveys db) /\ sv_analysis_id s = Some a.
Proof.
  unfold analysis_ids. rewrite in_flat_map. split.
  - intros (s & Hs & Ha). exists s. split; [exact Hs |].
    destruct (sv_analysis_id s) as [b |]; [| contradiction].
    destruct Ha as [-> | []]. reflexivity.
  - intros (s & Hs & Ha). exists s. split; [exact Hs |].
    rewrite Ha. now left.
Qed.

Lemma db_wf_add_survey (row : SurveyRow) (db : Database) :
  db_wf db -> unique_violation row db = false -> db_wf (add_survey row db).
Proof.
  intros [Hids Hana Hresp Hparent] Hfresh.
  unfold unique_violation in Hfresh. apply orb_false_iff in Hfresh.
  destruct Hfresh as [Hid Ha].
  split; unfold add_survey; cbn [surveys responses].
  - rewrite map_app. apply NoDup_snoc; [exact Hids |].
    now apply existsb_id_false.
  - unfold analysis_ids. cbn [surveys]. rewrite flat_map_app.
    cbn [flat_map]. rewrite app_nil_r.
    destruct (sv_analysis_id row) as [a |] eqn:Hrow.
    + apply NoDup_snoc; [exact Hana |].
      intros Hin. apply (in_analysis_ids db) in Hin.
      destruct Hin as (s & Hs & Hsa).
      assert (Ht : existsb (analysis_id_is a) (surveys db) = true).
      { apply existsb_exists. exists s. split; [exact Hs |].
        unfold analysis_id_is. rewrite Hsa. apply String.eqb_refl. }
      congruence.
    + rewrite app_nil_r. exact Hana.
  - exact Hresp.
  - intros r Hr. destruct (Hparent r Hr) as (s & Hs & Hsid).
    exists s. split; [| exact Hsid]. apply in_app_iff. now left.
Qed.

Lemma db_wf_add_response (r : ResponseRow) (db : Database) :
  db_wf db ->
  existsb (fun x => String.eqb (rs_id x) (rs_id r)) (responses db) = false ->
  (exists s, In s (surveys db) /\ sv_id s = rs_survey_id r) ->
  db_wf (add_response r db).
Proof.
  intros [Hids Hana Hresp Hparent] Hfresh Hsurvey.
  split; unfold add_response; cbn [surveys responses]; try assumption.
  - rewrite map_app. apply NoDup_snoc; [exact Hresp |].
    intros Hin. apply in_map_iff in Hin. destruct Hin as (x & Hx & Hxin).
    assert (Ht : existsb (fun x => String.eqb (rs_id x) (rs_id r)) (responses db)
                 = true).
    { apply existsb_exists. exists x. split; [exact Hxin |].
      now apply String.eqb_eq. }
    congruence.
  - intros x Hx. apply in_app_iff in Hx. destruct Hx as [Hx | [<- | []]].
    + now apply Hparent.
    + exact Hsurvey.
Qed.

Lemma db_wf_remove_survey (i : string) (db : Database) :
  db_wf db -> db_wf (remove_survey i db).
Proof.
  intros [Hids Hana Hresp Hparent].
  split; unfold remove_survey; cbn [surveys responses].
  - now apply NoDup_map_filter.
  - unfold analysis_ids. cbn [surveys]. now apply NoDup_flat_map_filter.
  - now apply NoDup_map_filter.
  - intros r Hr. apply filter_In in Hr. destruct Hr as [Hr Hne].
    destruct (Hparent r Hr) as (s & Hs & Hsid).
    exists s. split; [| exact Hsid].
    apply filter_In. split; [exact Hs |]. now rewrite Hsid.
Qed.

Lemma db_step_wf (db db' : Database) :
  db_step db db' -> db_wf db -> db_wf db'.
Proof.
  intros Hstep Hwf. destruct Hstep.
  - exact Hwf.
  - now apply db_wf_add_survey.
  - now apply db_wf_add_response.
  - now apply db_wf_remove_survey.
Qed.

(** ** Computations that only read *)

Lemma readonly_ret {A} (a : A) : readonly (ret a).
Proof. intros w r w' H. unfold ret in H. now inversion H. Qed.

Lemma readonly_throw {A} (msg : string) : readonly (throw (A := A) msg).
Proof. intros w r w' H. unfold throw in H. now inversion H. Qed.

Lemma readonly_lift {A} (x : Result A) : readonly (lift x).
Proof. intros w r w' H. unfold lift in H. now inversion H. Qed.

Lemma readonly_bind {A B} (m : M A) (k : A -> M B) :
  readonly m -> (forall a, readonly (k a)) -> readonly (bind m k).
Proof.
  intros Hm Hk w r w' H. unfold bind in H.
  destruct (m w) as [[a | msg] w1] eqn:Hrun.
  - rewrite (Hk a _ _ _ H). exact (Hm _ _ _ Hrun).
  - inversion H; subst. exact (Hm _ _ _ Hrun).
Qed.

Lemma readonly_try_catch {A} (m : M A) (h : string -> M A) :
  readonly m -> (forall msg, readonly (h msg)) -> readonly (try_catch m h).
Proof.
  intros Hm Hh w r w' H. unfold try_catch in H.
  destruct (m w) as [[a | msg] w1] eqn:Hrun.
  - inversion H; subst. exact (Hm _ _ _ Hrun).
  - rewrite (Hh msg _ _ _ H). exact (Hm _ _ _ Hrun).
Qed.

Lemma readonly_Date_now : readonly Date_now.
Proof. intros w r w' H. unfold Date_now in H. now inversion H. Qed.

Lemma readonly_Math_random : readonly Math_random_toString36.
Proof. intros w r w' H. unfold Math_random_toString36 in H. now inversion H. Qed.

Lemma readonly_select_survey_by_id (i : string) : readonly (select_survey_by_id i).
Proof. intros w r w' H. unfold select_survey_by_id in H. now inversion H. Qed.

Lemma readonly_select_survey_by_analysis_id (a : string) :
  readonly (select_survey_by_analysis_id a).
Proof.
  intros w r w' H. unfold select_survey_by_analysis_id in H. now inversion H.
Qed.

Lemma readonly_select_responses_asc (i : string) : readonly (select_responses_asc i).
Proof. intros w r w' H. unfold select_responses_asc in H. now inversion H. Qed.

Lemma readonly_select_responses_desc (i : string) :
  readonly (select_responses_desc i).
Proof. intros w r w' H. unfold select_responses_desc in H. now inversion H. Qed.

Lemma readonly_select_response_count (i : string) :
  readonly (select_response_count i).
Proof. intros w r w' H. unfold select_response_count in H. now inversion H. Qed.

Ltac readonly_step :=
  first
    [ apply readonly_ret
    | apply readonly_throw
    | apply readonly_lift
    | apply readonly_Date_now
    | apply readonly_Math_random
    | apply readonly_select_survey_by_id
    | apply readonly_select_survey_by_analysis_id
    | apply readonly_select_responses_asc
    | apply readonly_select_responses_desc
    | apply readonly_select_response_count
    | apply readonly_try_catch
    | apply readonly_bind
    | match goal with
      | |- readonly (if ?b then _ else _) => destruct b
      | |- readonly (match ?x with _ => _ end) => destruct x
      | |- readonly (let x := _ in _) => cbv zeta
      | |- forall _, _ => intros ?
      end ].

Lemma readonly_getSurvey (i : string) : readonly (getSurvey i).
Proof. unfold getSurvey. repeat readonly_step. Qed.

Lemma readonly_getSurveyByAnalysisId (a : string) :
  readonly (getSurveyByAnalysisId a).
Proof. unfold getSurveyByAnalysisId. repeat readonly_step. Qed.

Lemma readonly_expired (e : option Z) : readonly (expired e).
Proof. unfold expired. repeat readonly_step. Qed.

Lemma readonly_canAcceptResponses (i : string) : readonly (canAcceptResponses i).
Proof.
  unfold canAcceptResponses, getResponseCount.
  apply readonly_bind; [apply readonly_getSurvey |].
  intros [survey |]; [| apply readonly_ret].
  apply readonly_bind; [apply readonly_expired |].
  repeat readonly_step.
Qed.

Lemma readonly_getSurveyResponses (i kh : string) :
  readonly (getSurveyResponses i kh).
Proof.
  unfold getSurveyResponses.
  apply readonly_bind; [apply readonly_getSurvey |]. repeat readonly_step.
Qed.

Lemma readonly_getSurveyResponsesByAnalysisId (a kh : string) :
  readonly (getSurveyResponsesByAnalysisId a kh).
Proof.
  unfold getSurveyResponsesByAnalysisId.
  apply readonly_bind; [apply readonly_getSurveyByAnalysisId |].
  repeat readonly_step.
Qed.

Lemma readonly_getSurveyStats (i kh : string) : readonly (getSurveyStats i kh).
Proof.
  unfold getSurveyStats, getResponseCount.
  apply readonly_bind; [apply readonly_getSurvey |].
  intros [survey |]; [| apply readonly_throw].
  destruct (negb _); [apply readonly_throw |].
  apply readonly_bind; [apply readonly_select_response_count |]. intros n.
  apply readonly_bind; [apply readonly_expired |]. intros b.
  apply readonly_ret.
Qed.

Lemma readonly_getSurveyStatsByAnalysisId (a kh : string) :
  readonly (getSurveyStatsByAnalysisId a kh).
Proof.
  unfold getSurveyStatsByAnalysisId, getResponseCount.
  apply readonly_bind; [apply readonly_getSurveyByAnalysisId |].
  intros [survey |]; [| apply readonly_throw].
  destruct (negb _); [apply readonly_throw |].
  apply readonly_bind; [apply readonly_select_response_count |]. intros n.
  apply readonly_bind; [apply readonly_expired |]. intros b.
  apply readonly_ret.
Qed.

(** ** Submitting a response *)

Lemma expired_run (e : option Z) (w : World) :
  exists b w1,
    expired e w = (Ok b, w1)
    /\ DB w1 = DB w
    /\ (b = true
        <-> exists x, e = Some x /\ x <> 0%Z /\ (x < clock_now w)%Z).
Proof.
  unfold expired, truthy_number.
  destruct e as [x |].
  - destruct (Z.eqb x 0) eqn:Hx; cbn [negb].
    + apply Z.eqb_eq in Hx. eexists _, _. split; [reflexivity |].
      split; [reflexivity |]. split; [discriminate |].
      intros (y & Hy & Hne & _). inversion Hy; subst. contradiction.
    + apply Z.eqb_neq in Hx.
      unfold bind, Date_now, ret. eexists _, _. split; [reflexivity |].
      split; [reflexivity |]. unfold clock_now. split.
      * intros Hlt. apply Z.ltb_lt in Hlt. now exists x.
      * intros (y & Hy & _ & Hlt). inversion Hy; subst. now apply Z.ltb_lt.
  - eexists _, _. split; [reflexivity |]. split; [reflexivity |].
    split; [discriminate |]. intros (y & Hy & _). discriminate.
Qed.

Lemma getSurvey_run (i : string) (w : World) :
  exists o,
    getSurvey i w = (Ok o, w)
    /\ match find_survey i (DB w), o with
       | Some row, Some survey =>
           expiresAt survey = sv_expires_at row
           /\ maxResponses survey = sv_max_responses row
           /\ creatorKeyHash survey = sv_creator_key_hash row
           /\ id survey = sv_id row
       | None, None => True
       | _, _ => False
       end.
Proof.
  unfold getSurvey, bind, select_survey_by_id, ret, find_survey.
  destruct (find _ _) as [row |]; eexists; split; try reflexivity.
  cbn. tauto.
Qed.

Lemma find_survey_some (i : string) (db : Database) (row : SurveyRow) :
  find_survey i db = Some row -> In row (surveys db) /\ sv_id row = i.
Proof.
  unfold find_survey. intros H. apply find_some in H.
  destruct H as [Hin Heq]. now apply String.eqb_eq in Heq.
Qed.

(** What [canAcceptResponses] answers, case by case. *)
Lemma canAcceptResponses_run (i : string) (w : World) :
  exists acc w1,
    canAcceptResponses i w = (Ok acc, w1)
    /\ DB w1 = DB w
    /\ match find_survey i (DB w) with
       | None => canAccept acc = false /\ reason acc = "Survey not found"
       | Some row =>
           if canAccept acc then
             ~ (exists x, sv_expires_at row = Some x /\ x <> 0%Z
                          /\ (x < clock_now w)%Z)
             /\ at_limit (sv_max_responses row) (response_count i (DB w)) = false
           else
             (reason acc = "Survey has expired"
              /\ exists x, sv_expires_at row = Some x /\ x <> 0%Z
                           /\ (x < clock_now w)%Z)
             \/ (reason acc = "Survey has reached maximum responses"
                 /\ ~ (exists x, sv_expires_at row = Some x /\ x <> 0%Z
                                 /\ (x < clock_now w)%Z)
                 /\ at_limit (sv_max_responses row) (response_count i (DB w))
                    = true)
       end.
Proof.
  unfold canAcceptResponses.
  destruct (getSurvey_run i w) as (o & Hget & Hrel).
  rewrite (bind_Ok _ _ _ _ _ Hget).
  destruct (find_survey i (DB w)) as [row |] eqn:Hfind;
    destruct o as [survey |]; try contradiction.
  2:{ eexists _, _. split; [reflexivity |]. cbn. tauto. }
  destruct Hrel as (Hexp & Hmax & _ & _).
  destruct (expired_run (expiresAt survey) w) as (b & w1 & Hrun & Hdb & Hb).
  rewrite (bind_Ok _ _ _ _ _ Hrun). rewrite Hexp in Hb.
  destruct b.
  - eexists _, _. split; [reflexivity |]. split; [exact Hdb |].
    cbn. left. split; [reflexivity |]. now apply Hb.
  - assert (Hnot : ~ (exists x, sv_expires_at row = Some x /\ x <> 0%Z
                                /\ (x < clock_now w)%Z)).
    { intros H. apply Hb in H. discriminate. }
    unfold at_limit, getResponseCount. rewrite Hmax.
    destruct (sv_max_responses row) as [m |].
    + destruct (truthy_number m).
      * unfold bind at 1, select_response_count.
        fold (response_count i (DB w1)). rewrite Hdb.
        destruct (m <=? response_count i (DB w))%Z.
        -- eexists _, _. split; [reflexivity |]. split; [exact Hdb |].
           cbn. right. split; [reflexivity |]. split; [exact Hnot | reflexivity].
        -- eexists _, _. split; [reflexivity |]. split; [exact Hdb |].
           cbn. split; [exact Hnot | reflexivity].
      * eexists _, _. split; [reflexivity |]. split; [exact Hdb |].
        cbn. split; [exact Hnot | reflexivity].
    + eexists _, _. split; [reflexivity |]. split; [exact Hdb |].
      cbn. split; [exact Hnot | reflexivity].
Qed.

Lemma responses_of_add_response (i : string) (r : ResponseRow) (db : Database) :
  responses_of i (add_response r db)
  = responses_of i db ++ (if String.eqb (rs_survey_id r) i then [r] else []).
Proof.
  unfold responses_of, add_response. cbn [responses].
  rewrite filter_app. cbn [filter].
  now destruct (String.eqb (rs_survey_id r) i).
Qed.

Lemma response_count_add_response (r : ResponseRow) (db : Database) :
  response_count (rs_survey_id r) (add_response r db)
  = (response_count (rs_survey_id r) db + 1)%Z.
Proof.
  unfold response_count. rewrite responses_of_add_response, String.eqb_refl.
  rewrite length_app. cbn [List.length]. lia.
Qed.

Lemma insert_response_run (r : ResponseRow) (w : World) :
  insert_response r w
  = if existsb (fun x => String.eqb (rs_id x) (rs_id r)) (responses (DB w))
    then (Throw "D1_ERROR: UNIQUE constraint failed", w)
    else (Ok {| success := true; meta := {| meta_changes := 1 |} |},
          set_DB (add_response r (DB w)) w).
Proof. reflexivity. Qed.

(** What [submitResponse] does to the database, whatever its outcome. *)
Lemma submitResponse_effect (rd : ResponseData) (w w' : World)
  (res : Result (string * bool)) :
  submitResponse rd w = (res, w') ->
  match res with
  | Ok x =>
      x = (rd_id rd, true)
      /\ DB w' = add_response (row_of_response rd) (DB w)
      /\ existsb (fun x => String.eqb (rs_id x) (rd_id rd)) (responses (DB w))
         = false
      /\ exists row,
           find_survey (rd_surveyId rd) (DB w) = Some row
           /\ at_limit (sv_max_responses row)
                (response_count (rd_surveyId rd) (DB w)) = false
           /\ ~ (exists x, sv_expires_at row = Some x /\ x <> 0%Z
                           /\ (x < clock_now w)%Z)
  | Throw _ => DB w' = DB w
  end.
Proof.
  unfold submitResponse. intros H.
  destruct (canAcceptResponses_run (rd_surveyId rd) w)
    as (acc & w1 & Hrun & Hdb & Hcase).
  rewrite (bind_Ok _ _ _ _ _ Hrun) in H.
  destruct (canAccept acc) eqn:Hacc; cbn [negb] in H.
  2:{ unfold throw in H. inversion H; subst. exact Hdb. }
  unfold bind in H. fold (row_of_response rd) in H.
  rewrite insert_response_run in H. rewrite Hdb in H.
  destruct (existsb _ _) eqn:Hdup.
  - inversion H; subst. exact Hdb.
  - cbn [success negb] in H. unfold ret in H. inversion H; subst. clear H.
    split; [reflexivity |]. split; [reflexivity |]. split; [reflexivity |].
    destruct (find_survey (rd_surveyId rd) (DB w)) as [row |];
      [| destruct Hcase; discriminate].
    exists row. split; [reflexivity |]. tauto.
Qed.

Lemma at_limit_false (o : option Z) (n m : Z) :
  at_limit o n = false -> o = Some m -> m <> 0%Z -> (n < m)%Z.
Proof.
  unfold at_limit, truthy_number. intros H -> Hm.
  apply Z.eqb_neq in Hm. rewrite Hm in H. cbn [negb] in H.
  now apply Z.leb_gt in H.
Qed.

(** X1. A response that [submitResponse] accepts is stored as one new row:
    its survey exists, the survey's response count goes up by exactly
    one, every other survey's count stays, and a survey that has a
    response limit still has at most that many responses. *)
Theorem submitResponse_appends_one :
  forall (rd : ResponseData) (w w' : World) (x : string * bool),
    submitResponse rd w = (Ok x, w') ->
    fst x = rd_id rd
    /\ In (row_of_response rd) (responses (DB w'))
    /\ surveys (DB w') = surveys (DB w)
    /\ response_count (rd_surveyId rd) (DB w')
       = (response_count (rd_surveyId rd) (DB w) + 1)%Z
    /\ (forall j, j <> rd_surveyId rd ->
                  response_count j (DB w') = response_count j (DB w))
    /\ exists row,
         find_survey (rd_surveyId rd) (DB w) = Some row
         /\ forall m, sv_max_responses row = Some m -> m <> 0%Z ->
                      (response_count (rd_surveyId rd) (DB w') <= m)%Z.
Proof.
  intros rd w w' x H.
  apply submitResponse_effect in H.
  destruct H as (-> & Hdb & _ & row & Hfind & Hlimit & _).
  rewrite Hdb.
  pose proof (response_count_add_response (row_of_response rd) (DB w)) as Hcount.
  cbn [row_of_response rs_survey_id] in Hcount.
  split; [reflexivity |]. split.
  { unfold add_response. cbn [responses]. apply in_app_iff. right. now left. }
  split; [reflexivity |]. split; [exact Hcount |]. split.
  - intros j Hj. unfold response_count.
    rewrite responses_of_add_response. cbn [row_of_response rs_survey_id].
    destruct (String.eqb (rd_surveyId rd) j) eqn:Heq.
    + apply String.eqb_eq in Heq. congruence.
    + now rewrite app_nil_r.
  - exists row. split; [exact Hfind |]. intros m Hm Hne.
    rewrite Hcount. pose proof (at_limit_false _ _ _ Hlimit Hm Hne). lia.
Qed.

Lemma submitResponse_appends_one_witness :
  exists x w',
    submitResponse
      {| rd_id := "01HF7YC000AAAAAAAAAAAAAAAA";
         rd_surveyId := "01HF7YAT00V3C1S4R6D0F7M2K9";
         rd_answers := [x07];
         rd_submittedAt := 1700000006000 |} stored_world = (Ok x, w')
    /\ response_count "01HF7YAT00V3C1S4R6D0F7M2K9" (DB w') = 2%Z.
Proof.
  pose (rd := {| rd_id := "01HF7YC000AAAAAAAAAAAAAAAA";
                 rd_surveyId := "01HF7YAT00V3C1S4R6D0F7M2K9";
                 rd_answers := [x07];
                 rd_submittedAt := 1700000006000%Z |}).
  pose (run := submitResponse rd stored_world).
  assert (Hrun : run = (Ok (rd_id rd, true), snd run)) by reflexivity.
  exists (rd_id rd, true), (snd run). split; [exact Hrun |].
  destruct (submitResponse_appends_one _ _ _ _ Hrun) as (_ & _ & _ & Hcount & _).
  etransitivity; [exact Hcount | reflexivity].
Defined.

(** X2. [submitResponse] turns a response down, with the reason of
    [canAcceptResponses] as its error and the database untouched, when
    the survey is unknown, when the survey's expiry time is set and lies
    before the clock reading, and when the survey's response limit is set
    and reached; and whenever it throws, the database is as it was. *)
Theorem submitResponse_rejections :
  forall (rd : ResponseData) (w : World),
    (find_survey (rd_surveyId rd) (DB w) = None ->
     fst (submitResponse rd w) = Throw "Survey not found")
    /\ (forall row e,
          find_survey (rd_surveyId rd) (DB w) = Some row ->
          sv_expires_at row = Some e -> e <> 0%Z -> (e < clock_now w)%Z ->
          fst (submitResponse rd w) = Throw "Survey has expired")
    /\ (forall row m,
          find_survey (rd_surveyId rd) (DB w) = Some row ->
          ~ (exists x, sv_expires_at row = Some x /\ x <> 0%Z
                       /\ (x < clock_now w)%Z) ->
          sv_max_responses row = Some m -> m <> 0%Z ->
          (m <= response_count (rd_surveyId rd) (DB w))%Z ->
          fst (submitResponse rd w)
          = Throw "Survey has reached maximum responses")
    /\ (forall msg w', submitResponse rd w = (Throw msg, w') -> DB w' = DB w).
Proof.
  intros rd w.
  destruct (canAcceptResponses_run (rd_surveyId rd) w)
    as (acc & w1 & Hrun & Hdb & Hcase).
  assert (Hreject : canAccept acc = false ->
                    fst (submitResponse rd w) = Throw (reason acc)).
  { intros Hacc. unfold submitResponse.
    rewrite (bind_Ok _ _ _ _ _ Hrun), Hacc. reflexivity. }
  split; [| split; [| split]].
  - intros Hfind. rewrite Hfind in Hcase. destruct Hcase as [Hacc Hreason].
    rewrite (Hreject Hacc), Hreason. reflexivity.
  - intros row e Hfind He Hne Hlt. rewrite Hfind in Hcase.
    destruct (canAccept acc) eqn:Hacc.
    + destruct Hcase as [Hnot _]. exfalso. apply Hnot. now exists e.
    + rewrite (Hreject eq_refl).
      destruct Hcase as [[Hreason _] | (_ & Hnot & _)]; [now rewrite Hreason |].
      exfalso. apply Hnot. now exists e.
  - intros row m Hfind Hnot Hm Hne Hfull. rewrite Hfind in Hcase.
    assert (Hat : at_limit (sv_max_responses row)
                    (response_count (rd_surveyId rd) (DB w)) = true).
    { unfold at_limit, truthy_number. rewrite Hm.
      apply Z.eqb_neq in Hne. rewrite Hne. cbn [negb]. now apply Z.leb_le. }
    destruct (canAccept acc) eqn:Hacc.
    + destruct Hcase as [_ Hno]. congruence.
    + rewrite (Hreject eq_refl).
      destruct Hcase as [[_ Hexp] | [Hreason _]]; [contradiction |].
      now rewrite Hreason.
  - intros msg w' H. apply submitResponse_effect in H. exact H.
Qed.

Lemma submitResponse_rejections_witness :
  find_survey "01HF7YAT00V3C1S4R6D0F7M2K9" (DB sample_world) = None
  /\ fst (submitResponse
            {| rd_id := "01HF7YC000AAAAAAAAAAAAAAAA";
               rd_surveyId := "01HF7YAT00V3C1S4R6D0F7M2K9";
               rd_answers := [x07];
               rd_submittedAt := 1700000006000 |} sample_world)
     = Throw "Survey not found".
Proof.
  assert (Hnone : find_survey "01HF7YAT00V3C1S4R6D0F7M2K9" (DB sample_world)
                  = None) by reflexivity.
  split; [exact Hnone |].
  exact (proj1 (submitResponse_rejections
                  {| rd_id := "01HF7YC000AAAAAAAAAAAAAAAA";
                     rd_surveyId := "01HF7YAT00V3C1S4R6D0F7M2K9";
                     rd_answers := [x07];
                     rd_submittedAt := 1700000006000%Z |} sample_world) Hnone).
Defined.

(** ** Deleting a survey *)

(** The two statements of a deletion, run one after the other. The
    result of D1 has no [changes], so the test for 0 never holds and
    [deletedResponses] is [undefined]. *)
Lemma delete_cascade_run (i : string) (w : World) :
  bind (delete_responses i)
    (fun responseResult =>
       bind (delete_survey_row i)
         (fun surveyResult =>
            if is_zero (changes surveyResult) then
              throw "Survey not found or already deleted"
            else
              ret {| deletedSurvey := true;
                     deletedResponses := changes responseResult |})) w
  = (Ok {| deletedSurvey := true; deletedResponses := None |},
     set_DB (remove_survey i (DB w)) w).
Proof. reflexivity. Qed.

Lemma deleteSurvey_effect (i kh : string) (w w' : World) (res : Result Deletion) :
  deleteSurvey i kh w = (res, w') ->
  match find_survey i (DB w) with
  | None => res = Throw "Survey not found" /\ w' = w
  | Some row =>
      if String.eqb (sv_creator_key_hash row) kh then
        res = Ok {| deletedSurvey := true; deletedResponses := None |}
        /\ w' = set_DB (remove_survey i (DB w)) w
      else
        res = Throw "Unauthorized - only survey creator can delete" /\ w' = w
  end.
Proof.
  unfold deleteSurvey, find_survey. intros H.
  unfold bind at 1, select_survey_by_id in H.
  destruct (find _ _) as [row |] eqn:Hfind.
  - destruct (String.eqb (sv_creator_key_hash row) kh); cbn [negb] in H.
    + rewrite delete_cascade_run in H. now inversion H.
    + unfold throw in H. now inversion H.
  - unfold throw in H. now inversion H.
Qed.

Lemma deleteSurveyByAnalysisId_effect (a kh : string) (w w' : World)
  (res : Result Deletion) :
  deleteSurveyByAnalysisId a kh w = (res, w') ->
  match find (analysis_id_is a) (surveys (DB w)) with
  | None => res = Throw "Survey not found" /\ w' = w
  | Some row =>
      if String.eqb (sv_creator_key_hash row) kh then
        res = Ok {| deletedSurvey := true; deletedResponses := None |}
        /\ w' = set_DB (remove_survey (sv_id row) (DB w)) w
      else
        res = Throw "Unauthorized - only survey creator can delete" /\ w' = w
  end.
Proof.
  unfold deleteSurveyByAnalysisId. intros H.
  unfold bind at 1, select_survey_by_analysis_id in H.
  destruct (find _ _) as [row |] eqn:Hfind.
  - destruct (String.eqb (sv_creator_key_hash row) kh); cbn [negb] in H.
    + rewrite delete_cascade_run in H. now inversion H.
    + unfold throw in H. now inversion H.
  - unfold throw in H. now inversion H.
Qed.

Lemma find_survey_remove_other (i j : string) (db : Database) :
  j <> i -> find_survey j (remove_survey i db) = find_survey j db.
Proof.
  intros Hne. unfold find_survey, remove_survey. cbn [surveys].
  induction (surveys db) as [| s l IH]; [reflexivity |].
  cbn [filter find].
  destruct (String.eqb (sv_id s) i) eqn:Hi; cbn [negb].
  - apply String.eqb_eq in Hi.
    destruct (String.eqb (sv_id s) j) eqn:Hj; [| exact IH].
    apply String.eqb_eq in Hj. congruence.
  - cbn [find]. destruct (String.eqb (sv_id s) j); [reflexivity | exact IH].
Qed.

Lemma find_survey_remove_same (i : string) (db : Database) :
  find_survey i (remove_survey i db) = None.
Proof.
  unfold find_survey, remove_survey. cbn [surveys].
  induction (surveys db) as [| s l IH]; [reflexivity |].
  cbn [filter]. destruct (String.eqb (sv_id s) i) eqn:Hi; cbn [negb].
  - exact IH.
  - cbn [find]. now rewrite Hi.
Qed.

Lemma responses_of_remove_other (i j : string) (db : Database) :
  j <> i -> responses_of j (remove_survey i db) = responses_of j db.
Proof.
  intros Hne. unfold responses_of, remove_survey. cbn [responses].
  induction (responses db) as [| r l IH]; [reflexivity |].
  cbn [filter].
  destruct (String.eqb (rs_survey_id r) i) eqn:Hi; cbn [negb].
  - apply String.eqb_eq in Hi.
    destruct (String.eqb (rs_survey_id r) j) eqn:Hj; [| exact IH].
    apply String.eqb_eq in Hj. congruence.
  - cbn [filter]. destruct (String.eqb (rs_survey_id r) j);
      [now rewrite IH | exact IH].
Qed.

Lemma responses_of_remove_same (i : string) (db : Database) :
  responses_of i (remove_survey i db) = [].
Proof.
  unfold responses_of, remove_survey. cbn [responses].
  induction (responses db) as [| r l IH]; [reflexivity |].
  cbn [filter]. destruct (String.eqb (rs_survey_id r) i) eqn:Hi; cbn [negb].
  - exact IH.
  - cbn [filter]. now rewrite Hi.
Qed.

(** X3. A deletion that [deleteSurvey] carries out removes the survey and
    every response to it and nothing else: the survey can no longer be
    found, it has no responses left, and every other survey is found as
    before with its responses. The result says [deletedSurvey: true];
    its [deletedResponses] is [undefined], because the count D1 reports
    under [meta.changes] is read from [changes]. *)
Theorem deleteSurvey_cascades :
  forall (i kh : string) (w w' : World) (d : Deletion),
    deleteSurvey i kh w = (Ok d, w') ->
    getSurvey i w' = (Ok None, w')
    /\ responses_of i (DB w') = []
    /\ deletedSurvey d = true
    /\ deletedResponses d = None
    /\ forall j, j <> i ->
         find_survey j (DB w') = find_survey j (DB w)
         /\ responses_of j (DB w') = responses_of j (DB w).
Proof.
  intros i kh w w' d H. apply deleteSurvey_effect in H.
  destruct (find_survey i (DB w)) as [row |]; [| destruct H; discriminate].
  destruct (String.eqb (sv_creator_key_hash row) kh);
    [| destruct H; discriminate].
  destruct H as [Hd ->]. inversion Hd; subst d. clear Hd.
  cbn [DB set_DB deletedSurvey deletedResponses].
  split; [| split; [| split; [| split]]]; try reflexivity.
  - unfold getSurvey, bind, select_survey_by_id. cbn [DB set_DB].
    fold (find_survey i (remove_survey i (DB w))).
    now rewrite find_survey_remove_same.
  - apply responses_of_remove_same.
  - intros j Hj. split.
    + now apply find_survey_remove_other.
    + now apply responses_of_remove_other.
Qed.

Lemma deleteSurvey_cascades_witness :
  exists d w',
    deleteSurvey "01HF7YAT00V3C1S4R6D0F7M2K9" "5e884898da28047151d0e56f8dc62927"
      stored_world = (Ok d, w')
    /\ getSurvey "01HF7YAT00V3C1S4R6D0F7M2K9" w' = (Ok None, w')
    /\ responses (DB w') = []
    /\ deletedResponses d = None.
Proof.
  pose (run := deleteSurvey "01HF7YAT00V3C1S4R6D0F7M2K9"
                 "5e884898da28047151d0e56f8dc62927" stored_world).
  pose (d := {| deletedSurvey := true; deletedResponses := None |}).
  assert (Hrun : run = (Ok d, snd run)) by reflexivity.
  exists d, (snd run). split; [exact Hrun |].
  destruct (deleteSurvey_cascades _ _ _ _ _ Hrun) as (Hgone & _ & _ & Hcount & _).
  split; [exact Hgone |]. split; [reflexivity | exact Hcount].
Defined.

(** X4. [deleteSurvey] fails in exactly two ways, and then changes
    nothing: with [Survey not found] when no survey has the id, and with
    [Unauthorized - only survey creator can delete] when the key hash
    supplied is not the stored one. Its third error, [Survey not found or
    already deleted], never comes out; and a stored survey with the right
    key hash is always deleted. *)
Theorem deleteSurvey_failures :
  forall (i kh : string) (w w' : World) (res : Result Deletion),
    deleteSurvey i kh w = (res, w') ->
    (find_survey i (DB w) = None
     -> res = Throw "Survey not found" /\ w' = w)
    /\ (forall row,
          find_survey i (DB w) = Some row -> sv_creator_key_hash row <> kh ->
          res = Throw "Unauthorized - only survey creator can delete" /\ w' = w)
    /\ (forall row,
          find_survey i (DB w) = Some row -> sv_creator_key_hash row = kh ->
          exists d, res = Ok d)
    /\ res <> Throw "Survey not found or already deleted".
Proof.
  intros i kh w w' res H. apply deleteSurvey_effect in H.
  destruct (find_survey i (DB w)) as [row |].
  - destruct (String.eqb (sv_creator_key_hash row) kh) eqn:Heq.
    + apply String.eqb_eq in Heq. destruct H as [-> ->].
      split; [intros Hnone; discriminate Hnone |].
      split; [intros row' Hrow Hne; inversion Hrow; subst; contradiction |].
      split; [intros; eexists; reflexivity | intros Hbad; discriminate Hbad].
    + apply String.eqb_neq in Heq. destruct H as [-> ->].
      split; [intros Hnone; discriminate Hnone |].
      split; [intros; split; reflexivity |].
      split; [intros row' Hrow Hsame; inversion Hrow; subst; contradiction
             | intros Hbad; discriminate Hbad].
  - destruct H as [-> ->].
    split; [intros; split; reflexivity |].
    split; [intros row' Hrow; discriminate Hrow |].
    split; [intros row' Hrow; discriminate Hrow
           | intros Hbad; discriminate Hbad].
Qed.

Lemma deleteSurvey_failures_witness :
  find_survey "01HF7YAT00V3C1S4R6D0F7M2K9" (DB stored_world) = Some sample_row
  /\ sv_creator_key_hash sample_row <> "0000"
  /\ deleteSurvey "01HF7YAT00V3C1S4R6D0F7M2K9" "0000" stored_world
     = (Throw "Unauthorized - only survey creator can delete", stored_world).
Proof.
  assert (Hfind : find_survey "01HF7YAT00V3C1S4R6D0F7M2K9" (DB stored_world)
                  = Some sample_row) by reflexivity.
  assert (Hne : sv_creator_key_hash sample_row <> "0000")
    by (intros H; discriminate H).
  split; [exact Hfind |]. split; [exact Hne |].
  pose (run := deleteSurvey "01HF7YAT00V3C1S4R6D0F7M2K9" "0000" stored_world).
  destruct (proj1 (proj2 (deleteSurvey_failures _ _ _ (snd run) (fst run)
                            (surjective_pairing run))) sample_row Hfind Hne)
    as [Hres Hw].
  transitivity (fst run, snd run); [apply surjective_pairing |].
  rewrite Hres, Hw. reflexivity.
Defined.

(** X5. [deleteSurveyByAnalysisId] does what [deleteSurvey] does for the
    id of the survey that carries the analysis id: in a database that
    meets its constraints, the two return the same result and leave the
    same world. *)
Theorem deleteSurveyByAnalysisId_as_deleteSurvey :
  forall (a kh : string) (w : World) (row : SurveyRow),
    db_wf (DB w) ->
    In row (surveys (DB w)) ->
    sv_analysis_id row = Some a ->
    deleteSurveyByAnalysisId a kh w = deleteSurvey (sv_id row) kh w.
Proof.
  intros a kh w row Hwf Hin Ha.
  assert (Hfind_a : find (analysis_id_is a) (surveys (DB w)) = Some row).
  { destruct (find (analysis_id_is a) (surveys (DB w))) as [row' |] eqn:Hf.
    - f_equal. apply find_some in Hf. destruct Hf as [Hin' Ha'].
      unfold analysis_id_is in Ha'.
      destruct (sv_analysis_id row') as [a' |] eqn:Hrow'; [| discriminate].
      apply String.eqb_eq in Ha'. subst a'.
      pose proof (wf_analysis_ids _ Hwf) as Hnodup.
      unfold analysis_ids in Hnodup. clear - Hin Hin' Ha Hrow' Hnodup.
      induction (surveys (DB w)) as [| s l IH]; [contradiction |].
      cbn [flat_map] in Hnodup.
      assert (Hmem : forall x, In x l -> sv_analysis_id x = Some a ->
                               In a (flat_map
                                       (fun s => match sv_analysis_id s with
                                                 | Some a => [a]
                                                 | None => []
                                                 end) l)).
      { intros x Hx Hxa. apply in_flat_map. exists x. split; [exact Hx |].
        rewrite Hxa. now left. }
      destruct Hin as [-> | Hin], Hin' as [-> | Hin'].
      + reflexivity.
      + rewrite Ha in Hnodup. cbn [app] in Hnodup.
        apply NoDup_cons_iff in Hnodup. destruct Hnodup as [Hnot _].
        exfalso. apply Hnot. now apply (Hmem row').
      + rewrite Hrow' in Hnodup. cbn [app] in Hnodup.
        apply NoDup_cons_iff in Hnodup. destruct Hnodup as [Hnot _].
        exfalso. apply Hnot. now apply (Hmem row).
      + apply IH; try assumption. exact (NoDup_app_remove_l _ _ Hnodup).
    - exfalso. apply (find_none _ _ Hf) in Hin.
      unfold analysis_id_is in Hin. rewrite Ha, String.eqb_refl in Hin.
      discriminate. }
  pose proof (find_by_id _ _ (wf_survey_ids _ Hwf) Hin) as Hfind_i.
  destruct (deleteSurveyByAnalysisId a kh w) as [res1 w1] eqn:H1.
  destruct (deleteSurvey (sv_id row) kh w) as [res2 w2] eqn:H2.
  apply deleteSurveyByAnalysisId_effect in H1.
  apply deleteSurvey_effect in H2.
  unfold find_survey in H2. rewrite Hfind_a in H1. rewrite Hfind_i in H2.
  destruct (String.eqb (sv_creator_key_hash row) kh);
    destruct H1 as [-> ->], H2 as [-> ->]; reflexivity.
Qed.

Lemma db_wf_sample_database : db_wf sample_database.
Proof.
  split; cbn.
  - constructor; [intros [] | constructor].
  - constructor; [intros [] | constructor].
  - constructor; [intros [] | constructor].
  - intros r [<- | []]. exists sample_row. split; [now left | reflexivity].
Qed.

Lemma deleteSurveyByAnalysisId_as_deleteSurvey_witness :
  db_wf (DB stored_world)
  /\ In sample_row (surveys (DB stored_world))
  /\ sv_analysis_id sample_row = Some "LOYW3V28PMR2LB8CO6P"
  /\ deleteSurveyByAnalysisId "LOYW3V28PMR2LB8CO6P"
       "5e884898da28047151d0e56f8dc62927" stored_world
     = deleteSurvey (sv_id sample_row) "5e884898da28047151d0e56f8dc62927"
         stored_world.
Proof.
  assert (Hwf : db_wf (DB stored_world)) by exact db_wf_sample_database.
  assert (Hin : In sample_row (surveys (DB stored_world))) by (now left).
  assert (Ha : sv_analysis_id sample_row = Some "LOYW3V28PMR2LB8CO6P")
    by reflexivity.
  split; [exact Hwf |]. split; [exact Hin |]. split; [exact Ha |].
  exact (deleteSurveyByAnalysisId_as_deleteSurvey _ _ _ _ Hwf Hin Ha).
Defined.

(** ** The retention sweep *)

Lemma cleanupExpiredSurveys_run (maxAge : Z) (w : World) :
  cleanupExpiredSurveys maxAge w
  = (Ok {| deletedCount := None |},
     set_DB
       {| surveys := filter (fun s => negb (is_old (clock_now w - maxAge) s))
                       (surveys (DB w));
          responses :=
            filter (fun r =>
                      negb (existsb (String.eqb (rs_survey_id r))
                              (map sv_id (filter (is_old (clock_now w - maxAge))
                                            (surveys (DB w))))))
              (responses (DB w)) |}
       (set_clock_pos (S (clock_pos w)) w)).
Proof. reflexivity. Qed.

(** X6. [cleanupExpiredSurveys] keeps exactly the surveys created at or
    after the cut-off (the clock reading less [maxAge]) and exactly the
    responses whose survey id is not that of a survey created before it;
    a database that met its constraints still meets them: no response
    is left without its survey. Its [deletedCount] is [undefined],
    because the count D1 reports under [meta.changes] is read from
    [changes]. *)
Theorem cleanupExpiredSurveys_sweeps :
  forall (maxAge : Z) (w : World),
    exists w',
      cleanupExpiredSurveys maxAge w = (Ok {| deletedCount := None |}, w')
      /\ (forall s, In s (surveys (DB w'))
                    <-> In s (surveys (DB w))
                        /\ (clock_now w - maxAge <= sv_created_at s)%Z)
      /\ (forall r, In r (responses (DB w'))
                    <-> In r (responses (DB w))
                        /\ forall s, In s (surveys (DB w)) ->
                                     sv_id s = rs_survey_id r ->
                                     (clock_now w - maxAge <= sv_created_at s)%Z)
      /\ (db_wf (DB w) -> db_wf (DB w')).
Proof.
  intros maxAge w. rewrite cleanupExpiredSurveys_run.
  set (cutoff := (clock_now w - maxAge)%Z).
  eexists. split; [reflexivity |]. cbn [DB set_DB set_clock_pos surveys responses].
  assert (Hsurveys : forall s,
             In s (filter (fun s => negb (is_old cutoff s)) (surveys (DB w)))
             <-> In s (surveys (DB w)) /\ (cutoff <= sv_created_at s)%Z).
  { intros s. rewrite filter_In. unfold is_old.
    rewrite negb_true_iff, Z.ltb_ge. reflexivity. }
  assert (Hresponses : forall r,
             In r (filter
                     (fun r => negb (existsb (String.eqb (rs_survey_id r))
                                       (map sv_id (filter (is_old cutoff)
                                                     (surveys (DB w))))))
                     (responses (DB w)))
             <-> In r (responses (DB w))
                 /\ forall s, In s (surveys (DB w)) -> sv_id s = rs_survey_id r ->
                              (cutoff <= sv_created_at s)%Z).
  { intros r. rewrite filter_In, negb_true_iff. split.
    - intros [Hr Hnone]. split; [exact Hr |]. intros s Hs Hid.
      destruct (is_old cutoff s) eqn:Hold.
      + exfalso.
        assert (Ht : existsb (String.eqb (rs_survey_id r))
                       (map sv_id (filter (is_old cutoff) (surveys (DB w))))
                     = true).
        { apply existsb_exists. exists (sv_id s). split.
          - apply in_map. apply filter_In. now split.
          - rewrite Hid. apply String.eqb_refl. }
        congruence.
      + unfold is_old in Hold. now apply Z.ltb_ge in Hold.
    - intros [Hr Hall]. split; [exact Hr |].
      destruct (existsb _ _) eqn:Hex; [| reflexivity].
      apply existsb_exists in Hex. destruct Hex as (i & Hi & Heq).
      apply String.eqb_eq in Heq. apply in_map_iff in Hi.
      destruct Hi as (s & Hsid & Hs). apply filter_In in Hs.
      destruct Hs as [Hs Hold]. unfold is_old in Hold. apply Z.ltb_lt in Hold.
      specialize (Hall s Hs). rewrite Hsid, Heq in Hall.
      specialize (Hall eq_refl). lia. }
  split; [exact Hsurveys |]. split; [exact Hresponses |].
  intros [Hids Hana Hresp Hparent]. split; cbn [surveys responses].
  - now apply NoDup_map_filter.
  - unfold analysis_ids. cbn [surveys]. now apply NoDup_flat_map_filter.
  - now apply NoDup_map_filter.
  - intros r Hr. apply Hresponses in Hr. destruct Hr as [Hr Hall].
    destruct (Hparent r Hr) as (s & Hs & Hid).
    exists s. split; [| exact Hid]. apply Hsurveys. split; [exact Hs |].
    now apply Hall.
Qed.

Lemma cleanupExpiredSurveys_sweeps_witness :
  db_wf (DB later_world)
  /\ exists w',
       cleanupExpiredSurveys 1 later_world = (Ok {| deletedCount := None |}, w')
       /\ db_wf (DB w')
       /\ ~ In sample_row (surveys (DB w')).
Proof.
  assert (Hwf : db_wf (DB later_world)) by exact db_wf_sample_database.
  split; [exact Hwf |].
  destruct (cleanupExpiredSurveys_sweeps 1 later_world)
    as (w' & Hrun & Hsurveys & _ & Hkeep).
  exists w'. split; [exact Hrun |]. split; [exact (Hkeep Hwf) |].
  intros Hin. apply Hsurveys in Hin. destruct Hin as [_ Hnew].
  vm_compute in Hnew. now apply Hnew.
Defined.

(** ** Creating a survey *)

Lemma find_snoc_fresh {A} (f : A -> bool) (l : list A) (a : A) :
  existsb f l = false -> find f (l ++ [a]) = if f a then Some a else None.
Proof.
  induction l as [| x l IH]; intros H; [reflexivity |].
  cbn [existsb] in H. apply orb_false_iff in H. destruct H as [Hx Hl].
  cbn [app find]. rewrite Hx. now apply IH.
Qed.

Lemma find_snoc_other {A} (f : A -> bool) (l : list A) (a : A) :
  f a = false -> find f (l ++ [a]) = find f l.
Proof.
  intros Ha. induction l as [| x l IH]; cbn [app find]; [now rewrite Ha |].
  destruct (f x); [reflexivity | exact IH].
Qed.

Lemma createSurvey_effect (s : Survey) (w w' : World)
  (res : Result (string * option string * bool)) :
  createSurvey s w = (res, w') ->
  if unique_violation (row_of_survey s) (DB w) then
    (exists msg, res = Throw msg) /\ w' = w
  else
    res = Ok (id s, analysisId s, true)
    /\ w' = set_DB (add_survey (row_of_survey s) (DB w)) w.
Proof.
  unfold createSurvey, bind, insert_survey. intros H.
  destruct (unique_violation (row_of_survey s) (DB w)).
  - inversion H; subst. split; [eexists; reflexivity | reflexivity].
  - cbn [success negb] in H. unfold ret in H. now inversion H.
Qed.

(** X7. A survey that [createSurvey] stores can be read back: [getSurvey]
    on its id returns its fields (without the analysis id, which that
    read leaves out), [getSurveyByAnalysisId] on its analysis id returns
    them all, it starts with the responses already stored under its id,
    and surveys with other ids are found as before. *)
Theorem createSurvey_then_getSurvey :
  forall (s : Survey) (w w' : World) (x : string * option string * bool),
    createSurvey s w = (Ok x, w') ->
    x = (id s, analysisId s, true)
    /\ getSurvey (id s) w' = (Ok (Some (without_analysisId s)), w')
    /\ (forall a, analysisId s = Some a ->
                  getSurveyByAnalysisId a w' = (Ok (Some s), w'))
    /\ responses (DB w') = responses (DB w)
    /\ forall j, j <> id s -> find_survey j (DB w') = find_survey j (DB w).
Proof.
  intros s w w' x H. apply createSurvey_effect in H.
  destruct (unique_violation (row_of_survey s) (DB w)) eqn:Hfresh.
  { destruct H as [[msg Hmsg] _]. discriminate. }
  destruct H as [Hx ->]. inversion Hx; subst x. clear Hx.
  unfold unique_violation in Hfresh. apply orb_false_iff in Hfresh.
  destruct Hfresh as [Hid Hana]. cbn [row_of_survey sv_id sv_analysis_id] in *.
  split; [reflexivity |]. split; [| split; [| split]].
  - unfold getSurvey, bind, select_survey_by_id, ret.
    cbn [DB set_DB add_survey surveys].
    rewrite (find_snoc_fresh _ _ _ Hid).
    cbn [row_of_survey sv_id]. rewrite String.eqb_refl. reflexivity.
  - intros a Ha. rewrite Ha in Hana.
    unfold getSurveyByAnalysisId, bind, select_survey_by_analysis_id, ret.
    cbn [DB set_DB add_survey surveys].
    rewrite (find_snoc_fresh _ _ _ Hana).
    unfold analysis_id_is at 1. cbn [row_of_survey sv_analysis_id].
    rewrite Ha, String.eqb_refl.
    destruct s; reflexivity.
  - reflexivity.
  - intros j Hj. unfold find_survey. cbn [DB set_DB add_survey surveys].
    apply find_snoc_other. cbn [row_of_survey sv_id].
    apply String.eqb_neq. congruence.
Qed.

Lemma createSurvey_then_getSurvey_witness :
  exists x w',
    createSurvey sample_survey stored_world = (Ok x, w')
    /\ getSurvey (id sample_survey) w'
       = (Ok (Some (without_analysisId sample_survey)), w').
Proof.
  pose (run := createSurvey sample_survey stored_world).
  assert (Hrun : run = (Ok (id sample_survey, analysisId sample_survey, true),
                        snd run)) by reflexivity.
  eexists _, (snd run). split; [exact Hrun |].
  exact (proj1 (proj2 (createSurvey_then_getSurvey _ _ _ _ Hrun))).
Defined.

(** X8. [createSurvey] refuses a survey whose id, or whose analysis id,
    is that of a stored survey: the insertion is rejected by the primary
    key or by the unique index, [createSurvey] throws, and the world is
    as it was. *)
Theorem createSurvey_refuses_duplicates :
  forall (s : Survey) (w w' : World)
         (res : Result (string * option string * bool)) (old : SurveyRow),
    In old (surveys (DB w)) ->
    sv_id old = id s
    \/ (exists a, sv_analysis_id old = Some a /\ analysisId s = Some a) ->
    createSurvey s w = (res, w') ->
    (exists msg, res = Throw msg) /\ w' = w.
Proof.
  intros s w w' res old Hin Hclash H. apply createSurvey_effect in H.
  assert (Hviol : unique_violation (row_of_survey s) (DB w) = true).
  { unfold unique_violation. cbn [row_of_survey sv_id sv_analysis_id].
    apply orb_true_iff. destruct Hclash as [Hid | (a & Ha & Hsa)].
    - left. apply existsb_exists. exists old. split; [exact Hin |].
      now apply String.eqb_eq.
    - right. rewrite Hsa. apply existsb_exists. exists old.
      split; [exact Hin |]. unfold analysis_id_is. rewrite Ha.
      apply String.eqb_refl. }
  rewrite Hviol in H. exact H.
Qed.

Lemma createSurvey_refuses_duplicates_witness :
  In sample_row (surveys (DB stored_world))
  /\ (exists msg,
        fst (createSurvey (shell_survey_of_row sample_row) stored_world)
        = Throw msg)
  /\ snd (createSurvey (shell_survey_of_row sample_row) stored_world)
     = stored_world.
Proof.
  assert (Hin : In sample_row (surveys (DB stored_world))) by (now left).
  split; [exact Hin |].
  pose (run := createSurvey (shell_survey_of_row sample_row) stored_world).
  destruct (createSurvey_refuses_duplicates (shell_survey_of_row sample_row)
              stored_world (snd run) (fst run) sample_row Hin
              (or_introl eq_refl) (surjective_pairing run)) as [Hres Hw].
  split; [exact Hres | exact Hw].
Defined.

(* ================================================================== *)
(** * The worker as a whole *)
(* ================================================================== *)

Lemma steps_readonly {A} (m : M A) : readonly m -> steps m.
Proof. intros Hm w r w' H. rewrite (Hm _ _ _ H). constructor. Qed.

Lemma steps_bind_after {A B} (m : M A) (k : A -> M B) :
  readonly m -> (forall a, steps (k a)) -> steps (bind m k).
Proof.
  intros Hm Hk w r w' H. unfold bind in H.
  destruct (m w) as [[a | msg] w1] eqn:Hrun.
  - rewrite <- (Hm _ _ _ Hrun). exact (Hk a _ _ _ H).
  - inversion H; subst. rewrite (Hm _ _ _ Hrun). constructor.
Qed.

Lemma steps_bind_before {A B} (m : M A) (k : A -> M B) :
  steps m -> (forall a, readonly (k a)) -> steps (bind m k).
Proof.
  intros Hm Hk w r w' H. unfold bind in H.
  destruct (m w) as [[a | msg] w1] eqn:Hrun.
  - rewrite (Hk a _ _ _ H). exact (Hm _ _ _ Hrun).
  - inversion H; subst. exact (Hm _ _ _ Hrun).
Qed.

Lemma steps_try_catch {A} (m : M A) (h : string -> M A) :
  steps m -> (forall msg, readonly (h msg)) -> steps (try_catch m h).
Proof.
  intros Hm Hh w r w' H. unfold try_catch in H.
  destruct (m w) as [[a | msg] w1] eqn:Hrun.
  - inversion H; subst. exact (Hm _ _ _ Hrun).
  - rewrite (Hh msg _ _ _ H). exact (Hm _ _ _ Hrun).
Qed.

Lemma steps_createSurvey (s : Survey) : steps (createSurvey s).
Proof.
  intros w r w' H. apply createSurvey_effect in H.
  destruct (unique_violation (row_of_survey s) (DB w)) eqn:Hfresh.
  - destruct H as [_ ->]. constructor.
  - destruct H as [_ ->]. cbn [DB set_DB]. now constructor.
Qed.

Lemma steps_submitResponse (rd : ResponseData) : steps (submitResponse rd).
Proof.
  intros w r w' H. apply submitResponse_effect in H.
  destruct r as [x | msg].
  - destruct H as (_ & Hdb & Hfresh & row & Hfind & _). rewrite Hdb.
    apply find_survey_some in Hfind. constructor.
    + exact Hfresh.
    + exists row. exact Hfind.
  - rewrite H. constructor.
Qed.

Lemma steps_deleteSurvey (i kh : string) : steps (deleteSurvey i kh).
Proof.
  intros w r w' H. apply deleteSurvey_effect in H.
  destruct (find_survey i (DB w)) as [row |].
  - destruct (String.eqb _ _); destruct H as [_ ->]; constructor.
  - destruct H as [_ ->]. constructor.
Qed.

Lemma steps_deleteSurveyByAnalysisId (a kh : string) :
  steps (deleteSurveyByAnalysisId a kh).
Proof.
  intros w r w' H. apply deleteSurveyByAnalysisId_effect in H.
  destruct (find _ _) as [row |].
  - destruct (String.eqb _ _); destruct H as [_ ->]; constructor.
  - destruct H as [_ ->]. constructor.
Qed.

Lemma readonly_generateId : readonly generateId.
Proof. unfold generateId. repeat readonly_step. Qed.

Lemma readonly_catch_500 (msg : string) :
  readonly (ret (errorResponse msg 500)).
Proof. apply readonly_ret. Qed.

Lemma readonly_catch_401 (msg : string) :
  readonly (if includes "Unauthorized" msg then ret (errorResponse msg 401)
            else ret (errorResponse msg 500)).
Proof. repeat readonly_step. Qed.

Lemma readonly_catch_delete (msg : string) :
  readonly (if includes "Unauthorized" msg || includes "not found" msg
            then ret (errorResponse msg 401)
            else ret (errorResponse msg 500)).
Proof. repeat readonly_step. Qed.

Lemma readonly_destructure (property : string) (body : JsonBody) :
  readonly (destructure property body).
Proof. destruct body; [apply readonly_throw | apply readonly_ret]. Qed.

Lemma steps_handleCreateSurvey (request : Request) :
  steps (handleCreateSurvey request).
Proof.
  unfold handleCreateSurvey.
  apply steps_try_catch; [| intros msg; apply readonly_ret].
  apply steps_bind_after; [apply readonly_lift |]. intros json.
  apply steps_bind_after; [apply readonly_destructure |]. intros body.
  destruct (encryptedSurvey body) as [es |];
    [| apply steps_readonly, readonly_ret].
  destruct (first_missing_field es); [apply steps_readonly, readonly_ret |].
  apply steps_bind_after; [apply readonly_generateId |]. intros a.
  apply steps_bind_before; [apply steps_createSurvey |].
  intros [[i oa] b]. apply readonly_ret.
Qed.

Lemma steps_handleSubmitResponse (surveyId : string) (request : Request) :
  steps (handleSubmitResponse surveyId request).
Proof.
  unfold handleSubmitResponse.
  apply steps_try_catch; [| intros msg; apply readonly_ret].
  apply steps_bind_after; [apply readonly_lift |]. intros json.
  apply steps_bind_after; [apply readonly_destructure |]. intros body.
  destruct (encryptedResponse body) as [er |];
    [| apply steps_readonly, readonly_ret].
  destruct (_ || _); [apply steps_readonly, readonly_ret |].
  apply steps_bind_after; [apply readonly_canAcceptResponses |]. intros acc.
  destruct (negb _); [apply steps_readonly, readonly_ret |].
  apply steps_bind_after; [apply readonly_Date_now |]. intros t.
  apply steps_bind_before; [apply steps_submitResponse |].
  intros x. apply readonly_ret.
Qed.

Lemma steps_handleDeleteSurvey (surveyId : string) (request : Request) :
  steps (handleDeleteSurvey surveyId request).
Proof.
  unfold handleDeleteSurvey.
  apply steps_try_catch; [| apply readonly_catch_delete].
  destruct (missing _ _); [apply steps_readonly, readonly_ret |].
  apply steps_bind_before; [apply steps_deleteSurvey |].
  intros d. apply readonly_ret.
Qed.

Lemma steps_handleDeleteSurveyByAnalysisId (a : string) (request : Request) :
  steps (handleDeleteSurveyByAnalysisId a request).
Proof.
  unfold handleDeleteSurveyByAnalysisId.
  apply steps_try_catch; [| apply readonly_catch_delete].
  destruct (missing _ _); [apply steps_readonly, readonly_ret |].
  apply steps_bind_before; [apply steps_deleteSurveyByAnalysisId |].
  intros d. apply readonly_ret.
Qed.

Lemma readonly_handleGetSurvey (i : string) : readonly (handleGetSurvey i).
Proof.
  unfold handleGetSurvey.
  apply readonly_try_catch; [| intros msg; apply readonly_ret].
  apply readonly_bind; [apply readonly_getSurvey |]. repeat readonly_step.
Qed.

Lemma readonly_handleGetSurveyByAnalysisId (a : string) :
  readonly (handleGetSurveyByAnalysisId a).
Proof.
  unfold handleGetSurveyByAnalysisId.
  apply readonly_try_catch; [| intros msg; apply readonly_ret].
  apply readonly_bind; [apply readonly_getSurveyByAnalysisId |].
  repeat readonly_step.
Qed.

Lemma readonly_handleGetResponses (i : string) (request : Request) :
  readonly (handleGetResponses i request).
Proof.
  unfold handleGetResponses.
  apply readonly_try_catch; [| apply readonly_catch_401].
  destruct (missing _ _); [apply readonly_ret |].
  apply readonly_bind; [apply readonly_getSurveyResponses |]. intros items.
  apply readonly_bind; [apply readonly_getSurveyStats |]. intros st.
  apply readonly_ret.
Qed.

Lemma readonly_handleGetResponsesByAnalysisId (a : string) (request : Request) :
  readonly (handleGetResponsesByAnalysisId a request).
Proof.
  unfold handleGetResponsesByAnalysisId.
  apply readonly_try_catch; [| apply readonly_catch_401].
  destruct (missing _ _); [apply readonly_ret |].
  apply readonly_bind; [apply readonly_getSurveyResponsesByAnalysisId |].
  intros items.
  apply readonly_bind; [apply readonly_getSurveyStatsByAnalysisId |].
  intros st. apply readonly_ret.
Qed.

(** ** No handler throws *)

Lemma answers_ret {A} (a : A) : answers (ret a).
Proof. intros w. now exists a, w. Qed.

Lemma answers_try_catch {A} (m : M A) (h : string -> M A) :
  (forall msg, answers (h msg)) -> answers (try_catch m h).
Proof.
  intros Hh w. unfold try_catch.
  destruct (m w) as [[a | msg] w1]; [now exists a, w1 | apply Hh].
Qed.

Lemma answers_catch_401 (msg : string) :
  answers (if includes "Unauthorized" msg then ret (errorResponse msg 401)
           else ret (errorResponse msg 500)).
Proof. destruct (includes _ _); apply answers_ret. Qed.

Lemma answers_catch_delete (msg : string) :
  answers (if includes "Unauthorized" msg || includes "not found" msg
           then ret (errorResponse msg 401)
           else ret (errorResponse msg 500)).
Proof. destruct (_ || _); apply answers_ret. Qed.

Ltac route_goal :=
  match goal with
  | |- context [match ?m &&& ?test with _ => _ end] => destruct (m &&& test)
  | |- context [if ?b then _ else _] => destruct b
  end.

Lemma answers_handleRequest (getFile : string -> option File)
  (request : Request) : answers (handleRequest getFile request).
Proof.
  unfold handleRequest. cbv zeta.
  repeat route_goal;
    first
      [ apply answers_ret
      | apply answers_try_catch; intros msg;
        first [ apply answers_ret | apply answers_catch_401
              | apply answers_catch_delete ] ].
Qed.

Lemma steps_handleRequest (getFile : string -> option File)
  (request : Request) : steps (handleRequest getFile request).
Proof.
  unfold handleRequest. cbv zeta.
  repeat route_goal;
    first
      [ apply steps_handleCreateSurvey
      | apply steps_handleSubmitResponse
      | apply steps_handleDeleteSurvey
      | apply steps_handleDeleteSurveyByAnalysisId
      | apply steps_readonly;
        first [ apply readonly_ret
              | apply readonly_handleGetSurvey
              | apply readonly_handleGetSurveyByAnalysisId
              | apply readonly_handleGetResponses
              | apply readonly_handleGetResponsesByAnalysisId ] ].
Qed.

(** X9. Every request gets a response: [handleRequest] never throws, so
    the [Internal server error] of [fetch] is never sent. And whatever
    the request, a database that meets the constraints of its schema
    (unique survey ids, unique analysis ids, unique response ids, every
    response under an existing survey) still meets them afterwards. *)
Theorem handleRequest_keeps_constraints :
  forall (getFile : string -> option File) (request : Request) (w : World),
    exists response w',
      handleRequest getFile request w = (Ok response, w')
      /\ fetch getFile request w = (Ok response, w')
      /\ (db_wf (DB w) -> db_wf (DB w')).
Proof.
  intros getFile request w.
  destruct (answers_handleRequest getFile request w) as (response & w' & Hrun).
  exists response, w'. split; [exact Hrun |]. split.
  - unfold fetch, try_catch. now rewrite Hrun.
  - apply db_step_wf. exact (steps_handleRequest getFile request _ _ _ Hrun).
Qed.

Lemma handleRequest_keeps_constraints_witness :
  db_wf (DB stored_world)
  /\ exists response w',
       handleRequest sample_assets sample_delete_request stored_world
       = (Ok response, w')
       /\ db_wf (DB w').
Proof.
  assert (Hwf : db_wf (DB stored_world)) by exact db_wf_sample_database.
  split; [exact Hwf |].
  destruct (handleRequest_keeps_constraints sample_assets sample_delete_request
              stored_world) as (response & w' & Hrun & _ & Hkeep).
  exists response, w'. split; [exact Hrun | exact (Hkeep Hwf)].
Defined.

Lemma and_then_false (m : option string) : m &&& false = None.
Proof. reflexivity. Qed.

(** X10. Only [POST] and [DELETE] requests can change what is stored: a
    request with any other method leaves the database as it was. *)
Theorem handleRequest_reads_only :
  forall (getFile : string -> option File) (request : Request)
         (w w' : World) (res : Result Response),
    method request <> "POST" ->
    method request <> "DELETE" ->
    handleRequest getFile request w = (res, w') ->
    DB w' = DB w.
Proof.
  intros getFile request w w' res Hpost Hdelete.
  apply String.eqb_neq in Hpost. apply String.eqb_neq in Hdelete.
  revert w res w'. change (readonly (handleRequest getFile request)).
  unfold handleRequest. cbv zeta.
  rewrite Hpost, Hdelete, andb_false_r, !and_then_false.
  repeat route_goal;
    first [ apply readonly_ret
          | apply readonly_handleGetSurvey
          | apply readonly_handleGetSurveyByAnalysisId
          | apply readonly_handleGetResponses
          | apply readonly_handleGetResponsesByAnalysisId ].
Qed.

Lemma handleRequest_reads_only_witness :
  method sample_request <> "POST"
  /\ method sample_request <> "DELETE"
  /\ DB (snd (handleRequest sample_assets sample_request stored_world))
     = DB stored_world.
Proof.
  assert (Hpost : method sample_request <> "POST") by (intros H; discriminate H).
  assert (Hdelete : method sample_request <> "DELETE")
    by (intros H; discriminate H).
  split; [exact Hpost |]. split; [exact Hdelete |].
  exact (handleRequest_reads_only sample_assets sample_request stored_world
           _ _ Hpost Hdelete
           (surjective_pairing
              (handleRequest sample_assets sample_request stored_world))).
Defined.

(** ** Listing the responses *)

Lemma insert_by_perm (le : ResponseRow -> ResponseRow -> bool) (x : ResponseRow)
  (l : list ResponseRow) : Permutation (insert_by le x l) (x :: l).
Proof.
  induction l as [| y l IH]; cbn [insert_by]; [reflexivity |].
  destruct (le x y); [reflexivity |].
  rewrite IH. apply perm_swap.
Qed.

Lemma order_by_perm (le : ResponseRow -> ResponseRow -> bool)
  (l : list ResponseRow) : Permutation (order_by le l) l.
Proof.
  induction l as [| x l IH]; [reflexivity |].
  unfold order_by in *. cbn [fold_right]. rewrite insert_by_perm.
  now apply perm_skip.
Qed.

Lemma insert_by_sorted (key : ResponseRow -> Z) (up : bool) (x : ResponseRow)
  (l : list ResponseRow) :
  let le a b := if up then (key a <=? key b)%Z else (key b <=? key a)%Z in
  let R a b := if up then (key a <= key b)%Z else (key b <= key a)%Z in
  Sorted R l -> Sorted R (insert_by le x l).
Proof.
  intros le R Hl. induction l as [| y l IH]; cbn [insert_by].
  - repeat constructor.
  - destruct (le x y) eqn:Hxy.
    + constructor; [exact Hl |]. constructor.
      unfold le, R in *. destruct up; now apply Z.leb_le in Hxy.
    + assert (Hyx : R y x).
      { unfold le, R in *. destruct up; apply Z.leb_gt in Hxy; lia. }
      inversion Hl as [| ? ? Hl' Hhd]; subst.
      constructor; [now apply IH |].
      destruct l as [| z l]; cbn [insert_by].
      * now constructor.
      * destruct (le x z); constructor; [exact Hyx |].
        now inversion Hhd.
Qed.

Lemma order_by_sorted (key : ResponseRow -> Z) (up : bool) (l : list ResponseRow) :
  let le a b := if up then (key a <=? key b)%Z else (key b <=? key a)%Z in
  let R a b := if up then (key a <= key b)%Z else (key b <= key a)%Z in
  Sorted R (order_by le l).
Proof.
  intros le R. induction l as [| x l IH]; [constructor |].
  unfold order_by in *. cbn [fold_right].
  now apply (insert_by_sorted key up).
Qed.

Lemma Sorted_map_item (R : ResponseItem -> ResponseItem -> Prop)
  (l : list ResponseRow) :
  Sorted (fun a b => R (item_of_row a) (item_of_row b)) l ->
  Sorted R (map item_of_row l).
Proof.
  induction 1 as [| x l Hl IH Hhd]; cbn [map]; constructor; [exact IH |].
  destruct Hhd; cbn [map]; now constructor.
Qed.

Lemma getSurveyResponses_run (i kh : string) (w : World) (row : SurveyRow) :
  find_survey i (DB w) = Some row ->
  getSurveyResponses i kh w
  = if String.eqb (sv_creator_key_hash row) kh then
      (Ok (map item_of_row
             (order_by (fun x y => (rs_submitted_at x <=? rs_submitted_at y)%Z)
                (responses_of i (DB w)))), w)
    else (Throw "Unauthorized - incorrect creator key", w).
Proof.
  intros Hfind. unfold getSurveyResponses, getSurvey, bind, select_survey_by_id.
  unfold find_survey in Hfind. rewrite Hfind. cbn [ret creatorKeyHash].
  unfold ret. cbn [creatorKeyHash].
  destruct (String.eqb (sv_creator_key_hash row) kh); reflexivity.
Qed.

Lemma getSurveyResponsesByAnalysisId_run (a kh : string) (w : World)
  (row : SurveyRow) :
  find (analysis_id_is a) (surveys (DB w)) = Some row ->
  getSurveyResponsesByAnalysisId a kh w
  = if String.eqb (sv_creator_key_hash row) kh then
      (Ok (map item_of_row
             (order_by (fun x y => (rs_submitted_at y <=? rs_submitted_at x)%Z)
                (responses_of (sv_id row) (DB w)))), w)
    else (Throw "Unauthorized - incorrect creator key", w).
Proof.
  intros Hfind.
  unfold getSurveyResponsesByAnalysisId, getSurveyByAnalysisId, bind,
    select_survey_by_analysis_id.
  rewrite Hfind. unfold ret. cbn [creatorKeyHash id].
  destruct (String.eqb (sv_creator_key_hash row) kh); reflexivity.
Qed.

(** X11. For the creator, [getSurveyResponses] lists exactly the stored
    responses to the survey, oldest first, and
    [getSurveyResponsesByAnalysisId] lists the same responses, newest
    first. *)
Theorem listings_are_ordered :
  forall (i a : string) (w : World) (row : SurveyRow),
    find_survey i (DB w) = Some row ->
    find (analysis_id_is a) (surveys (DB w)) = Some row ->
    exists asc desc,
      getSurveyResponses i (sv_creator_key_hash row) w = (Ok asc, w)
      /\ getSurveyResponsesByAnalysisId a (sv_creator_key_hash row) w
         = (Ok desc, w)
      /\ Permutation asc (map item_of_row (responses_of i (DB w)))
      /\ Permutation desc asc
      /\ Sorted oldest_first asc
      /\ Sorted newest_first desc.
Proof.
  intros i a w row Hi Ha.
  pose proof (find_survey_some _ _ _ Hi) as [_ Hid].
  rewrite (getSurveyResponses_run _ _ _ _ Hi).
  rewrite (getSurveyResponsesByAnalysisId_run _ _ _ _ Ha).
  rewrite String.eqb_refl, Hid.
  eexists _, _. split; [reflexivity |]. split; [reflexivity |].
  split; [| split; [| split]].
  - apply Permutation_map, order_by_perm.
  - apply Permutation_map. rewrite !order_by_perm. reflexivity.
  - apply Sorted_map_item.
    exact (order_by_sorted rs_submitted_at true (responses_of i (DB w))).
  - apply Sorted_map_item.
    exact (order_by_sorted rs_submitted_at false (responses_of i (DB w))).
Qed.

Lemma listings_are_ordered_witness :
  find_survey "01HF7YAT00V3C1S4R6D0F7M2K9" (DB stored_world) = Some sample_row
  /\ find (analysis_id_is "LOYW3V28PMR2LB8CO6P") (surveys (DB stored_world))
     = Some sample_row
  /\ exists asc,
       getSurveyResponses "01HF7YAT00V3C1S4R6D0F7M2K9"
         (sv_creator_key_hash sample_row) stored_world = (Ok asc, stored_world)
       /\ Sorted oldest_first asc.
Proof.
  assert (Hi : find_survey "01HF7YAT00V3C1S4R6D0F7M2K9" (DB stored_world)
               = Some sample_row) by reflexivity.
  assert (Ha : find (analysis_id_is "LOYW3V28PMR2LB8CO6P")
                 (surveys (DB stored_world)) = Some sample_row) by reflexivity.
  split; [exact Hi |]. split; [exact Ha |].
  destruct (listings_are_ordered _ _ _ _ Hi Ha)
    as (asc & desc & Hasc & _ & _ & _ & Hsorted & _).
  exists asc. split; [exact Hasc | exact Hsorted].
Defined.

(** ** What the creator-only routes answer *)

Lemma getSurveyStats_run (i kh : string) (w : World) (row : SurveyRow) :
  find_survey i (DB w) = Some row ->
  String.eqb (sv_creator_key_hash row) kh = true ->
  exists stats w',
    getSurveyStats i kh w = (Ok stats, w')
    /\ st_surveyId stats = i
    /\ st_responseCount stats = response_count i (DB w)
    /\ st_isAtLimit stats
       = at_limit (sv_max_responses row) (response_count i (DB w)).
Proof.
  intros Hfind Hkh.
  unfold getSurveyStats, getSurvey, bind at 1 2, select_survey_by_id.
  unfold find_survey in Hfind. rewrite Hfind. unfold ret at 1.
  cbn [creatorKeyHash expiresAt maxResponses createdAt]. rewrite Hkh.
  cbn [negb]. unfold getResponseCount, bind at 1, select_response_count.
  destruct (expired_run (sv_expires_at row) w) as (b & w1 & Hrun & _ & _).
  rewrite (bind_Ok _ _ _ _ _ Hrun). unfold ret.
  eexists _, _. split; [reflexivity |]. cbn. repeat split.
Qed.

Lemma length_order_by (le : ResponseRow -> ResponseRow -> bool)
  (l : list ResponseRow) : List.length (order_by le l) = List.length l.
Proof. apply Permutation_length, order_by_perm. Qed.

(** X12. What [GET /api/survey/:id/responses] answers. Without a
    non-empty [keyHash] parameter: 401, and the database is not
    consulted. With one: 500 [Survey not found] for an unknown id; 401
    [Unauthorized - incorrect creator key] when it is not the stored
    hash; and otherwise 200 with the responses and statistics whose
    [responseCount] is the number of responses listed. *)
Theorem handleGetResponses_answers :
  forall (i : string) (request : Request) (w : World),
    (keyHashParam request = None \/ keyHashParam request = Some "" ->
     handleGetResponses i request w
     = (Ok (errorResponse "Missing authorization key hash" 401), w))
    /\ (forall kh,
          keyHashParam request = Some kh -> kh <> "" ->
          match find_survey i (DB w) with
          | None =>
              handleGetResponses i request w
              = (Ok (errorResponse "Survey not found" 500), w)
          | Some row =>
              if String.eqb (sv_creator_key_hash row) kh then
                exists items stats w',
                  handleGetResponses i request w
                  = (Ok (apiResponse (Listing items stats) 200), w')
                  /\ st_responseCount stats = Z.of_nat (List.length items)
                  /\ Permutation items
                       (map item_of_row (responses_of i (DB w)))
              else
                handleGetResponses i request w
                = (Ok (errorResponse "Unauthorized - incorrect creator key" 401),
                   w)
          end).
Proof.
  intros i request w. split.
  - intros [Hnone | Hempty]; unfold handleGetResponses, try_catch.
    + rewrite Hnone. reflexivity.
    + rewrite Hempty. reflexivity.
  - intros kh Hparam Hne.
    assert (Hgiven : missing truthy_string (keyHashParam request) = false).
    { rewrite Hparam. unfold missing, truthy_opt, truthy_string.
      apply String.eqb_neq in Hne. now rewrite Hne. }
    unfold handleGetResponses, try_catch. rewrite Hgiven, Hparam. cbn [get].
    destruct (find_survey i (DB w)) as [row |] eqn:Hfind.
    + destruct (String.eqb (sv_creator_key_hash row) kh) eqn:Hkh.
      * destruct (getSurveyStats_run _ _ _ _ Hfind Hkh)
          as (stats & w' & Hstats & _ & Hcount & _).
        pose proof (getSurveyResponses_run i kh w row Hfind) as Hlist.
        rewrite Hkh in Hlist.
        eexists _, stats, w'. split; [| split].
        -- rewrite (bind_Ok _ _ _ _ _ Hlist), (bind_Ok _ _ _ _ _ Hstats).
           reflexivity.
        -- rewrite Hcount, length_map, length_order_by. reflexivity.
        -- apply Permutation_map, order_by_perm.
      * pose proof (getSurveyResponses_run i kh w row Hfind) as Hlist.
        rewrite Hkh in Hlist.
        rewrite (bind_Throw _ _ _ _ _ Hlist). reflexivity.
    + assert (Hlist : getSurveyResponses i kh w = (Throw "Survey not found", w)).
      { unfold getSurveyResponses, getSurvey, bind, select_survey_by_id.
        unfold find_survey in Hfind. now rewrite Hfind. }
      rewrite (bind_Throw _ _ _ _ _ Hlist). reflexivity.
Qed.

Lemma handleGetResponses_answers_witness :
  keyHashParam sample_request = Some "5e884898da28047151d0e56f8dc62927"
  /\ "5e884898da28047151d0e56f8dc62927" <> ""
  /\ exists items stats w',
       handleGetResponses "01HF7YAT00V3C1S4R6D0F7M2K9" sample_request
         stored_world = (Ok (apiResponse (Listing items stats) 200), w')
       /\ st_responseCount stats = Z.of_nat (List.length items).
Proof.
  assert (Hparam : keyHashParam sample_request
                   = Some "5e884898da28047151d0e56f8dc62927") by reflexivity.
  assert (Hne : "5e884898da28047151d0e56f8dc62927" <> "")
    by (intros H; discriminate H).
  split; [exact Hparam |]. split; [exact Hne |].
  destruct (proj2 (handleGetResponses_answers "01HF7YAT00V3C1S4R6D0F7M2K9"
                     sample_request stored_world) _ Hparam Hne)
    as (items & stats & w' & Hrun & Hcount & _).
  exists items, stats, w'. split; [exact Hrun | exact Hcount].
Defined.

(** X13. What [DELETE /api/survey/:id] answers. Without a non-empty
    [keyHash] parameter: 401. With one: 401 for an unknown id (the
    message [Survey not found] contains [not found]) and 401 for a hash
    that is not the stored one, the database being untouched in both
    cases; and otherwise 200, the survey and its responses being gone.
    The body of the 200 says [deletedSurvey: true]; its
    [deletedResponses] is [undefined], so the number of responses
    deleted is not in it. *)
Theorem handleDeleteSurvey_answers :
  forall (i : string) (request : Request) (w : World),
    (keyHashParam request = None \/ keyHashParam request = Some "" ->
     handleDeleteSurvey i request w
     = (Ok (errorResponse "Missing authorization key hash" 401), w))
    /\ (forall kh,
          keyHashParam request = Some kh -> kh <> "" ->
          match find_survey i (DB w) with
          | None =>
              handleDeleteSurvey i request w
              = (Ok (errorResponse "Survey not found" 401), w)
          | Some row =>
              if String.eqb (sv_creator_key_hash row) kh then
                handleDeleteSurvey i request w
                = (Ok (apiResponse
                         (Deleted {| deletedSurvey := true;
                                     deletedResponses := None |})
                         200),
                   set_DB (remove_survey i (DB w)) w)
              else
                handleDeleteSurvey i request w
                = (Ok (errorResponse
                         "Unauthorized - only survey creator can delete" 401),
                   w)
          end).
Proof.
  intros i request w. split.
  - intros [Hnone | Hempty]; unfold handleDeleteSurvey, try_catch.
    + rewrite Hnone. reflexivity.
    + rewrite Hempty. reflexivity.
  - intros kh Hparam Hne.
    assert (Hgiven : missing truthy_string (keyHashParam request) = false).
    { rewrite Hparam. unfold missing, truthy_opt, truthy_string.
      apply String.eqb_neq in Hne. now rewrite Hne. }
    unfold handleDeleteSurvey, try_catch. rewrite Hgiven, Hparam. cbn [get].
    destruct (deleteSurvey i kh w) as [res w'] eqn:Hrun.
    pose proof (deleteSurvey_effect _ _ _ _ _ Hrun) as Heff.
    destruct (find_survey i (DB w)) as [row |].
    + destruct (String.eqb (sv_creator_key_hash row) kh);
        destruct Heff as [-> ->].
      * rewrite (bind_Ok _ _ _ _ _ Hrun). reflexivity.
      * rewrite (bind_Throw _ _ _ _ _ Hrun). reflexivity.
    + destruct Heff as [-> ->].
      rewrite (bind_Throw _ _ _ _ _ Hrun). reflexivity.
Qed.

Lemma handleDeleteSurvey_answers_witness :
  keyHashParam sample_delete_request = Some "5e884898da28047151d0e56f8dc62927"
  /\ "5e884898da28047151d0e56f8dc62927" <> ""
  /\ handleDeleteSurvey "01HF7YZZZZZZZZZZZZZZZZZZZZ" sample_delete_request
       stored_world
     = (Ok (errorResponse "Survey not found" 401), stored_world)
  /\ handleDeleteSurvey "01HF7YAT00V3C1S4R6D0F7M2K9" sample_delete_request
       stored_world
     = (Ok (apiResponse
              (Deleted {| deletedSurvey := true; deletedResponses := None |})
              200),
        set_DB (remove_survey "01HF7YAT00V3C1S4R6D0F7M2K9" (DB stored_world))
          stored_world).
Proof.
  assert (Hparam : keyHashParam sample_delete_request
                   = Some "5e884898da28047151d0e56f8dc62927") by reflexivity.
  assert (Hne : "5e884898da28047151d0e56f8dc62927" <> "")
    by (intros H; discriminate H).
  split; [exact Hparam |]. split; [exact Hne |]. split.
  - exact (proj2 (handleDeleteSurvey_answers "01HF7YZZZZZZZZZZZZZZZZZZZZ"
                    sample_delete_request stored_world) _ Hparam Hne).
  - exact (proj2 (handleDeleteSurvey_answers "01HF7YAT00V3C1S4R6D0F7M2K9"
                    sample_delete_request stored_world) _ Hparam Hne).
Defined.

(** ** Creator-only operations *)

Lemma prefix_append (p s : string) : String.prefix p (p ++ s) = true.
Proof.
  induction p as [| c p IH]; cbn [append].
  - destruct s; reflexivity.
  - cbn [String.prefix]. destruct (ascii_dec c c); [exact IH | contradiction].
Qed.

Lemma strip_prefix_append (p s : string) : strip_prefix p (p ++ s) = Some s.
Proof.
  induction p as [| c p IH]; cbn [append strip_prefix]; [reflexivity |].
  now rewrite Ascii.eqb_refl.
Qed.

Lemma span_alnum_all (i : string) :
  string_forallb is_alnum i = true -> span_alnum i = (i, "").
Proof.
  induction i as [| c i IH]; [reflexivity |].
  cbn [string_forallb span_alnum]. intros H.
  apply andb_true_iff in H. destruct H as [Hc Hi].
  now rewrite Hc, (IH Hi).
Qed.

Lemma span_alnum_slash (i rest : string) :
  string_forallb is_alnum i = true ->
  span_alnum (i ++ String "/" rest) = (i, String "/" rest).
Proof.
  induction i as [| c i IH]; [reflexivity |].
  cbn [string_forallb append span_alnum]. intros H.
  apply andb_true_iff in H. destruct H as [Hc Hi].
  now rewrite Hc, (IH Hi).
Qed.

(** The routes match the ids made of letters and digits. *)
Lemma match_route_id (prefix i : string) :
  i <> "" -> string_forallb is_alnum i = true ->
  match_route prefix "" (prefix ++ i) = Some i
  /\ (forall rest suffix,
        match_route prefix suffix (prefix ++ i ++ String "/" rest)
        = if String.eqb (String "/" rest) suffix then Some i else None).
Proof.
  intros Hne Hi.
  assert (Htruthy : truthy_string i = true).
  { unfold truthy_string. now apply negb_true_iff, String.eqb_neq. }
  split.
  - unfold match_route. rewrite strip_prefix_append, (span_alnum_all _ Hi), Htruthy.
    reflexivity.
  - intros rest suffix. unfold match_route.
    rewrite strip_prefix_append, (span_alnum_slash _ _ Hi), Htruthy.
    reflexivity.
Qed.

Lemma handleGetResponses_accepts (i : string) (request : Request) (w : World)
  (row : SurveyRow) :
  find_survey i (DB w) = Some row ->
  sv_creator_key_hash row <> "" ->
  keyHashParam request = Some (sv_creator_key_hash row) ->
  exists r w',
    handleGetResponses i request w = (Ok r, w')
    /\ creator_only_success r = true.
Proof.
  intros Hfind Hne Hparam.
  assert (Hgiven : missing truthy_string (keyHashParam request) = false).
  { rewrite Hparam. unfold missing, truthy_opt, truthy_string.
    apply String.eqb_neq in Hne. now rewrite Hne. }
  assert (Hkh : String.eqb (sv_creator_key_hash row) (sv_creator_key_hash row)
                = true) by apply String.eqb_refl.
  destruct (getSurveyStats_run _ _ _ _ Hfind Hkh) as (stats & w' & Hstats & _).
  pose proof (getSurveyResponses_run i (sv_creator_key_hash row) w row Hfind)
    as Hlist.
  rewrite Hkh in Hlist.
  unfold handleGetResponses, try_catch. rewrite Hgiven, Hparam. cbn [get].
  rewrite (bind_Ok _ _ _ _ _ Hlist), (bind_Ok _ _ _ _ _ Hstats).
  eexists _, _. split; reflexivity.
Qed.

Lemma handleDeleteSurvey_accepts (i : string) (request : Request) (w : World)
  (row : SurveyRow) :
  find_survey i (DB w) = Some row ->
  sv_creator_key_hash row <> "" ->
  keyHashParam request = Some (sv_creator_key_hash row) ->
  exists r w',
    handleDeleteSurvey i request w = (Ok r, w')
    /\ creator_only_success r = true.
Proof.
  intros Hfind Hne Hparam.
  assert (Hgiven : missing truthy_string (keyHashParam request) = false).
  { rewrite Hparam. unfold missing, truthy_opt, truthy_string.
    apply String.eqb_neq in Hne. now rewrite Hne. }
  unfold handleDeleteSurvey, try_catch. rewrite Hgiven, Hparam. cbn [get].
  destruct (deleteSurvey i (sv_creator_key_hash row) w) as [res w'] eqn:Hrun.
  pose proof (deleteSurvey_effect _ _ _ _ _ Hrun) as Heff.
  rewrite Hfind, String.eqb_refl in Heff. destruct Heff as [-> ->].
  rewrite (bind_Ok _ _ _ _ _ Hrun).
  eexists _, _. split; reflexivity.
Qed.

(** C3, as amended. A creator-only operation (listing the responses with
    their statistics, deleting the survey) goes through only for a request
    that carries a non-empty fingerprint equal to the stored creator key
    hash of a stored survey, and names that survey either by its analysis
    id on an [/api/analysis/] route or by its response-scope id on the
    [/api/survey/] routes kept for backwards compatibility. And the
    response-scope id alone is enough: for a stored survey whose id is
    made of letters and digits, as the routes require, the [GET] of
    [/api/survey/:id/responses] and the [DELETE] of [/api/survey/:id]
    that carry its stored, non-empty key hash go through. *)
Theorem creator_only_needs_stored_fingerprint :
  forall (getFile : string -> option File) (request : Request) (w : World),
    (forall (w' : World) (r : Response),
        handleRequest getFile request w = (Ok r, w') ->
        creator_only_success r = true ->
        exists i kh row,
          keyHashParam request = Some kh /\ kh <> ""
          /\ In row (surveys (DB w))
          /\ sv_creator_key_hash row = kh
          /\ ((sv_id row = i
               /\ (pathname request = ("/api/survey/" ++ i ++ "/responses")%string
                   \/ pathname request = ("/api/survey/" ++ i ++ "")%string))
              \/ (sv_analysis_id row = Some i
                  /\ (pathname request = ("/api/analysis/" ++ i ++ "/responses")%string
                      \/ pathname request = ("/api/analysis/" ++ i ++ "")%string))))
    /\ (forall (i : string) (row : SurveyRow),
          find_survey i (DB w) = Some row ->
          i <> "" -> string_forallb is_alnum i = true ->
          sv_creator_key_hash row <> "" ->
          keyHashParam request = Some (sv_creator_key_hash row) ->
          (method request = "GET"
           /\ pathname request = ("/api/survey/" ++ i ++ "/responses")%string)
          \/ (method request = "DELETE"
              /\ pathname request = ("/api/survey/" ++ i)%string) ->
          exists r w',
            handleRequest getFile request w = (Ok r, w')
            /\ creator_only_success r = true).
Proof.
  intros getFile request w. split.
  - intros w' r Hrun Hok.
    unfold handleRequest in Hrun. cbv zeta in Hrun.
    destruct (String.eqb (method request) "OPTIONS");
      [not_creator_only Hrun Hok |].
    destruct (startsWith "/api/" (pathname request));
      [| destruct (startsWith "/src/shared/" (pathname request));
         not_creator_only Hrun Hok].
    destruct (String.eqb (pathname request) "/api/survey"
              && String.eqb (method request) "POST");
      [not_creator_only Hrun Hok |].
    repeat route_step Hrun; try (not_creator_only Hrun Hok).
    all: first
           [ destruct (handleGetResponses_inv _ _ _ _ _ Hrun Hok)
               as (kh & row & Hparam & Hne & Hin & Hid & Hkh)
           | destruct (handleDeleteSurvey_inv _ _ _ _ _ Hrun Hok)
               as (kh & row & Hparam & Hne & Hin & Hid & Hkh)
           | destruct (handleGetResponsesByAnalysisId_inv _ _ _ _ _ Hrun Hok)
               as (kh & row & Hparam & Hne & Hin & Hid & Hkh)
           | destruct (handleDeleteSurveyByAnalysisId_inv _ _ _ _ _ Hrun Hok)
               as (kh & row & Hparam & Hne & Hin & Hid & Hkh) ].
    all: match type of Hid with
         | sv_analysis_id _ = Some ?x => exists x, kh, row
         | sv_id _ = ?x => exists x, kh, row
         end;
         repeat split; try assumption; tauto.
  - intros i row Hfind Hne Hi Hkh Hparam Hroute.
    destruct (match_route_id "/api/survey/" i Hne Hi) as [Hwhole Hslash].
    unfold handleRequest. cbv zeta.
    destruct Hroute as [[Hmethod Hpath] | [Hmethod Hpath]];
      rewrite Hmethod, Hpath.
    + change (String.eqb "GET" "OPTIONS") with false.
      replace (startsWith "/api/" ("/api/survey/" ++ i ++ "/responses"))
        with true by (symmetry; apply (prefix_append "/api/")).
      replace (String.eqb ("/api/survey/" ++ i ++ "/responses") "/api/survey")
        with false by reflexivity.
      cbn [andb]. rewrite !Hslash.
      change (String.eqb "GET" "GET") with true.
      change (String.eqb "GET" "POST") with false.
      change (String.eqb "/responses" "") with false.
      change (String.eqb "/responses" "/responses") with true.
      cbn [and_then].
      now apply (handleGetResponses_accepts i request w row).
    + change (String.eqb "DELETE" "OPTIONS") with false.
      replace (startsWith "/api/" ("/api/survey/" ++ i))
        with true by (symmetry; apply (prefix_append "/api/")).
      replace (String.eqb ("/api/survey/" ++ i) "/api/survey")
        with false by reflexivity.
      cbn [andb].
      assert (Hother : forall suffix,
                 suffix <> "" ->
                 match_route "/api/survey/" suffix ("/api/survey/" ++ i) = None).
      { intros suffix Hsuffix. unfold match_route.
        rewrite strip_prefix_append, (span_alnum_all _ Hi).
        destruct suffix as [| c suffix]; [contradiction |].
        now rewrite andb_false_r. }
      rewrite Hwhole, !Hother by (intros H; discriminate H).
      change (String.eqb "DELETE" "GET") with false.
      change (String.eqb "DELETE" "POST") with false.
      change (String.eqb "DELETE" "DELETE") with true.
      cbn [and_then].
      now apply (handleDeleteSurvey_accepts i request w row).
Qed.

Lemma creator_only_needs_stored_fingerprint_witness :
  (exists r w',
      handleRequest sample_assets sample_delete_request stored_world = (Ok r, w')
      /\ creator_only_success r = true
      /\ exists i kh row,
           keyHashParam sample_delete_request = Some kh /\ kh <> ""
           /\ In row (surveys (DB stored_world))
           /\ sv_creator_key_hash row = kh
           /\ ((sv_id row = i
                /\ (pathname sample_delete_request
                    = ("/api/survey/" ++ i ++ "/responses")%string
                    \/ pathname sample_delete_request
                       = ("/api/survey/" ++ i ++ "")%string))
               \/ (sv_analysis_id row = Some i
                   /\ (pathname sample_delete_request
                       = ("/api/analysis/" ++ i ++ "/responses")%string
                       \/ pathname sample_delete_request
                          = ("/api/analysis/" ++ i ++ "")%string))))
  /\ (exists r w',
         handleRequest sample_assets sample_request stored_world = (Ok r, w')
         /\ creator_only_success r = true).
Proof.
  pose (run := handleRequest sample_assets sample_delete_request stored_world).
  pose (r := {| status := 200;
                body := Json (Deleted {| deletedSurvey := true;
                                         deletedResponses := None |}) |}).
  assert (Hrun : run = (Ok r, snd run)) by reflexivity.
  assert (Hok : creator_only_success r = true) by reflexivity.
  split.
  - exists r, (snd run). split; [exact Hrun |]. split; [exact Hok |].
    exact (proj1 (creator_only_needs_stored_fingerprint
                    sample_assets sample_delete_request stored_world)
             _ _ Hrun Hok).
  - apply (proj2 (creator_only_needs_stored_fingerprint
                    sample_assets sample_request stored_world)
             "01HF7YAT00V3C1S4R6D0F7M2K9" sample_row);
      [ reflexivity | intros H; discriminate H | reflexivity
      | intros H; discriminate H | reflexivity
      | left; split; reflexivity ].
Defined.

(** C3, the claim as stated fails. The sample survey is stored under the
    response-scope id [01HF7YAT00V3C1S4R6D0F7M2K9], which is the analysis
    id of no stored survey. A request that names it by that id alone, on
    the route [/api/survey/:id/responses], and supplies the stored key
    hash (which [handleGetSurvey] hands out for the same id), is answered
    200 with the responses; the deletion on [/api/survey/:id] goes
    through likewise, answered 200 with [deletedSurvey: true]. *)
Lemma response_scope_id_reaches_creator_only :
  fst (handleRequest sample_assets sample_request stored_world)
  = Ok {| status := 200;
          body := Json (Listing
                          [{| ri_id := "01HF7YB5Q2E8X4N6T0W3Z5A7C9";
                              ri_answers := [x09; x08];
                              ri_submittedAt := 1700000005000 |}]
                          {| st_surveyId := "01HF7YAT00V3C1S4R6D0F7M2K9";
                             st_analysisId := None;
                             st_responseCount := 1;
                             st_createdAt := 1700000000000;
                             st_expiresAt := None;
                             st_maxResponses := None;
                             st_isExpired := false;
                             st_isAtLimit := false |}) |}
  /\ fst (handleRequest sample_assets sample_delete_request stored_world)
     = Ok {| status := 200;
             body := Json (Deleted {| deletedSurvey := true;
                                      deletedResponses := None |}) |}
  /\ surveys (DB (snd (handleRequest sample_assets sample_delete_request
                         stored_world))) = []
  /\ existsb (analysis_id_is "01HF7YAT00V3C1S4R6D0F7M2K9")
       (surveys (DB stored_world)) = false
  /\ fst (handleGetSurvey "01HF7YAT00V3C1S4R6D0F7M2K9" stored_world)
     = Ok (apiResponse
             (Shell {| sh_id := "01HF7YAT00V3C1S4R6D0F7M2K9";
                       sh_salt := [x0a; x0b];
                       sh_encryptedData := [x01; x02; x03];
                       sh_keyHash := "5e884898da28047151d0e56f8dc62927";
                       sh_createdAt := 1700000000000;
                       sh_expiresAt := None;
                       sh_maxResponses := None |}) 200).
Proof. repeat split; reflexivity. Qed.

(** ** Creating a survey through the worker *)

Lemma first_missing_field_None (es : SurveyMessage) :
  first_missing_field es = None ->
  exists i salt data kh t,
    m_id es = Some i /\ i <> ""
    /\ m_salt es = Some salt
    /\ m_encryptedData es = Some data
    /\ m_keyHash es = Some kh /\ kh <> ""
    /\ m_createdAt es = Some t /\ t <> 0%Z.
Proof.
  unfold first_missing_field, missing, truthy_opt, truthy_string,
    truthy_number, truthy_array.
  destruct (m_id es) as [i |]; [| discriminate].
  destruct (String.eqb i "") eqn:Hi; [discriminate |].
  destruct (m_salt es) as [salt |]; [| discriminate].
  destruct (m_encryptedData es) as [data |]; [| discriminate].
  destruct (m_keyHash es) as [kh |]; [| discriminate].
  destruct (String.eqb kh "") eqn:Hkh; [discriminate |].
  destruct (m_createdAt es) as [t |]; [| discriminate].
  destruct (Z.eqb t 0) eqn:Ht; [discriminate |].
  intros _. apply String.eqb_neq in Hi, Hkh. apply Z.eqb_neq in Ht.
  exists i, salt, data, kh, t. repeat split; assumption.
Qed.

(** The survey [handleCreateSurvey] stores for a complete message. *)
Lemma handleCreateSurvey_inv (request : Request) (w w' : World) (r : Response) :
  handleCreateSurvey request w = (Ok r, w') ->
  status r = 200 ->
  exists body es a w1 survey,
    json request = Ok (JsonFields body)
    /\ encryptedSurvey body = Some es
    /\ first_missing_field es = None
    /\ generateId w = (Ok a, w1)
    /\ survey = {| id := get "" (m_id es);
                   analysisId := Some a;
                   title := "";
                   description := "";
                   questions := get [] (m_encryptedData es);
                   salt_of := get [] (m_salt es);
                   createdAt := get 0%Z (m_createdAt es);
                   expiresAt := or_null (m_expiresAt es);
                   maxResponses := or_null (m_maxResponses es);
                   creatorKeyHash := get "" (m_keyHash es) |}
    /\ createSurvey survey w1 = (Ok (id survey, Some a, true), w')
    /\ body_of r
       = Some (Created (id survey) a
                 (split_head "/api" (url request) ++ "/survey/" ++ id survey)
                 (split_head "/api" (url request) ++ "/analyze/" ++ a)).
Proof.
  unfold handleCreateSurvey, try_catch. intros H Hstatus.
  destruct (json request) as [[| body] | msg] eqn:Hjson.
  1, 3: unfold bind, lift, destructure, throw, ret in H; inversion H; subst;
    discriminate.
  rewrite (bind_Ok _ _ w w _
             (eq_refl : lift (Ok (JsonFields body)) w = (Ok (JsonFields body), w)))
    in H.
  rewrite (bind_Ok _ _ w w _
             (eq_refl : destructure "encryptedSurvey" (JsonFields body) w
                        = (Ok body, w))) in H.
  destruct (encryptedSurvey body) as [es |] eqn:Hes.
  2:{ unfold ret in H. inversion H; subst. discriminate. }
  destruct (first_missing_field es) as [f |] eqn:Hmissing.
  { unfold ret in H. inversion H; subst. discriminate. }
  destruct (generateId w) as [[a | msg] w1] eqn:Hgen.
  2:{ rewrite (bind_Throw _ _ _ _ _ Hgen) in H. unfold ret in H.
      inversion H; subst. discriminate. }
  rewrite (bind_Ok _ _ _ _ _ Hgen) in H.
  match type of H with
  | context [createSurvey ?s] => set (survey := s) in *
  end.
  destruct (createSurvey survey w1) as [res w2] eqn:Hcreate.
  pose proof (createSurvey_effect _ _ _ _ Hcreate) as Heff.
  destruct (unique_violation (row_of_survey survey) (DB w1)).
  - destruct Heff as [[msg ->] ->].
    rewrite (bind_Throw _ _ _ _ _ Hcreate) in H. unfold ret in H.
    inversion H; subst. discriminate.
  - destruct Heff as [-> ->].
    rewrite (bind_Ok _ _ _ _ _ Hcreate) in H. unfold ret in H.
    inversion H; subst r w'. clear H.
    exists body, es, a, w1, survey.
    repeat split; first [assumption | reflexivity].
Qed.

(** X14. A survey created through [POST /api/survey] can be fetched
    through [GET /api/survey/:id]: when [handleCreateSurvey] answers 200,
    the message had its five required fields, and [handleGetSurvey] on
    its id then answers 200 with the salt, encrypted data, key hash and
    creation time of the message, an expiry time and a response limit of
    0 being stored as none. *)
Theorem handleCreateSurvey_then_handleGetSurvey :
  forall (request : Request) (w w' : World) (r : Response),
    handleCreateSurvey request w = (Ok r, w') ->
    status r = 200 ->
    exists body es i salt data kh t,
      json request = Ok (JsonFields body)
      /\ encryptedSurvey body = Some es
      /\ m_id es = Some i /\ m_salt es = Some salt
      /\ m_encryptedData es = Some data /\ m_keyHash es = Some kh
      /\ m_createdAt es = Some t
      /\ handleGetSurvey i w'
         = (Ok (apiResponse
                  (Shell {| sh_id := i;
                            sh_salt := salt;
                            sh_encryptedData := data;
                            sh_keyHash := kh;
                            sh_createdAt := t;
                            sh_expiresAt := or_null (m_expiresAt es);
                            sh_maxResponses := or_null (m_maxResponses es) |})
                  200), w').
Proof.
  intros request w w' r Hrun Hstatus.
  destruct (handleCreateSurvey_inv _ _ _ _ Hrun Hstatus)
    as (body & es & a & w1 & survey & Hjson & Hes & Hfields & _ & Hsurvey
        & Hcreate & _).
  destruct (first_missing_field_None _ Hfields)
    as (i & salt & data & kh & t & Hi & _ & Hsalt & Hdata & Hkh & _ & Ht & _).
  exists body, es, i, salt, data, kh, t.
  repeat (split; [assumption |]).
  destruct (createSurvey_then_getSurvey _ _ _ _ Hcreate) as (_ & Hget & _).
  assert (Hid : id survey = i) by (rewrite Hsurvey; cbn; now rewrite Hi).
  rewrite Hid in Hget.
  unfold handleGetSurvey, try_catch. rewrite (bind_Ok _ _ _ _ _ Hget).
  unfold ret. rewrite Hsurvey. unfold shell_of, without_analysisId. cbn.
  rewrite Hi, Hsalt, Hdata, Hkh, Ht. reflexivity.
Qed.

Lemma handleCreateSurvey_then_handleGetSurvey_witness :
  exists r w' shell,
    handleCreateSurvey sample_create_request later_world = (Ok r, w')
    /\ status r = 200
    /\ handleGetSurvey "01HF7YD000BBBBBBBBBBBBBBBB" w'
       = (Ok (apiResponse (Shell shell) 200), w')
    /\ sh_maxResponses shell = None.
Proof.
  pose (run := handleCreateSurvey sample_create_request later_world).
  pose (r := match fst run with
             | Ok r => r
             | Throw _ => handleOptions
             end).
  assert (Hrun : run = (Ok r, snd run)) by reflexivity.
  assert (Hstatus : status r = 200) by reflexivity.
  destruct (handleCreateSurvey_then_handleGetSurvey _ _ _ _ Hrun Hstatus)
    as (body & es & i & salt & data & kh & t & Hjson & Hes & Hi & _ & _ & _ & _
        & Hget).
  cbn [json sample_create_request] in Hjson. inversion Hjson; subst body.
  cbn [encryptedSurvey] in Hes. inversion Hes; subst es.
  cbn [m_id] in Hi. inversion Hi; subst i.
  eexists r, (snd run), _. split; [exact Hrun |]. split; [exact Hstatus |].
  split; [exact Hget | reflexivity].
Defined.

(** X15. [handleCreateSurvey] stores nothing unless it answers 200. A
    body that is not JSON is answered 500 with the parser's message; the
    body [null] is answered 500 too, with the message of the error that
    reading a property of [null] throws; any other body without
    [encryptedSurvey] is answered 400; and a message that lacks a
    required field, or has it empty or zero, is answered 400 naming the
    first such field in the order id, salt, encryptedData, keyHash,
    createdAt. *)
Theorem handleCreateSurvey_refusals :
  forall (request : Request) (w : World),
    (forall msg, json request = Throw msg ->
                 handleCreateSurvey request w
                 = (Ok (errorResponse msg 500), w))
    /\ (json request = Ok JsonNull ->
        exists msg,
          handleCreateSurvey request w = (Ok (errorResponse msg 500), w))
    /\ (forall body,
          json request = Ok (JsonFields body) -> encryptedSurvey body = None ->
          handleCreateSurvey request w
          = (Ok (errorResponse "Missing encrypted survey data" 400), w))
    /\ (forall body es field,
          json request = Ok (JsonFields body) ->
          encryptedSurvey body = Some es ->
          first_missing_field es = Some field ->
          handleCreateSurvey request w
          = (Ok (errorResponse ("Missing required field: " ++ field) 400), w)
          /\ In field ["id"; "salt"; "encryptedData"; "keyHash"; "createdAt"])
    /\ (forall r w', handleCreateSurvey request w = (Ok r, w') ->
                     status r <> 200 -> DB w' = DB w).
Proof.
  intros request w. split; [| split; [| split; [| split]]].
  - intros msg Hjson. unfold handleCreateSurvey, try_catch, bind, lift.
    rewrite Hjson. reflexivity.
  - intros Hjson. unfold handleCreateSurvey, try_catch, bind, lift.
    rewrite Hjson. eexists. reflexivity.
  - intros body Hjson Hes.
    unfold handleCreateSurvey, try_catch, bind, lift, destructure, ret.
    rewrite Hjson, Hes. reflexivity.
  - intros body es field Hjson Hes Hfield. split.
    + unfold handleCreateSurvey, try_catch, bind, lift, destructure, ret.
      rewrite Hjson, Hes, Hfield. reflexivity.
    + unfold first_missing_field in Hfield.
      repeat match type of Hfield with
             | (if ?b then _ else _) = _ => destruct b
             end;
        inversion Hfield; subst; cbn; tauto.
  - intros r w' Hrun Hstatus.
    unfold handleCreateSurvey, try_catch in Hrun.
    destruct (json request) as [[| body] | msg].
    1, 3: unfold bind, lift, destructure, throw, ret in Hrun; now inversion Hrun.
    rewrite (bind_Ok _ _ w w _
               (eq_refl : lift (Ok (JsonFields body)) w
                          = (Ok (JsonFields body), w))) in Hrun.
    rewrite (bind_Ok _ _ w w _
               (eq_refl : destructure "encryptedSurvey" (JsonFields body) w
                          = (Ok body, w))) in Hrun.
    destruct (encryptedSurvey body) as [es |];
      [| unfold ret in Hrun; now inversion Hrun].
    destruct (first_missing_field es);
      [unfold ret in Hrun; now inversion Hrun |].
    destruct (generateId w) as [[a | msg] w1] eqn:Hgen.
    2:{ rewrite (bind_Throw _ _ _ _ _ Hgen) in Hrun. unfold ret in Hrun.
        inversion Hrun; subst. exact (readonly_generateId _ _ _ Hgen). }
    rewrite (bind_Ok _ _ _ _ _ Hgen) in Hrun.
    match type of Hrun with
    | context [createSurvey ?s] => set (survey := s) in *
    end.
    destruct (createSurvey survey w1) as [res w2] eqn:Hcreate.
    pose proof (createSurvey_effect _ _ _ _ Hcreate) as Heff.
    destruct (unique_violation (row_of_survey survey) (DB w1)).
    + destruct Heff as [[msg ->] ->].
      rewrite (bind_Throw _ _ _ _ _ Hcreate) in Hrun. unfold ret in Hrun.
      inversion Hrun; subst. exact (readonly_generateId _ _ _ Hgen).
    + destruct Heff as [-> ->].
      rewrite (bind_Ok _ _ _ _ _ Hcreate) in Hrun. unfold ret in Hrun.
      inversion Hrun; subst. cbn in Hstatus. contradiction.
Qed.

Lemma handleCreateSurvey_refusals_witness :
  json sample_request = Throw "Unexpected end of JSON input"
  /\ handleCreateSurvey sample_request stored_world
     = (Ok (errorResponse "Unexpected end of JSON input" 500), stored_world)
  /\ json sample_null_request = Ok JsonNull
  /\ exists msg,
       handleCreateSurvey sample_null_request stored_world
       = (Ok (errorResponse msg 500), stored_world).
Proof.
  assert (Hjson : json sample_request = Throw "Unexpected end of JSON input")
    by reflexivity.
  assert (Hnull : json sample_null_request = Ok JsonNull) by reflexivity.
  split; [exact Hjson |]. split.
  - exact (proj1 (handleCreateSurvey_refusals sample_request stored_world)
             _ Hjson).
  - split; [exact Hnull |].
    exact (proj1 (proj2 (handleCreateSurvey_refusals sample_null_request
                           stored_world)) Hnull).
Defined.

(* ================================================================== *)
(** * More on the crypto module *)
(* ================================================================== *)

Section Cipher.

Context {Value : Type} {P : Platform Value}.
Hypothesis laws : PlatformLaws P.

(** X16. What [encryptData] seals under a 32-byte key, [decryptData]
    opens with that key: sealing succeeds, the output is the 24-byte
    nonce followed by the box (16 bytes more than the encoded JSON text),
    and opening it returns the data that went in. *)
Theorem decryptData_encryptData :
  forall (data : Value) (key : bytes) (w : World),
    List.length key = 32 ->
    exists out w',
      encryptData data key w = (Ok out, w')
      /\ List.length out
         = 24 + List.length (TextEncoder_encode (JSON_stringify data)) + 16
      /\ forall w2, exists w2', decryptData out key w2 = (Ok data, w2').
Proof.
  intros data key w Hkey.
  set (nonce := draw secretbox_nonceLength w).
  assert (Hn : List.length nonce = secretbox_nonceLength) by apply length_draw.
  destruct (secretbox_seals P laws
              (TextEncoder_encode (JSON_stringify data)) nonce key Hn Hkey)
    as (c & Hc & Hclen & Hopen).
  exists (nonce ++ c). eexists. split; [| split].
  - unfold encryptData.
    rewrite (bind_Ok _ _ _ _ _ (randomBytes_spec _ w)).
    unfold bind, call_secretbox, ret. fold nonce. rewrite Hc. reflexivity.
  - rewrite length_app, Hn, Hclen. unfold secretbox_nonceLength. lia.
  - intros w2. unfold decryptData.
    assert (Hge : (List.length (nonce ++ c) <? secretbox_nonceLength)%nat = false).
    { apply Nat.ltb_ge. rewrite length_app. lia. }
    rewrite Hge.
    assert (Hfirst : firstn secretbox_nonceLength (nonce ++ c) = nonce).
    { rewrite firstn_app, Hn, Nat.sub_diag, firstn_O, app_nil_r.
      apply firstn_all2. lia. }
    assert (Hskip : skipn secretbox_nonceLength (nonce ++ c) = c).
    { rewrite skipn_app, Hn, Nat.sub_diag, skipn_all2 by lia. reflexivity. }
    rewrite Hfirst, Hskip.
    unfold bind, call_secretbox_open. rewrite Hopen.
    unfold lift.
    rewrite (Text_decode_encode P laws), (JSON_parse_stringify P laws).
    eexists. reflexivity.
Qed.

End Cipher.

Lemma decryptData_encryptData_witness :
  List.length sample_key = 32
  /\ exists out w',
       encryptData (P := sample) (VText "Q?") sample_key sample_world
       = (Ok out, w')
       /\ forall w2, exists w2',
            decryptData (P := sample) out sample_key w2 = (Ok (VText "Q?"), w2').
Proof.
  assert (Hkey : List.length sample_key = 32) by reflexivity.
  split; [exact Hkey |].
  destruct (decryptData_encryptData (P := sample) sample_laws (VText "Q?")
              sample_key sample_world Hkey) as (out & w' & Hrun & _ & Hopen).
  exists out, w'. split; [exact Hrun | exact Hopen].
Defined.

(** ** The fingerprint is the digest, in hexadecimal *)

Lemma unhex_byte_hex_of_byte (b : byte) : unhex_byte (hex_of_byte b) = Some b.
Proof. destruct b; reflexivity. Qed.

Lemma hex_of_byte_two (b : byte) :
  exists c1 c2, hex_of_byte b = String c1 (String c2 EmptyString).
Proof. destruct b; eexists _, _; reflexivity. Qed.

Lemma unhex_map_join (l : bytes) : unhex (map_join hex_of_byte l) = Some l.
Proof.
  induction l as [| b l IH]; [reflexivity |].
  unfold map_join in *. cbn [fold_right].
  destruct (hex_of_byte_two b) as (c1 & c2 & Hb).
  pose proof (unhex_byte_hex_of_byte b) as Hun. rewrite Hb in Hun |- *.
  cbn [append unhex]. rewrite Hun, IH. reflexivity.
Qed.

Lemma hex_of_byte_lower (b : byte) :
  over_alphabet "0123456789abcdef" (hex_of_byte b) = true.
Proof. destruct b; reflexivity. Qed.

Section Fingerprint.

Context {Value : Type} {P : Platform Value}.

(** X17. The fingerprint [createKeyHash] computes is the digest of the
    key written in lower-case hexadecimal, two characters a byte, and
    nothing of the digest is lost: the digest can be read back from it,
    so two keys have the same fingerprint exactly when they have the
    same digest. *)
Theorem createKeyHash_is_hex_digest :
  forall (key1 key2 : bytes) (w : World),
    fst (createKeyHash key1 w) = Ok (keyHash_of key1)
    /\ unhex (keyHash_of key1) = Some (subtle_digest_SHA256 key1)
    /\ String.length (keyHash_of key1)
       = 2 * List.length (subtle_digest_SHA256 key1)
    /\ over_alphabet "0123456789abcdef" (keyHash_of key1) = true
    /\ (keyHash_of key1 = keyHash_of key2
        <-> subtle_digest_SHA256 key1 = subtle_digest_SHA256 key2).
Proof.
  intros key1 key2 w. unfold keyHash_of.
  split; [reflexivity |]. split; [apply unhex_map_join |].
  split; [apply length_map_join_hex |]. split.
  - induction (subtle_digest_SHA256 key1) as [| b l IH]; [reflexivity |].
    unfold map_join in *. cbn [fold_right]. unfold over_alphabet in *.
    rewrite string_forallb_append, IH, andb_true_r.
    apply hex_of_byte_lower.
  - split; [| intros ->; reflexivity].
    intros H. apply (f_equal unhex) in H.
    rewrite !unhex_map_join in H. now inversion H.
Qed.

End Fingerprint.

(** ** Weak passwords *)

Section WeakPassword.

Context {Value : Type} {P : Platform Value}.

(** X18. [createEncryptedSurvey] refuses a password shorter than 8 or
    longer than 128 characters with the message of [validatePassword],
    before doing anything else: the world it returns is the one it got,
    so no salt was drawn and no key derived. *)
Theorem createEncryptedSurvey_weak_password :
  forall (surveyData : Value) (password : string) (w : World),
    String.length password < 8 \/ 128 < String.length password ->
    createEncryptedSurvey surveyData password w
    = (Throw (weak_password_message password), w)
    /\ message (validatePassword password)
       = Some (weak_password_message password).
Proof.
  intros surveyData password w Hweak.
  assert (Hmsg : validatePassword password
                 = {| valid := false;
                      message := Some (weak_password_message password) |}).
  { unfold validatePassword, weak_password_message, truthy_string.
    destruct (String.length password <? 8)%nat eqn:Hlo.
    - now rewrite orb_true_r.
    - apply Nat.ltb_ge in Hlo.
      destruct (String.eqb password "") eqn:Hempty.
      + apply String.eqb_eq in Hempty. subst. cbn in Hlo. lia.
      + cbn [negb orb].
        destruct (128 <? String.length password)%nat eqn:Hhi; [reflexivity |].
        apply Nat.ltb_ge in Hhi. lia. }
  unfold createEncryptedSurvey. rewrite Hmsg. cbn [valid negb message].
  split; reflexivity.
Qed.

End WeakPassword.

Lemma createEncryptedSurvey_weak_password_witness :
  (String.length "hunter2" < 8 \/ 128 < String.length "hunter2")
  /\ createEncryptedSurvey (P := sample) (VText "Q?") "hunter2" sample_world
     = (Throw "Password must be at least 8 characters long", sample_world).
Proof.
  assert (Hweak : String.length "hunter2" < 8 \/ 128 < String.length "hunter2")
    by (left; cbn; lia).
  split; [exact Hweak |].
  exact (proj1 (createEncryptedSurvey_weak_password (P := sample) (VText "Q?")
                  "hunter2" sample_world Hweak)).
Defined.

(** ** Identifiers sort by time *)

Lemma append_assoc (a b c : string) : ((a ++ b) ++ c = a ++ (b ++ c))%string.
Proof. induction a as [| x a IH]; cbn [append]; [reflexivity | now rewrite IH]. Qed.

Lemma append_nil_r (a : string) : (a ++ "")%string = a.
Proof. induction a as [| x a IH]; cbn [append]; [reflexivity | now rewrite IH]. Qed.

Lemma encode_timestamp_text (rounds : nat) :
  forall (temp : Z) (result : string),
    encode_timestamp rounds temp result
    = (timestamp_text rounds temp ++ result)%string.
Proof.
  induction rounds as [| n IH]; intros temp result; [reflexivity |].
  cbn [encode_timestamp timestamp_text]. rewrite IH, append_assoc. reflexivity.
Qed.

Lemma encode_randomness_suffix (randomness : bytes) :
  exists suffix, forall result,
    encode_randomness randomness result = (result ++ suffix)%string.
Proof.
  induction randomness as [| b rest IH].
  - exists EmptyString. intros result. now rewrite append_nil_r.
  - destruct IH as (sfx & Hsfx). cbn [encode_randomness].
    destruct rest as [| b' rest'].
    + eexists. intros result. cbn [encode_randomness]. reflexivity.
    + eexists. intros result. rewrite Hsfx, !append_assoc. reflexivity.
Qed.

Lemma ascii_compare_refl (c : ascii) : Ascii.compare c c = Eq.
Proof. unfold Ascii.compare. apply N.compare_refl. Qed.

Lemma compare_append_same (a x y : string) :
  String.compare (a ++ x) (a ++ y) = String.compare x y.
Proof.
  induction a as [| c a IH]; cbn [append String.compare]; [reflexivity |].
  now rewrite ascii_compare_refl.
Qed.

Lemma compare_append_lt (a b x y : string) :
  String.length a = String.length b ->
  String.compare a b = Lt ->
  String.compare (a ++ x) (b ++ y) = Lt.
Proof.
  revert b. induction a as [| c a IH]; intros [| d b] Hlen Hlt;
    cbn [String.length] in Hlen; try discriminate.
  cbn [append String.compare] in *.
  destruct (Ascii.compare c d); try discriminate; [| reflexivity].
  apply IH; [now inversion Hlen | exact Hlt].
Qed.

Lemma chars_increase (i j : nat) :
  i < j -> j < 32 ->
  exists ci cj,
    String.get i chars = Some ci /\ String.get j chars = Some cj
    /\ Ascii.compare ci cj = Lt.
Proof.
  intros Hij Hj.
  do 32 (destruct i as [| i];
         [ do 32 (destruct j as [| j];
                  [ first [ lia | eexists _, _; repeat split; reflexivity ] |]);
           lia |]).
  lia.
Qed.

Lemma char_at_increase (i j : Z) :
  (0 <= i < j)%Z -> (j < 32)%Z ->
  exists ci cj,
    char_at chars i = String ci EmptyString
    /\ char_at chars j = String cj EmptyString
    /\ Ascii.compare ci cj = Lt.
Proof.
  intros Hij Hj.
  destruct (chars_increase (Z.to_nat i) (Z.to_nat j)) as (ci & cj & Hi & Hcj & Hlt);
    [lia | lia |].
  exists ci, cj. unfold char_at.
  destruct (i <? 0)%Z eqn:Hin; [apply Z.ltb_lt in Hin; lia |].
  destruct (j <? 0)%Z eqn:Hjn; [apply Z.ltb_lt in Hjn; lia |].
  rewrite Hi, Hcj. repeat split. exact Hlt.
Qed.

Lemma length_timestamp_text (n : nat) (t : Z) :
  (0 <= t)%Z -> String.length (timestamp_text n t) = n.
Proof.
  revert t. induction n as [| n IH]; intros t Ht; [reflexivity |].
  cbn [timestamp_text].
  destruct (char_at_chars (Z.rem t 32)) as (c & Hc & _).
  { apply Z.rem_bound_pos; lia. }
  rewrite Hc, length_append, IH by (apply Z.div_pos; lia).
  cbn. lia.
Qed.

Lemma timestamp_text_increases (n : nat) :
  forall t1 t2 : Z,
    (0 <= t1 < t2)%Z -> (t2 < 32 ^ Z.of_nat n)%Z ->
    String.compare (timestamp_text n t1) (timestamp_text n t2) = Lt.
Proof.
  induction n as [| n IH]; intros t1 t2 Hlt Hbound.
  - cbn in Hbound. lia.
  - cbn [timestamp_text].
    assert (Hpow : (32 ^ Z.of_nat (S n) = 32 * 32 ^ Z.of_nat n)%Z).
    { rewrite Nat2Z.inj_succ, Z.pow_succ_r by lia. reflexivity. }
    rewrite !Z.rem_mod_nonneg by lia.
    pose proof (Z.div_mod t1 32 ltac:(lia)) as H1.
    pose proof (Z.div_mod t2 32 ltac:(lia)) as H2.
    pose proof (Z.mod_pos_bound t1 32 ltac:(lia)) as M1.
    pose proof (Z.mod_pos_bound t2 32 ltac:(lia)) as M2.
    assert (Hq1 : (0 <= t1 / 32)%Z) by (apply Z.div_pos; lia).
    destruct (Z.eq_dec (t1 / 32) (t2 / 32)) as [Heq | Hne].
    + rewrite Heq, compare_append_same.
      destruct (char_at_increase (t1 mod 32) (t2 mod 32))
        as (c1 & c2 & Hc1 & Hc2 & Hc); [lia | lia |].
      rewrite Hc1, Hc2. cbn [String.compare]. now rewrite Hc.
    + apply compare_append_lt.
      * rewrite !length_timestamp_text by (try apply Z.div_pos; lia).
        reflexivity.
      * apply IH; [| apply Z.div_lt_upper_bound; lia].
        split; [exact Hq1 |].
        assert (t1 / 32 <= t2 / 32)%Z by (apply Z.div_le_mono; lia). lia.
Qed.

Lemma substring_0_append (m : nat) (a s : string) :
  String.length a <= m ->
  substring 0 m (a ++ s) = (a ++ substring 0 (m - String.length a) s)%string.
Proof.
  revert m. induction a as [| c a IH]; intros m Hlen.
  - cbn [append String.length]. now rewrite Nat.sub_0_r.
  - cbn [String.length] in Hlen. destruct m as [| m]; [lia |].
    cbn [append substring String.length Nat.sub]. rewrite IH by lia.
    reflexivity.
Qed.

Lemma generateUlid_text (w : World) :
  (0 <= clock_now w)%Z ->
  exists tail w',
    generateUlid w = (Ok (timestamp_text 10 (clock_now w) ++ tail)%string, w').
Proof.
  intros Ht. unfold generateUlid, bind, Date_now, randomBytes, ret.
  destruct (encode_randomness_suffix
              (draw 10 (set_clock_pos (S (clock_pos w)) w))) as (sfx & Hsfx).
  rewrite Hsfx, encode_timestamp_text, append_nil_r.
  unfold js_slice. fold (clock_now w).
  pose proof (length_timestamp_text 10 (clock_now w) Ht) as Hlen.
  eexists _, _. rewrite substring_0_append by (rewrite Hlen; cbn; lia).
  reflexivity.
Qed.

(** X19. Identifiers from [generateUlid] sort by creation time: of two
    identifiers made at different clock readings below 2^50
    milliseconds, the one made at the earlier reading is the smaller
    string, whatever the random parts are. *)
Theorem generateUlid_sorts_by_time :
  forall (w1 w2 w1' w2' : World) (s1 s2 : string),
    (0 <= clock_now w1 < clock_now w2)%Z ->
    (clock_now w2 < 2 ^ 50)%Z ->
    generateUlid w1 = (Ok s1, w1') ->
    generateUlid w2 = (Ok s2, w2') ->
    String.compare s1 s2 = Lt.
Proof.
  intros w1 w2 w1' w2' s1 s2 Hlt Hbound H1 H2.
  destruct (generateUlid_text w1) as (tail1 & u1 & E1); [lia |].
  destruct (generateUlid_text w2) as (tail2 & u2 & E2); [lia |].
  rewrite E1 in H1. rewrite E2 in H2.
  assert (Hs1 : s1 = (timestamp_text 10 (clock_now w1) ++ tail1)%string)
    by congruence.
  assert (Hs2 : s2 = (timestamp_text 10 (clock_now w2) ++ tail2)%string)
    by congruence.
  rewrite Hs1, Hs2. apply compare_append_lt.
  - rewrite !length_timestamp_text by lia. reflexivity.
  - apply timestamp_text_increases; [exact Hlt |].
    change (32 ^ Z.of_nat 10)%Z with (2 ^ 50)%Z. exact Hbound.
Qed.

Lemma generateUlid_sorts_by_time_witness :
  (0 <= clock_now sample_world < clock_now later_world)%Z
  /\ (clock_now later_world < 2 ^ 50)%Z
  /\ exists s1 s2,
       fst (generateUlid sample_world) = Ok s1
       /\ fst (generateUlid later_world) = Ok s2
       /\ String.compare s1 s2 = Lt.
Proof.
  assert (Hlt : (0 <= clock_now sample_world < clock_now later_world)%Z)
    by (cbn; lia).
  assert (Hbound : (clock_now later_world < 2 ^ 50)%Z) by (cbn; lia).
  split; [exact Hlt |]. split; [exact Hbound |].
  pose (r1 := generateUlid sample_world). pose (r2 := generateUlid later_world).
  pose (text := fun r : Result string * World =>
                  match fst r with Ok s => s | Throw _ => "" end).
  assert (H1 : r1 = (Ok (text r1), snd r1)) by reflexivity.
  assert (H2 : r2 = (Ok (text r2), snd r2)) by reflexivity.
  exists (text r1), (text r2).
  split; [reflexivity |]. split; [reflexivity |].
  exact (generateUlid_sorts_by_time _ _ _ _ _ _ Hlt Hbound H1 H2).
Defined.

(* ================================================================== *)
(** * The survey parser *)
(* ================================================================== *)

Example parseSurveyMarkdown_example :
  parseSurveyMarkdown getExampleSurvey
  = {| p_title := "Customer Feedback Survey";
       p_description :=
         "We'd love to hear your thoughts about our service. All responses are anonymous and encrypted.";
       p_questions :=
         [{| q_id := "q1"; q_type := "yes_no";
             q_text := "Are you satisfied with our service?" |};
          {| q_id := "q2"; q_type := "text";
             q_text := "What could we improve?" |};
          {| q_id := "q3"; q_type := "yes_no";
             q_text := "Would you recommend us to a friend?" |};
          {| q_id := "q4"; q_type := "text";
             q_text := "Any additional comments?" |}] |}.
Proof. reflexivity. Qed.

Example trim_and_collapse :
  trim "  a b  " = "a b" /\ collapse_spaces "a   b  c" = "a b c"
  /\ split_lines "a" = ["a"] /\ trim "   " = "".
Proof. repeat split; reflexivity. Qed.

(** ** Trimming *)

Lemma trimEnd_cons (c : ascii) (s : string) :
  trimEnd s <> "" -> trimEnd (String c s) = String c (trimEnd s).
Proof.
  intros H. cbn [trimEnd]. destruct (trimEnd s); [contradiction | reflexivity].
Qed.

Lemma trimEnd_all_space (s : string) : all_space s = true -> trimEnd s = "".
Proof.
  induction s as [| c s IH]; [reflexivity |].
  unfold all_space in *. cbn [string_forallb trimEnd]. intros H.
  apply andb_true_iff in H. destruct H as [Hc Hs].
  now rewrite (IH Hs), Hc.
Qed.

Lemma trimEnd_not_all_space (s : string) :
  all_space s = false -> trimEnd s <> "".
Proof.
  induction s as [| c s IH]; [discriminate |].
  unfold all_space in *. cbn [string_forallb trimEnd]. intros H.
  destruct (trimEnd s) eqn:Hs; [| discriminate].
  destruct (is_space c) eqn:Hc; [| discriminate].
  cbn [andb] in H. exfalso. now apply IH.
Qed.

Lemma trimEnd_idem (s : string) : trimEnd (trimEnd s) = trimEnd s.
Proof.
  induction s as [| c s IH]; [reflexivity |].
  cbn [trimEnd]. destruct (trimEnd s) as [| d t] eqn:Hs.
  - destruct (is_space c) eqn:Hc; [reflexivity |].
    cbn [trimEnd]. now rewrite Hc.
  - rewrite trimEnd_cons; [now rewrite IH | rewrite IH; discriminate].
Qed.

Lemma trimStart_head (s : string) :
  trimStart s = ""
  \/ exists c r, trimStart s = String c r /\ is_space c = false.
Proof.
  induction s as [| c s IH]; [now left |].
  cbn [trimStart]. destruct (is_space c) eqn:Hc; [exact IH |].
  right. now exists c, s.
Qed.

Lemma trimEnd_keeps_head (c : ascii) (r : string) :
  is_space c = false -> exists t, trimEnd (String c r) = String c t.
Proof.
  intros Hc. cbn [trimEnd]. destruct (trimEnd r).
  - rewrite Hc. now exists EmptyString.
  - eexists. reflexivity.
Qed.

Lemma trimStart_fixed (c : ascii) (t : string) :
  is_space c = false -> trimStart (String c t) = String c t.
Proof. intros Hc. cbn [trimStart]. now rewrite Hc. Qed.

Lemma trim_idem (s : string) : trim (trim s) = trim s.
Proof.
  unfold trim. destruct (trimStart_head s) as [-> | (c & r & -> & Hc)];
    [reflexivity |].
  destruct (trimEnd_keeps_head c r Hc) as (t & Ht).
  rewrite Ht, (trimStart_fixed _ _ Hc), <- Ht. apply trimEnd_idem.
Qed.

Lemma trimEnd_trim (s : string) : trimEnd (trim s) = trim s.
Proof. unfold trim. apply trimEnd_idem. Qed.

Lemma all_space_trimStart (s : string) :
  all_space s = false -> all_space (trimStart s) = false.
Proof.
  induction s as [| c s IH]; [discriminate |].
  unfold all_space in *. cbn [string_forallb trimStart]. intros H.
  destruct (is_space c) eqn:Hc.
  - now apply IH.
  - cbn [string_forallb]. now rewrite Hc.
Qed.

Lemma trim_not_all_space (s : string) : all_space s = false -> trim s <> "".
Proof.
  intros H. unfold trim. now apply trimEnd_not_all_space, all_space_trimStart.
Qed.

Lemma trimEnd_append_spaces (p r : string) :
  all_space r = true -> trimEnd (p ++ r) = trimEnd p.
Proof.
  intros Hr. induction p as [| c p IH]; cbn [append].
  - now apply trimEnd_all_space.
  - cbn [trimEnd]. now rewrite IH.
Qed.

Lemma length_trimEnd_le (s : string) : String.length (trimEnd s) <= String.length s.
Proof.
  induction s as [| c s IH]; [reflexivity |].
  cbn [trimEnd]. destruct (trimEnd s).
  - destruct (is_space c); cbn; lia.
  - cbn in *. lia.
Qed.

Lemma length_trimStart_le (s : string) :
  String.length (trimStart s) <= String.length s.
Proof.
  induction s as [| c s IH]; [reflexivity |].
  cbn [trimStart]. destruct (is_space c); cbn in *; lia.
Qed.

Lemma trimStart_same_length (s : string) :
  String.length (trimStart s) = String.length s -> trimStart s = s.
Proof.
  destruct s as [| c s]; [reflexivity |].
  cbn [trimStart]. destruct (is_space c); [| reflexivity].
  intros H. pose proof (length_trimStart_le s). cbn in H. lia.
Qed.

(** A trimmed string begins and ends with something else than space. *)
Lemma trimmed_both (s : string) :
  trim s = s -> trimStart s = s /\ trimEnd s = s.
Proof.
  intros H. unfold trim in H.
  assert (Hs : trimStart s = s).
  { apply trimStart_same_length.
    pose proof (length_trimEnd_le (trimStart s)) as H1.
    pose proof (length_trimStart_le s) as H2.
    rewrite H in H1. lia. }
  split; [exact Hs |]. now rewrite Hs in H.
Qed.

Lemma suffix_of_trimmed (p r : string) :
  trimEnd (p ++ r) = (p ++ r)%string -> r <> "" -> all_space r = false.
Proof.
  intros H Hr. destruct (all_space r) eqn:Hall; [| reflexivity].
  exfalso. rewrite (trimEnd_append_spaces _ _ Hall) in H.
  pose proof (length_trimEnd_le p) as Hle. rewrite H, length_append in Hle.
  destruct r; [contradiction | cbn in Hle; lia].
Qed.

Lemma string_forallb_imp (f g : ascii -> bool) (s : string) :
  (forall c, f c = true -> g c = true) ->
  string_forallb f s = true -> string_forallb g s = true.
Proof.
  intros Hfg. induction s as [| c s IH]; [reflexivity |].
  cbn [string_forallb]. intros H. apply andb_true_iff in H.
  destruct H as [Hc Hs]. now rewrite (Hfg c Hc), IH.
Qed.

Lemma string_forallb_trimStart (f : ascii -> bool) (s : string) :
  string_forallb f s = true -> string_forallb f (trimStart s) = true.
Proof.
  induction s as [| c s IH]; [reflexivity |].
  cbn [trimStart]. intros H.
  destruct (is_space c); [| exact H].
  cbn [string_forallb] in H. apply andb_true_iff in H. now apply IH.
Qed.

Lemma string_forallb_trimEnd (f : ascii -> bool) (s : string) :
  string_forallb f s = true -> string_forallb f (trimEnd s) = true.
Proof.
  induction s as [| c s IH]; [reflexivity |].
  cbn [string_forallb trimEnd]. intros H. apply andb_true_iff in H.
  destruct H as [Hc Hs]. specialize (IH Hs).
  destruct (trimEnd s).
  - destruct (is_space c); [reflexivity |]. cbn [string_forallb].
    now rewrite Hc.
  - cbn [string_forallb] in *. now rewrite Hc, IH.
Qed.

Lemma string_forallb_trim (f : ascii -> bool) (s : string) :
  string_forallb f s = true -> string_forallb f (trim s) = true.
Proof.
  intros H. unfold trim. now apply string_forallb_trimEnd, string_forallb_trimStart.
Qed.

(** ** Numbers in text *)

Lemma digit_value_digit_of (d : Z) :
  (0 <= d < 36)%Z -> digit_value (digit_of d) = d.
Proof.
  intros Hd. rewrite <- (Z2Nat.id d) at 2 by lia.
  unfold digit_of. assert (Hn : Z.to_nat d < 36) by lia.
  generalize dependent (Z.to_nat d). intros n Hn.
  do 36 (destruct n as [| n]; [reflexivity |]). lia.
Qed.

Lemma of_digits_to_radix (radix : Z) (fuel : nat) :
  (2 <= radix <= 36)%Z ->
  forall (n : Z) (acc : string),
    (0 <= n < radix ^ Z.of_nat fuel)%Z ->
    of_digits radix 0 (to_radix radix fuel n acc) = of_digits radix n acc.
Proof.
  intros Hr. induction fuel as [| fuel IH]; intros n acc Hn.
  - cbn in Hn. assert (n = 0%Z) as -> by lia. reflexivity.
  - cbn [to_radix]. destruct (n <? radix)%Z eqn:Hlt.
    + apply Z.ltb_lt in Hlt. cbn [of_digits].
      rewrite digit_value_digit_of by lia. reflexivity.
    + apply Z.ltb_ge in Hlt.
      rewrite Nat2Z.inj_succ, Z.pow_succ_r in Hn by lia.
      rewrite IH.
      * cbn [of_digits].
        rewrite digit_value_digit_of by (pose proof (Z.mod_pos_bound n radix); lia).
        f_equal. pose proof (Z.div_mod n radix). lia.
      * split; [apply Z.div_pos; lia |].
        apply Z.div_lt_upper_bound; lia.
Qed.

(** The text of a non-negative integer stands for that integer. *)
Lemma of_digits_Number_toString (radix n : Z) :
  (2 <= radix <= 36)%Z -> (0 <= n)%Z ->
  of_digits radix 0 (Number_toString radix n) = n.
Proof.
  intros Hr Hn. unfold Number_toString.
  destruct (n <? 0)%Z eqn:Hneg; [apply Z.ltb_lt in Hneg; lia |].
  rewrite of_digits_to_radix; [reflexivity | exact Hr |].
  split; [exact Hn |].
  destruct (Z.eq_dec n 0) as [-> | Hnz].
  - cbn. lia.
  - pose proof (Z.log2_spec n ltac:(lia)) as [_ Hup].
    pose proof (Z.log2_nonneg n) as Hlog.
    rewrite Nat2Z.inj_succ, Z2Nat.id by lia.
    eapply Z.lt_le_trans; [exact Hup |].
    apply Z.pow_le_mono_l. lia.
Qed.

Lemma question_ids_succ (n : nat) :
  question_ids (S n)
  = question_ids n ++ [("q" ++ Number_toString 10 (Z.of_nat n + 1))%string].
Proof.
  unfold question_ids. rewrite seq_S, map_app. cbn [map].
  repeat f_equal. lia.
Qed.

Lemma NoDup_map_injective {A B} (f : A -> B) (l : list A) :
  (forall x y, f x = f y -> x = y) -> NoDup l -> NoDup (map f l).
Proof.
  intros Hf Hl. induction Hl as [| x l Hx Hl IH]; cbn [map]; constructor.
  - intros Hin. apply in_map_iff in Hin. destruct Hin as (y & Hy & Hyin).
    apply Hf in Hy. now subst.
  - exact IH.
Qed.

Lemma NoDup_question_ids (n : nat) : NoDup (question_ids n).
Proof.
  unfold question_ids. apply NoDup_map_injective; [| apply seq_NoDup].
  intros j k H. inversion H as [Heq].
  apply (f_equal (of_digits 10 0)) in Heq.
  rewrite !of_digits_Number_toString in Heq by lia. lia.
Qed.

(** ** What the parser makes *)

Lemma match_question_inv (trimmed type text : string) :
  match_question trimmed = Some (type, text) ->
  (type = "yes/no" \/ type = "text")
  /\ (exists p, trimmed = (p ++ text)%string)
  /\ text <> ""
  /\ no_line_terminator text = true.
Proof.
  unfold match_question. intros H.
  destruct (strip_prefix "- **yes/no** " trimmed) as [rest |] eqn:Hyes.
  - destruct (truthy_string rest && no_line_terminator rest) eqn:Hok;
      [| discriminate].
    inversion H; subst. apply andb_true_iff in Hok. destruct Hok as [Hne Hlt].
    apply strip_prefix_spec in Hyes.
    split; [now left |]. split; [eexists; exact Hyes |].
    split; [| exact Hlt].
    intros ->. discriminate.
  - destruct (strip_prefix "- **text** " trimmed) as [rest |] eqn:Htext;
      [| discriminate].
    destruct (truthy_string rest && no_line_terminator rest) eqn:Hok;
      [| discriminate].
    inversion H; subst. apply andb_true_iff in Hok. destruct Hok as [Hne Hlt].
    apply strip_prefix_spec in Htext.
    split; [now right |]. split; [eexists; exact Htext |].
    split; [| exact Hlt].
    intros ->. discriminate.
Qed.

Lemma parse_line_invariant (st : ParserState) (line : string) :
  parser_invariant st -> parser_invariant (parse_line st line).
Proof.
  intros [Htitle Hdesc Hqs Hids Hnext]. unfold parse_line.
  destruct (negb (truthy_string (trim line))).
  { destruct (ps_currentSection st), (ps_descriptionLines st);
      split; assumption. }
  destruct (startsWith "# " (trim line) && negb (truthy_string (ps_title st))).
  { split; cbn; try assumption. apply trim_idem. }
  destruct (String.eqb (trim line) "## Questions").
  { split; cbn; try assumption. apply trim_idem. }
  destruct (ps_currentSection st).
  { destruct (negb (startsWith "#" (trim line))); split; assumption. }
  destruct (startsWith "- **" (trim line)); [| split; assumption].
  destruct (match_question (trim line)) as [[type text] |] eqn:Hmatch;
    [| split; assumption].
  apply match_question_inv in Hmatch.
  destruct Hmatch as (Htype & (p & Hline) & Hne & Hterm).
  split; cbn [ps_title ps_description ps_questions ps_questionId]; try assumption.
  - apply Forall_app. split; [exact Hqs |]. constructor; [| constructor].
    unfold parsed_question. cbn [q_type q_text]. split; [| split; [| split]].
    + destruct Htype as [-> | ->]; [now left | now right].
    + apply trim_idem.
    + apply trim_not_all_space. apply (suffix_of_trimmed p); [| exact Hne].
      rewrite <- Hline. apply trimEnd_trim.
    + now apply string_forallb_trim.
  - rewrite map_app, length_app, Hids. cbn [map List.length q_id].
    rewrite Nat.add_1_r, question_ids_succ, Hnext. reflexivity.
  - rewrite length_app. cbn [List.length]. rewrite Hnext. lia.
Qed.

Lemma parser_invariant_initial : parser_invariant initial_state.
Proof. split; cbn; try reflexivity. constructor. Qed.

Lemma fold_parse_line_invariant (lines : list string) :
  forall st, parser_invariant st ->
             parser_invariant (fold_left parse_line lines st).
Proof.
  induction lines as [| line lines IH]; intros st Hst; [exact Hst |].
  cbn [fold_left]. apply IH. now apply parse_line_invariant.
Qed.

(** X20. Whatever the text, the questions [parseSurveyMarkdown] returns
    are numbered [q1], [q2], ... in order, without repetition; each has
    the type [yes_no] or [text] and a text that is trimmed, not empty and
    on one line; and the title and the description are trimmed. *)
Theorem parseSurveyMarkdown_shape :
  forall markdown : string,
    let survey := parseSurveyMarkdown markdown in
    map q_id (p_questions survey)
    = question_ids (List.length (p_questions survey))
    /\ NoDup (map q_id (p_questions survey))
    /\ Forall parsed_question (p_questions survey)
    /\ trim (p_title survey) = p_title survey
    /\ trim (p_description survey) = p_description survey.
Proof.
  intros markdown survey. subst survey. unfold parseSurveyMarkdown. cbv zeta.
  pose proof (fold_parse_line_invariant (split_lines markdown) initial_state
                parser_invariant_initial) as [Htitle Hdesc Hqs Hids Hnext].
  cbn [p_title p_description p_questions].
  split; [exact Hids |]. split; [rewrite Hids; apply NoDup_question_ids |].
  split; [exact Hqs |]. split; [exact Htitle |].
  destruct (ps_currentSection _); [apply trim_idem | exact Hdesc].
Qed.

(** ** Validating a survey *)

Lemma length_zero_iff_nil {A} (l : list A) :
  (List.length l =? 0)%nat = true <-> l = [].
Proof.
  destruct l; cbn; split; intros H; try reflexivity; discriminate.
Qed.

Lemma blank_false_iff (s : string) : blank s = false <-> trim s <> "".
Proof.
  unfold blank, truthy_string. split.
  - intros H. apply orb_false_iff in H. destruct H as [_ H].
    apply Nat.eqb_neq in H. intros Heq. rewrite Heq in H. now apply H.
  - intros H. apply orb_false_iff. split.
    + apply negb_false_iff, negb_true_iff, String.eqb_neq.
      intros ->. now apply H.
    + apply Nat.eqb_neq. destruct (trim s); [contradiction | discriminate].
Qed.

Lemma question_errors_nil (index : nat) (question : Question) :
  question_errors index question = [] <-> acceptable_question question.
Proof.
  unfold question_errors, acceptable_question.
  destruct (blank (q_text question)) eqn:Hblank.
  - split; [intros H; discriminate H |].
    intros (Htext & _). apply blank_false_iff in Htext. congruence.
  - apply blank_false_iff in Hblank.
    destruct (500 <? String.length (q_text question))%nat eqn:Hlong.
    + apply Nat.ltb_lt in Hlong. split; [intros H; discriminate H |].
      intros (_ & Hlen & _). lia.
    + apply Nat.ltb_ge in Hlong. cbn [app].
      destruct (String.eqb (q_type question) "yes_no") eqn:Hyes.
      * apply String.eqb_eq in Hyes. cbn. split; [| reflexivity].
        intros _. repeat split; try assumption. now left.
      * destruct (String.eqb (q_type question) "text") eqn:Htext.
        -- apply String.eqb_eq in Htext. cbn. split; [| reflexivity].
           intros _. repeat split; try assumption. now right.
        -- apply String.eqb_neq in Hyes, Htext. cbn.
           split; [intros H; discriminate H |].
           intros (_ & _ & [H | H]); contradiction.
Qed.

Lemma questions_errors_nil (questions : list Question) :
  forall index,
    questions_errors index questions = []
    <-> Forall acceptable_question questions.
Proof.
  induction questions as [| q qs IH]; intros index; cbn [questions_errors].
  - split; [constructor | reflexivity].
  - split.
    + intros H. apply app_eq_nil in H. destruct H as [Hq Hqs].
      constructor; [now apply (question_errors_nil index) | now apply (IH (S index))].
    + intros H. inversion H as [| ? ? Hq Hqs]; subst.
      apply (question_errors_nil index) in Hq. apply (IH (S index)) in Hqs.
      now rewrite Hq, Hqs.
Qed.

(** X21. [validateSurvey] finds a survey valid exactly when its title is
    not blank and has at most 200 characters, its description has at
    most 1000, it has between 1 and 50 questions, and every question has
    a text that is not blank, of at most 500 characters, and the type
    [yes_no] or [text]; and it is valid exactly when no error is
    reported. *)
Theorem validateSurvey_valid_iff :
  forall survey : ParsedSurvey,
    (v_valid (validateSurvey survey) = true
     <-> trim (p_title survey) <> ""
         /\ String.length (p_title survey) <= 200
         /\ String.length (p_description survey) <= 1000
         /\ 1 <= List.length (p_questions survey) <= 50
         /\ Forall acceptable_question (p_questions survey))
    /\ (v_valid (validateSurvey survey) = true
        <-> v_errors (validateSurvey survey) = []).
Proof.
  intros survey. unfold validateSurvey. cbv zeta. cbn [v_valid v_errors].
  split; [| apply length_zero_iff_nil].
  rewrite length_zero_iff_nil. split.
  - intros H. apply app_eq_nil in H. destruct H as [Htitle H].
    apply app_eq_nil in H. destruct H as [Hdesc H].
    apply app_eq_nil in H. destruct H as [Hcount Hqs].
    split; [| split; [| split; [| split]]].
    + destruct (blank (p_title survey)) eqn:Hb; [discriminate |].
      now apply blank_false_iff.
    + destruct (blank (p_title survey)); [discriminate |].
      destruct (200 <? String.length (p_title survey))%nat eqn:Hl;
        [discriminate |]. now apply Nat.ltb_ge in Hl.
    + destruct (truthy_string (p_description survey)) eqn:Ht.
      * cbn [andb] in Hdesc.
        destruct (1000 <? String.length (p_description survey))%nat eqn:Hl;
          [discriminate |]. now apply Nat.ltb_ge in Hl.
      * unfold truthy_string in Ht. apply negb_false_iff, String.eqb_eq in Ht.
        rewrite Ht. cbn. lia.
    + destruct (List.length (p_questions survey) =? 0)%nat eqn:Hz;
        [discriminate |].
      destruct (50 <? List.length (p_questions survey))%nat eqn:Hl;
        [discriminate |].
      apply Nat.eqb_neq in Hz. apply Nat.ltb_ge in Hl. lia.
    + now apply (questions_errors_nil _ 0).
  - intros (Htitle & Htlen & Hdlen & Hcount & Hqs).
    apply blank_false_iff in Htitle. rewrite Htitle.
    apply Nat.ltb_ge in Htlen. rewrite Htlen.
    apply Nat.ltb_ge in Hdlen. rewrite Hdlen, andb_false_r.
    assert (Hz : (List.length (p_questions survey) =? 0)%nat = false)
      by (apply Nat.eqb_neq; lia).
    assert (Hl : (50 <? List.length (p_questions survey))%nat = false)
      by (apply Nat.ltb_ge; lia).
    rewrite Hz, Hl. cbn [app].
    now apply (questions_errors_nil _ 0).
Qed.

(** ** Answers *)

Lemma assigned_assign (key : string) (answer : Answer) (responses : Responses) :
  assigned key answer (assign key answer responses).
Proof.
  unfold assigned, assign.
  destruct (own_property key (r_own responses)) as [old |] eqn:Hown.
  - left. cbn [r_own own_property]. now rewrite String.eqb_refl.
  - destruct (String.eqb key "__proto__") eqn:Hkey.
    + right. apply String.eqb_eq in Hkey. cbn [r_own r_proto]. now repeat split.
    + left. cbn [r_own own_property]. now rewrite String.eqb_refl.
Qed.

Lemma own_property_assign_other (key other : string) (answer : Answer)
  (responses : Responses) :
  other <> key ->
  own_property other (r_own (assign key answer responses))
  = own_property other (r_own responses).
Proof.
  intros Hne. apply not_eq_sym in Hne. apply String.eqb_neq in Hne.
  unfold assign.
  destruct (own_property key (r_own responses));
    [| destruct (String.eqb key "__proto__")];
    cbn [r_own own_property]; rewrite ?Hne; reflexivity.
Qed.

Lemma assigned_assign_other (key other : string) (answer old : Answer)
  (responses : Responses) :
  other <> key ->
  assigned other old responses ->
  assigned other old (assign key answer responses).
Proof.
  intros Hne [Hown | (Hproto & Hown & Hold)]; unfold assigned;
    rewrite (own_property_assign_other _ _ _ _ Hne).
  - now left.
  - right. split; [exact Hproto |]. split; [exact Hown |].
    assert (Hkey : String.eqb key "__proto__" = false)
      by (apply String.eqb_neq; congruence).
    unfold assign. destruct (own_property key (r_own responses));
      [| rewrite Hkey]; exact Hold.
Qed.

Lemma lookup_answer_assigned (key : string) (answer : Answer)
  (responses : Responses) :
  assigned key answer responses ->
  lookup_answer key responses = PAnswer answer.
Proof.
  unfold lookup_answer. intros [Hown | (Hproto & Hown & Hold)]; rewrite Hown.
  - reflexivity.
  - rewrite Hold, Hproto. reflexivity.
Qed.

Lemma assigned_createResponseStructure (questions : list Question) :
  NoDup (map q_id questions) ->
  forall question,
    In question questions ->
    assigned (q_id question) (empty_answer question)
      (fold_left
         (fun responses question =>
            assign (q_id question)
              {| a_type := q_type question;
                 a_value := if String.eqb (q_type question) "yes_no"
                            then ANull else AString "" |}
              responses)
         questions empty_object).
Proof.
  induction questions as [| last questions IH] using rev_ind;
    intros Hnodup question Hin; [contradiction |].
  rewrite fold_left_app. cbn [fold_left].
  rewrite map_app in Hnodup. cbn [map] in Hnodup.
  apply in_app_iff in Hin. destruct Hin as [Hin | [<- | []]].
  - apply assigned_assign_other.
    + intros Heq. apply NoDup_remove_2 in Hnodup. apply Hnodup.
      rewrite app_nil_r, <- Heq. now apply in_map.
    + apply IH; [| exact Hin].
      apply NoDup_remove_1 in Hnodup. now rewrite app_nil_r in Hnodup.
  - apply assigned_assign.
Qed.

Lemma fresh_answer (survey : ParsedSurvey) (question : Question) :
  NoDup (map q_id (p_questions survey)) ->
  In question (p_questions survey) ->
  lookup_answer (q_id question) (createResponseStructure survey)
  = PAnswer (empty_answer question).
Proof.
  intros Hnodup Hin. apply lookup_answer_assigned.
  now apply assigned_createResponseStructure.
Qed.

Lemma flat_map_nil {A B} (f : A -> list B) (l : list A) :
  (forall a, In a l -> f a = []) -> flat_map f l = [].
Proof.
  induction l as [| a l IH]; intros Hall; [reflexivity |].
  cbn [flat_map]. rewrite Hall by now left.
  apply IH. intros a' Ha'. apply Hall. now right.
Qed.

Lemma fresh_structure_valid (survey : ParsedSurvey) :
  NoDup (map q_id (p_questions survey)) ->
  validateResponses survey (createResponseStructure survey)
  = {| v_valid := true; v_errors := [] |}.
Proof.
  intros Hnodup. unfold validateResponses. cbv zeta.
  assert (Hnil : flat_map (answer_errors (createResponseStructure survey))
                   (p_questions survey) = []).
  { assert (Hall : forall q, In q (p_questions survey) ->
                             answer_errors (createResponseStructure survey) q = []).
    { intros q Hq. unfold answer_errors. cbv zeta.
      rewrite (fresh_answer _ _ Hnodup Hq). unfold empty_answer.
      cbn [truthy_property negb value_of a_value].
      destruct (String.eqb (q_type q) "yes_no"); [reflexivity |].
      destruct (String.eqb (q_type q) "text"); reflexivity. }
    now apply flat_map_nil. }
  now rewrite Hnil.
Qed.

(** X22. The empty answers [createResponseStructure] prepares hold, for
    every question of a survey whose question ids are distinct, an entry
    of the question's type ([null] for a yes/no question, the empty
    string otherwise), and [validateResponses] accepts them as they are. *)
Theorem createResponseStructure_validates :
  forall survey : ParsedSurvey,
    NoDup (map q_id (p_questions survey)) ->
    validateResponses survey (createResponseStructure survey)
    = {| v_valid := true; v_errors := [] |}
    /\ forall question,
         In question (p_questions survey) ->
         lookup_answer (q_id question) (createResponseStructure survey)
         = PAnswer {| a_type := q_type question;
                      a_value := if String.eqb (q_type question) "yes_no"
                                 then ANull else AString "" |}.
Proof.
  intros survey Hnodup. split.
  - now apply fresh_structure_valid.
  - intros question Hin. now apply fresh_answer.
Qed.

Lemma createResponseStructure_validates_witness :
  NoDup (map q_id (p_questions (parseSurveyMarkdown getExampleSurvey)))
  /\ validateResponses (parseSurveyMarkdown getExampleSurvey)
       (createResponseStructure (parseSurveyMarkdown getExampleSurvey))
     = {| v_valid := true; v_errors := [] |}.
Proof.
  assert (Hnodup : NoDup (map q_id (p_questions
                                      (parseSurveyMarkdown getExampleSurvey)))).
  { cbn. repeat constructor; cbn; intuition discriminate. }
  split; [exact Hnodup |].
  exact (proj1 (createResponseStructure_validates _ Hnodup)).
Defined.

(** X23. From parsing to answering: whatever text is parsed, the empty
    answers prepared for the parsed survey are accepted by
    [validateResponses]. *)
Theorem parsed_survey_answers_validate :
  forall markdown : string,
    validateResponses (parseSurveyMarkdown markdown)
      (createResponseStructure (parseSurveyMarkdown markdown))
    = {| v_valid := true; v_errors := [] |}.
Proof.
  intros markdown. apply fresh_structure_valid.
  pose proof (fold_parse_line_invariant (split_lines markdown) initial_state
                parser_invariant_initial) as [_ _ _ Hids _].
  unfold parseSurveyMarkdown. cbv zeta. cbn [p_questions].
  rewrite Hids. apply NoDup_question_ids.
Qed.

(** ** Writing a survey and reading it back *)

Lemma string_forallb_app (f : ascii -> bool) (a b : string) :
  string_forallb f (a ++ b) = string_forallb f a && string_forallb f b.
Proof.
  induction a as [| c a IH]; [reflexivity |].
  cbn [append string_forallb]. now rewrite IH, andb_assoc.
Qed.

Lemma split_lines_line (a rest : string) :
  contains_newline a = false ->
  split_lines (a ++ String newline rest) = a :: split_lines rest.
Proof.
  unfold contains_newline. intros H. apply negb_false_iff in H.
  induction a as [| c a IH]; cbn [append split_lines].
  - reflexivity.
  - cbn [string_forallb] in H. apply andb_true_iff in H.
    destruct H as [Hc Ha]. apply negb_true_iff in Hc.
    rewrite Hc, (IH Ha). reflexivity.
Qed.

Lemma fold_parse_line_line (a rest : string) (st : ParserState) :
  contains_newline a = false ->
  fold_left parse_line (split_lines (a ++ String newline rest)) st
  = fold_left parse_line (split_lines rest) (parse_line st a).
Proof. intros H. now rewrite (split_lines_line _ _ H). Qed.

Lemma collapse_from_spaces (s : string) :
  forall in_run,
    string_forallb (fun c => negb (is_space c) || Ascii.eqb c " ")
      (collapse_from in_run s) = true.
Proof.
  induction s as [| c s IH]; intros in_run; [reflexivity |].
  cbn [collapse_from]. destruct (is_space c) eqn:Hc.
  - destruct in_run; [apply IH |].
    cbn [string_forallb]. now rewrite IH.
  - cbn [string_forallb]. now rewrite Hc, IH.
Qed.

Lemma collapsed_one_line (s : string) :
  collapse_spaces s = s -> contains_newline s = false.
Proof.
  intros H. unfold contains_newline. apply negb_false_iff.
  rewrite <- H. unfold collapse_spaces.
  eapply string_forallb_imp; [| apply collapse_from_spaces].
  intros c Hc. cbv beta in *.
  destruct (Ascii.eqb c newline) eqn:Hnl; [| reflexivity].
  apply Ascii.eqb_eq in Hnl. subst c. discriminate Hc.
Qed.

Lemma trimEnd_prepend (p r : string) :
  trimEnd r = r -> r <> "" -> trimEnd (p ++ r) = (p ++ r)%string.
Proof.
  intros Hr Hne. induction p as [| c p IH]; cbn [append]; [exact Hr |].
  rewrite trimEnd_cons; rewrite IH; [reflexivity |].
  destruct p; cbn [append]; [exact Hne | discriminate].
Qed.

(** A line that begins with something else than space and ends with
    trimmed text is left as it is. *)
Lemma trim_line (c : ascii) (p r : string) :
  is_space c = false -> trim r = r -> r <> "" ->
  trim (String c p ++ r) = (String c p ++ r)%string.
Proof.
  intros Hc Hr Hne. unfold trim. cbn [append].
  rewrite (trimStart_fixed _ _ Hc).
  apply (trimEnd_prepend (String c p) r); [| exact Hne].
  now apply trimmed_both.
Qed.

Lemma trimEnd_tail (c : ascii) (s : string) :
  s <> "" -> trimEnd (String c s) = String c s -> trimEnd s = s.
Proof.
  intros Hne H. cbn [trimEnd] in H. destruct (trimEnd s) eqn:Hs.
  - destruct (is_space c); [discriminate |].
    inversion H as [Heq]. now symmetry in Heq.
  - now inversion H.
Qed.

Lemma collapse_from_append_space (s : string) :
  forall in_run,
    s <> "" -> trimEnd s = s ->
    collapse_from in_run (s ++ " ")
    = (collapse_from in_run s ++ " ")%string.
Proof.
  induction s as [| c s IH]; intros in_run Hne Hs; [contradiction |].
  destruct s as [| d s].
  - cbn [trimEnd] in Hs. destruct (is_space c) eqn:Hc; [discriminate |].
    cbn [append collapse_from]. rewrite Hc. reflexivity.
  - assert (Htail : trimEnd (String d s) = String d s)
      by (apply (trimEnd_tail c); [discriminate | exact Hs]).
    change ((String c (String d s)) ++ " ")%string
      with (String c (String d s ++ " ")).
    cbn [collapse_from].
    destruct (is_space c); [destruct in_run |];
      rewrite IH by (discriminate || exact Htail); reflexivity.
Qed.

(** The description read back from its line and the empty line after. *)
Lemma description_of_line (d : string) :
  d <> "" -> trim d = d -> collapse_spaces d = d ->
  description_of [d; ""] = d.
Proof.
  intros Hne Htrim Hcollapse.
  destruct (trimmed_both _ Htrim) as [Hstart Hend].
  unfold description_of. cbn [join_spaces]. unfold collapse_spaces.
  rewrite (collapse_from_append_space d false Hne Hend).
  fold (collapse_spaces d). rewrite Hcollapse.
  unfold trim. destruct d as [| c r]; [contradiction |].
  cbn [trimStart] in Hstart. destruct (is_space c) eqn:Hc.
  - exfalso. pose proof (length_trimStart_le r) as Hle.
    rewrite Hstart in Hle. cbn in Hle. lia.
  - cbn [append trimStart]. rewrite Hc.
    change (String c (r ++ " "))%string with (String c r ++ " ")%string.
    rewrite trimEnd_append_spaces by reflexivity. exact Hend.
Qed.

Lemma parse_line_title (st : ParserState) (title : string) :
  ps_title st = "" -> trim title = title -> title <> "" ->
  parse_line st ("# " ++ title)
  = {| ps_title := title;
       ps_description := ps_description st;
       ps_questions := ps_questions st;
       ps_currentSection := ps_currentSection st;
       ps_questionId := ps_questionId st;
       ps_descriptionLines := ps_descriptionLines st |}.
Proof.
  intros Hnone Htrim Hne. unfold parse_line. cbv zeta.
  rewrite (trim_line "#" " " title) by (reflexivity || assumption).
  unfold startsWith. rewrite (prefix_append "# " title), Hnone.
  cbn [append slice_from]. rewrite Htrim. reflexivity.
Qed.

Lemma parse_line_description (st : ParserState) (d : string) :
  ps_title st <> "" -> ps_currentSection st = header ->
  d <> "" -> trim d = d -> startsWith "#" d = false ->
  parse_line st d
  = {| ps_title := ps_title st;
       ps_description := ps_description st;
       ps_questions := ps_questions st;
       ps_currentSection := ps_currentSection st;
       ps_questionId := ps_questionId st;
       ps_descriptionLines := ps_descriptionLines st ++ [d] |}.
Proof.
  intros Htitle Hsection Hne Htrim Hplain. unfold parse_line. cbv zeta.
  rewrite Htrim, Hsection, Hplain.
  assert (Hd : truthy_string d = true)
    by (unfold truthy_string; apply negb_true_iff, String.eqb_neq, Hne).
  assert (Ht : truthy_string (ps_title st) = true)
    by (unfold truthy_string; apply negb_true_iff, String.eqb_neq, Htitle).
  assert (Hq : String.eqb d "## Questions" = false).
  { apply String.eqb_neq. intros ->. discriminate Hplain. }
  rewrite Hd, Ht, Hq, andb_false_r. reflexivity.
Qed.

Lemma parse_line_question (st : ParserState) (question : Question) :
  ps_currentSection st = questions_section ->
  parsed_question question ->
  q_id question = ("q" ++ Number_toString 10 (ps_questionId st))%string ->
  parse_line st
    ("- **" ++ (if String.eqb (q_type question) "yes_no"
                then "yes/no" else "text")
     ++ "** " ++ q_text question)
  = {| ps_title := ps_title st;
       ps_description := ps_description st;
       ps_questions := ps_questions st ++ [question];
       ps_currentSection := ps_currentSection st;
       ps_questionId := (ps_questionId st + 1)%Z;
       ps_descriptionLines := ps_descriptionLines st |}.
Proof.
  intros Hsection (Htype & Htrim & Hne & Hplain) Hid.
  destruct question as [id type text]. cbn [q_id q_type q_text] in *.
  assert (Htext : truthy_string text && no_line_terminator text = true).
  { rewrite Hplain, andb_true_r. unfold truthy_string.
    apply negb_true_iff, String.eqb_neq, Hne. }
  unfold parse_line. cbv zeta. rewrite Hsection.
  destruct Htype as [-> | ->].
  - change ("- **" ++ (if String.eqb "yes_no" "yes_no" then "yes/no" else "text")
            ++ "** " ++ text)%string
      with (String "-" " **yes/no** " ++ text)%string.
    rewrite (trim_line "-" " **yes/no** " text) by (reflexivity || assumption).
    change (String "-" " **yes/no** " ++ text)%string
      with ("- **yes/no** " ++ text)%string.
    unfold match_question.
    change (strip_prefix "- **yes/no** " ("- **yes/no** " ++ text))
      with (Some text).
    cbv beta iota. rewrite Htext, Htrim, Hid. reflexivity.
  - change ("- **" ++ (if String.eqb "text" "yes_no" then "yes/no" else "text")
            ++ "** " ++ text)%string
      with (String "-" " **text** " ++ text)%string.
    rewrite (trim_line "-" " **text** " text) by (reflexivity || assumption).
    change (String "-" " **text** " ++ text)%string
      with ("- **text** " ++ text)%string.
    unfold match_question.
    change (strip_prefix "- **yes/no** " ("- **text** " ++ text))
      with (@None string).
    change (strip_prefix "- **text** " ("- **text** " ++ text))
      with (Some text).
    cbv beta iota. rewrite Htext, Htrim, Hid. reflexivity.
Qed.

Lemma parse_line_blank (st : ParserState) :
  parse_line st ""
  = match ps_currentSection st, ps_descriptionLines st with
    | header, _ :: _ =>
        {| ps_title := ps_title st;
           ps_description := ps_description st;
           ps_questions := ps_questions st;
           ps_currentSection := ps_currentSection st;
           ps_questionId := ps_questionId st;
           ps_descriptionLines := ps_descriptionLines st ++ [""] |}
    | _, _ => st
    end.
Proof. reflexivity. Qed.

Lemma parse_line_heading (st : ParserState) :
  parse_line st "## Questions"
  = {| ps_title := ps_title st;
       ps_description := description_of (ps_descriptionLines st);
       ps_questions := ps_questions st;
       ps_currentSection := questions_section;
       ps_questionId := ps_questionId st;
       ps_descriptionLines := ps_descriptionLines st |}.
Proof. reflexivity. Qed.

Lemma fold_parse_line_blank (rest : string) (st : ParserState) :
  fold_left parse_line (split_lines (String newline rest)) st
  = fold_left parse_line (split_lines rest) (parse_line st "").
Proof. exact (fold_parse_line_line "" rest st eq_refl). Qed.

Lemma surveyToMarkdown_questions (questions : list Question) :
  forall markdown : string,
    fold_left
      (fun markdown question => (markdown ++ question_line question)%string)
      questions markdown
    = (markdown ++ question_lines questions)%string.
Proof.
  induction questions as [| q qs IH]; intros markdown; cbn [fold_left question_lines fold_right].
  - now rewrite append_nil_r.
  - rewrite IH, append_assoc. reflexivity.
Qed.

(** The text [surveyToMarkdown] writes, line by line. *)
Lemma surveyToMarkdown_text (survey : ParsedSurvey) :
  surveyToMarkdown survey
  = (("# " ++ p_title survey)
     ++ String newline
          (if truthy_string (p_description survey)
           then p_description survey
                ++ String newline
                     (String newline
                        ("## Questions"
                         ++ String newline
                              (String newline
                                 (question_lines (p_questions survey)))))
           else String newline
                  ("## Questions"
                   ++ String newline
                        (String newline
                           (question_lines (p_questions survey))))))%string.
Proof.
  unfold surveyToMarkdown. cbv zeta. rewrite surveyToMarkdown_questions.
  destruct (truthy_string (p_description survey));
    unfold nl; repeat rewrite append_assoc; reflexivity.
Qed.

Lemma question_line_text (question : Question) (rest : string) :
  (question_line question ++ rest)%string
  = (("- **" ++ (if String.eqb (q_type question) "yes_no"
                 then "yes/no" else "text")
      ++ "** " ++ q_text question)
     ++ String newline rest)%string.
Proof.
  unfold question_line, nl. cbv zeta.
  repeat rewrite append_assoc. reflexivity.
Qed.

Lemma question_line_one_line (question : Question) :
  no_line_terminator (q_text question) = true ->
  contains_newline
    ("- **" ++ (if String.eqb (q_type question) "yes_no"
                then "yes/no" else "text")
     ++ "** " ++ q_text question) = false.
Proof.
  intros Hplain. unfold contains_newline. apply negb_false_iff.
  rewrite !string_forallb_app.
  assert (Htext : string_forallb (fun c => negb (Ascii.eqb c newline))
                    (q_text question) = true).
  { revert Hplain. unfold no_line_terminator. apply string_forallb_imp.
    intros c Hc. destruct (Ascii.eqb c newline) eqn:Hnl; [| reflexivity].
    apply Ascii.eqb_eq in Hnl. subst c. discriminate Hc. }
  rewrite Htext. destruct (String.eqb (q_type question) "yes_no"); reflexivity.
Qed.

Lemma parse_question_lines (questions : list Question) :
  forall (st : ParserState) (start : nat),
    ps_currentSection st = questions_section ->
    ps_questionId st = Z.of_nat start ->
    Forall parsed_question questions ->
    map q_id questions = question_ids_from start (List.length questions) ->
    let st' := fold_left parse_line (split_lines (question_lines questions)) st in
    ps_title st' = ps_title st
    /\ ps_description st' = ps_description st
    /\ ps_questions st' = ps_questions st ++ questions
    /\ ps_currentSection st' = questions_section.
Proof.
  induction questions as [| q qs IH];
    intros st start Hsection Hnext Hqs Hids; cbv zeta.
  - cbn [question_lines fold_right split_lines fold_left].
    rewrite parse_line_blank, Hsection, app_nil_r. now repeat split.
  - inversion Hqs as [| ? ? Hq Hrest]; subst.
    cbn [map List.length question_ids_from seq] in Hids.
    unfold question_ids_from in Hids. cbn [List.length seq map] in Hids.
    inversion Hids as [[Hid Htail]].
    cbn [question_lines fold_right]. fold (question_lines qs).
    rewrite question_line_text.
    rewrite fold_parse_line_line
      by (apply question_line_one_line; apply Hq).
    rewrite parse_line_question;
      [| exact Hsection | exact Hq | now rewrite Hnext].
    match goal with
    | |- context [fold_left parse_line _ ?s] =>
        destruct (IH s (S start)) as (Ht & Hd & Hq' & Hs)
    end.
    + exact Hsection.
    + cbn [ps_questionId]. lia.
    + exact Hrest.
    + exact Htail.
    + cbn [ps_title ps_description ps_questions] in Ht, Hd, Hq'.
      rewrite Ht, Hd, Hq', Hs, <- app_assoc. now repeat split.
Qed.

Lemma written_survey_read_back (survey : ParsedSurvey) :
  writable survey ->
  parseSurveyMarkdown (surveyToMarkdown survey) = survey.
Proof.
  intros [Htitle Hpresent Hline Hdesc Hspaces Hplain Hqs Hids].
  assert (Hhead : contains_newline ("# " ++ p_title survey) = false).
  { unfold contains_newline in *. apply negb_false_iff in Hline.
    apply negb_false_iff. rewrite string_forallb_app, Hline. reflexivity. }
  unfold parseSurveyMarkdown. cbv zeta. rewrite surveyToMarkdown_text.
  rewrite (fold_parse_line_line _ _ _ Hhead).
  rewrite parse_line_title by (reflexivity || assumption).
  cbn [initial_state ps_title ps_description ps_questions ps_currentSection
       ps_questionId ps_descriptionLines].
  destruct (truthy_string (p_description survey)) eqn:Htruthy.
  - assert (Hne : p_description survey <> "").
    { unfold truthy_string in Htruthy.
      now apply negb_true_iff, String.eqb_neq in Htruthy. }
    rewrite (fold_parse_line_line _ _ _ (collapsed_one_line _ Hspaces)).
    rewrite parse_line_description by (reflexivity || assumption).
    rewrite fold_parse_line_blank, parse_line_blank.
    cbn [ps_title ps_description ps_questions ps_currentSection
         ps_questionId ps_descriptionLines app].
    rewrite (fold_parse_line_line "## Questions" _ _ eq_refl).
    rewrite parse_line_heading.
    rewrite fold_parse_line_blank, parse_line_blank.
    cbn [ps_title ps_description ps_questions ps_currentSection
         ps_questionId ps_descriptionLines].
    rewrite (description_of_line _ Hne Hdesc Hspaces).
    match goal with
    | |- context [fold_left parse_line _ ?s] =>
        destruct (parse_question_lines (p_questions survey) s 1)
          as (Ht & Hd & Hq & Hs); [reflexivity | reflexivity | exact Hqs
                                  | exact Hids |]
    end.
    rewrite Ht, Hd, Hq, Hs. destruct survey; reflexivity.
  - assert (Hnone : p_description survey = "").
    { unfold truthy_string in Htruthy.
      now apply negb_false_iff, String.eqb_eq in Htruthy. }
    rewrite fold_parse_line_blank, parse_line_blank.
    cbn [ps_title ps_description ps_questions ps_currentSection
         ps_questionId ps_descriptionLines].
    rewrite (fold_parse_line_line "## Questions" _ _ eq_refl).
    rewrite parse_line_heading.
    rewrite fold_parse_line_blank, parse_line_blank.
    cbn [ps_title ps_description ps_questions ps_currentSection
         ps_questionId ps_descriptionLines].
    match goal with
    | |- context [fold_left parse_line _ ?s] =>
        destruct (parse_question_lines (p_questions survey) s 1)
          as (Ht & Hd & Hq & Hs); [reflexivity | reflexivity | exact Hqs
                                  | exact Hids |]
    end.
    rewrite Ht, Hd, Hq, Hs. destruct survey; cbn in *. now rewrite Hnone.
Qed.

(** X24. Reading back what was written: for a survey with a one-line
    trimmed title, a description that is empty or a line of words
    separated by single spaces and not a heading, and questions as the
    parser makes them, numbered from [q1], [parseSurveyMarkdown] gives
    back from the text of [surveyToMarkdown] the survey itself. *)
Theorem parseSurveyMarkdown_surveyToMarkdown :
  forall survey : ParsedSurvey,
    writable survey ->
    parseSurveyMarkdown (surveyToMarkdown survey) = survey.
Proof. exact written_survey_read_back. Qed.

Lemma parseSurveyMarkdown_surveyToMarkdown_witness :
  writable (parseSurveyMarkdown getExampleSurvey)
  /\ parseSurveyMarkdown (surveyToMarkdown (parseSurveyMarkdown getExampleSurvey))
     = parseSurveyMarkdown getExampleSurvey.
Proof.
  assert (Hw : writable (parseSurveyMarkdown getExampleSurvey)).
  { constructor; try (vm_compute; reflexivity).
    - vm_compute. intros H; discriminate H.
    - vm_compute.
      repeat (constructor;
              [repeat split;
               try (left; reflexivity); try (right; reflexivity);
               try reflexivity; intros H; discriminate H |]).
      constructor. }
  split; [exact Hw |].
  exact (parseSurveyMarkdown_surveyToMarkdown _ Hw).
Defined.

(** ** Submitting through the worker *)

(** X25. [handleSubmitResponse] answers 200 only when the body named a
    response id that was not stored yet and the survey exists, and then
    exactly one row is added, with that id, the survey id of the path and
    the answers of the body; with any other answer the status is 400 or
    500 and the database is as before. *)
Theorem handleSubmitResponse_answers :
  forall (surveyId : string) (request : Request) (w w' : World) (r : Response),
    handleSubmitResponse surveyId request w = (Ok r, w') ->
    (status r = 200 ->
     exists message m responseId answers submittedAt,
       json request = Ok (JsonFields message)
       /\ encryptedResponse message = Some m
       /\ m_response_id m = Some responseId
       /\ m_encryptedAnswers m = Some answers
       /\ responseId <> ""
       /\ r = apiResponse (Submitted responseId) 200
       /\ existsb (fun x => String.eqb (rs_id x) responseId) (responses (DB w))
          = false
       /\ find_survey surveyId (DB w) <> None
       /\ DB w'
          = add_response
              {| rs_id := responseId;
                 rs_survey_id := surveyId;
                 rs_answers := answers;
                 rs_submitted_at := submittedAt |} (DB w))
    /\ (status r <> 200 ->
        (status r = 400 \/ status r = 500) /\ DB w' = DB w).
Proof.
  unfold handleSubmitResponse, try_catch. intros surveyId request w w' r H.
  destruct (json request) as [[| message] | msg] eqn:Hjson.
  1, 3: unfold bind, lift, destructure, throw, ret in H; inversion H; subst;
    (split; [intros Hs; discriminate Hs |]);
    intros _; (split; [now right | reflexivity]).
  rewrite (bind_Ok _ _ w w _
             (eq_refl : lift (Ok (JsonFields message)) w
                        = (Ok (JsonFields message), w))) in H.
  rewrite (bind_Ok _ _ w w _
             (eq_refl : destructure "encryptedResponse" (JsonFields message) w
                        = (Ok message, w))) in H.
  destruct (encryptedResponse message) as [m |] eqn:Hm.
  2:{ unfold ret in H. inversion H; subst.
      split; [intros Hs; discriminate Hs |].
      intros _. split; [now left | reflexivity]. }
  destruct (missing truthy_string (m_response_id m)
            || missing truthy_array (m_encryptedAnswers m)) eqn:Hfields.
  { unfold ret in H. inversion H; subst.
    split; [intros Hs; discriminate Hs |].
    intros _. split; [now left | reflexivity]. }
  apply orb_false_iff in Hfields. destruct Hfields as [Hid Hanswers].
  destruct (canAcceptResponses_run surveyId w)
    as (acc & w1 & Hrun & Hdb1 & _).
  rewrite (bind_Ok _ _ _ _ _ Hrun) in H.
  destruct (canAccept acc); cbn [negb] in H.
  2:{ unfold ret in H. inversion H; subst.
      split; [intros Hs; discriminate Hs |].
      intros _. split; [now left | exact Hdb1]. }
  rewrite (bind_Ok _ _ w1 _ _ (eq_refl : Date_now w1 = (Ok _, _))) in H.
  match type of H with
  | context [submitResponse ?d] => set (rd := d) in *
  end.
  set (world := set_clock_pos (S (clock_pos w1)) w1) in *.
  destruct (submitResponse rd world) as [res w3] eqn:Hsubmit.
  assert (Hdb2 : DB world = DB w) by exact Hdb1.
  pose proof (submitResponse_effect _ _ _ _ Hsubmit) as Heff.
  destruct res as [x | msg].
  - destruct Heff as (-> & Hdb3 & Hnew & row & Hfind & _).
    rewrite (bind_Ok _ _ _ _ _ Hsubmit) in H. unfold ret in H.
    inversion H; subst r w'. clear H. cbn [fst].
    split; [| intros Hs; now elim Hs].
    intros _.
    destruct m as [[responseId |] [answers |]];
      [| discriminate Hanswers | discriminate Hid | discriminate Hid].
    exists message, {| m_response_id := Some responseId;
                       m_encryptedAnswers := Some answers |},
      responseId, answers, (rd_submittedAt rd).
    rewrite Hdb2 in Hdb3, Hnew, Hfind.
    split; [reflexivity |]. split; [exact Hm |].
    split; [reflexivity |]. split; [reflexivity |].
    split.
    { intros ->. discriminate Hid. }
    split; [reflexivity |]. split; [exact Hnew |].
    split; [| exact Hdb3].
    intros Hnone. unfold rd in Hfind. cbn [rd_surveyId] in Hfind. congruence.
  - rewrite (bind_Throw _ _ _ _ _ Hsubmit) in H. unfold ret in H.
    inversion H; subst r w'. clear H.
    split; [intros Hs; discriminate Hs |]. intros _.
    split; [now right | now rewrite Heff].
Qed.

Lemma handleSubmitResponse_answers_witness :
  exists r w',
    handleSubmitResponse "01HF7YAT00V3C1S4R6D0F7M2K9" sample_submit_request
      stored_world = (Ok r, w')
    /\ r = apiResponse (Submitted "01HF7YC000AAAAAAAAAAAAAAAA") 200
    /\ List.length (responses (DB w')) = 2.
Proof.
  pose (run := handleSubmitResponse "01HF7YAT00V3C1S4R6D0F7M2K9"
                 sample_submit_request stored_world).
  assert (Hrun : run
                 = (Ok (apiResponse (Submitted "01HF7YC000AAAAAAAAAAAAAAAA") 200),
                    snd run)) by reflexivity.
  destruct (proj1 (handleSubmitResponse_answers _ _ _ _ _ Hrun) eq_refl)
    as (message & m & responseId & answers & submittedAt
        & _ & _ & _ & _ & _ & _ & _ & _ & Hdb).
  exists (apiResponse (Submitted "01HF7YC000AAAAAAAAAAAAAAAA") 200), (snd run).
  split; [exact Hrun |]. split; [reflexivity |].
  rewrite Hdb. reflexivity.
Defined.

(** ** Reading, writing and reading again *)

Lemma length_collapse_from_le (s : string) :
  forall in_run,
    String.length (collapse_from in_run s) <= String.length s.
Proof.
  induction s as [| c s IH]; intros in_run; [reflexivity |].
  pose proof (IH true) as Htrue. pose proof (IH false) as Hfalse.
  cbn [collapse_from]. destruct (is_space c); [destruct in_run |];
    cbn [String.length]; lia.
Qed.

Lemma collapse_from_idem (s : string) :
  forall in_run,
    collapse_from in_run (collapse_from in_run s) = collapse_from in_run s
    /\ collapse_from false (collapse_from in_run s) = collapse_from in_run s.
Proof.
  induction s as [| c s IH]; intros in_run; [destruct in_run; now split |].
  cbn [collapse_from]. destruct (is_space c) eqn:Hc.
  - destruct in_run.
    + apply IH.
    + cbn [collapse_from].
      change (is_space " ") with true. cbv iota.
      destruct (IH true) as [Htrue _]. now rewrite Htrue.
  - cbn [collapse_from]. rewrite Hc.
    destruct (IH false) as [Hfalse _]. now rewrite Hfalse.
Qed.

Lemma collapse_from_trimEnd (s : string) :
  forall in_run,
    collapse_from in_run s = s ->
    collapse_from in_run (trimEnd s) = trimEnd s.
Proof.
  induction s as [| c s IH]; intros in_run H; [reflexivity |].
  cbn [collapse_from] in H. cbn [trimEnd].
  destruct (is_space c) eqn:Hc.
  - destruct in_run.
    + exfalso. pose proof (length_collapse_from_le s true) as Hle.
      rewrite H in Hle. cbn [String.length] in Hle. lia.
    + inversion H as [[Hspace Hrest]]. rewrite Hrest.
      specialize (IH true Hrest).
      destruct (trimEnd s) as [| d t]; [reflexivity |].
      cbn [collapse_from]. change (is_space " ") with true. cbv iota.
      cbn [collapse_from] in IH. now rewrite IH.
  - inversion H as [Hrest]. rewrite Hrest. specialize (IH false Hrest).
    destruct (trimEnd s) as [| d t].
    + cbn [collapse_from]. now rewrite Hc.
    + cbn [collapse_from]. rewrite Hc.
      cbn [collapse_from] in IH. now rewrite IH.
Qed.

Lemma collapse_from_trimStart (s : string) :
  collapse_from false s = s ->
  collapse_from false (trimStart s) = trimStart s.
Proof.
  destruct s as [| c s]; [reflexivity |].
  cbn [collapse_from trimStart]. destruct (is_space c) eqn:Hc; intros H.
  - inversion H as [[Hspace Hrest]]. rewrite Hrest.
    destruct s as [| d s]; [reflexivity |].
    cbn [collapse_from trimStart] in *. destruct (is_space d) eqn:Hd.
    + exfalso. pose proof (length_collapse_from_le s true) as Hle.
      rewrite Hrest in Hle. cbn [String.length] in Hle. lia.
    + cbn [collapse_from]. rewrite Hd. exact Hrest.
  - cbn [collapse_from]. now rewrite Hc.
Qed.

Lemma collapse_spaces_description_of (lines : list string) :
  collapse_spaces (description_of lines) = description_of lines.
Proof.
  unfold description_of, collapse_spaces, trim.
  apply collapse_from_trimEnd, collapse_from_trimStart.
  apply (collapse_from_idem _ false).
Qed.

Lemma startsWith_hash (c : ascii) (r : string) :
  c <> "#"%char -> startsWith "#" (String c r) = false.
Proof.
  intros Hc. unfold startsWith. cbn [String.prefix].
  destruct (ascii_dec "#" c) as [Heq | _]; [| reflexivity].
  now elim Hc.
Qed.

Lemma join_spaces_head (c : ascii) (r : string) (rest : list string) :
  exists t, join_spaces (String c r :: rest) = String c t.
Proof.
  destruct rest; cbn [join_spaces append]; eexists; reflexivity.
Qed.

Lemma plain_description_of (lines : list string) :
  description_lines lines -> plain_description (description_of lines).
Proof.
  intros Hlines. split; [apply collapse_spaces_description_of |].
  destruct lines as [| line rest]; [reflexivity |].
  destruct Hlines as (c & r & -> & Hc & Hhash).
  destruct (join_spaces_head c r rest) as (t & Ht).
  unfold description_of, collapse_spaces, trim. rewrite Ht.
  cbn [collapse_from]. rewrite Hc. cbn [trimStart]. rewrite Hc.
  destruct (trimEnd_keeps_head c (collapse_from false t) Hc) as (u & ->).
  now apply startsWith_hash.
Qed.

Lemma trim_plain_start (line : string) :
  truthy_string (trim line) = true ->
  startsWith "#" (trim line) = false ->
  plain_start (trim line).
Proof.
  unfold trim. intros Htruthy Hhash.
  destruct (trimStart_head line) as [Hnone | (c & r & Hsome & Hc)].
  - rewrite Hnone in Htruthy. discriminate Htruthy.
  - rewrite Hsome in *. destruct (trimEnd_keeps_head c r Hc) as (t & Ht).
    rewrite Ht in *. exists c, t. split; [reflexivity |]. split; [exact Hc |].
    intros ->. rewrite (prefix_append "#" t : startsWith "#" (String "#" t) = true)
      in Hhash. discriminate Hhash.
Qed.

Lemma string_forallb_slice_from (f : ascii -> bool) (n : nat) :
  forall s,
    string_forallb f s = true -> string_forallb f (slice_from n s) = true.
Proof.
  induction n as [| n IH]; intros s H; [exact H |].
  destruct s as [| c s]; [reflexivity |].
  cbn [slice_from]. cbn [string_forallb] in H.
  apply andb_true_iff in H. now apply IH.
Qed.

Lemma split_lines_cons (s : string) :
  exists line rest, split_lines s = line :: rest.
Proof.
  induction s as [| c s (line & rest & IH)]; cbn [split_lines].
  - now eexists _, _.
  - destruct (Ascii.eqb c newline); [now eexists _, _ |].
    rewrite IH. now eexists _, _.
Qed.

Lemma split_lines_one_line (s : string) :
  Forall (fun line => contains_newline line = false) (split_lines s).
Proof.
  induction s as [| c s IH]; cbn [split_lines].
  - constructor; [reflexivity | constructor].
  - destruct (Ascii.eqb c newline) eqn:Hc.
    + constructor; [reflexivity | exact IH].
    + destruct (split_lines s) as [| line rest].
      * constructor; [| constructor].
        unfold contains_newline. cbn [string_forallb]. now rewrite Hc.
      * inversion IH as [| ? ? Hline Hrest]; subst.
        constructor; [| exact Hrest].
        unfold contains_newline in *. cbn [string_forallb]. now rewrite Hc.
Qed.

Lemma parse_line_lines_invariant (st : ParserState) (line : string) :
  contains_newline line = false ->
  parser_lines_invariant st -> parser_lines_invariant (parse_line st line).
Proof.
  intros Hline [Htitle Hdesc Hlines]. unfold parse_line. cbv zeta.
  destruct (negb (truthy_string (trim line))) eqn:Hblank.
  - destruct (ps_currentSection st); [| now constructor].
    destruct (ps_descriptionLines st) as [| l rest] eqn:Hl;
      [constructor; try assumption; now rewrite Hl |].
    constructor; cbn [ps_title ps_description ps_descriptionLines];
      assumption.
  - apply negb_false_iff in Hblank.
    destruct (startsWith "# " (trim line) && negb (truthy_string (ps_title st))).
    + constructor; cbn [ps_title ps_description ps_descriptionLines];
        try assumption.
      unfold contains_newline in *. apply negb_false_iff.
      apply negb_false_iff in Hline.
      now apply string_forallb_trim, string_forallb_slice_from,
        string_forallb_trim.
    + destruct (String.eqb (trim line) "## Questions").
      * constructor; cbn [ps_title ps_description ps_descriptionLines];
          try assumption.
        now apply plain_description_of.
      * destruct (ps_currentSection st).
        -- destruct (negb (startsWith "#" (trim line))) eqn:Hhash;
             [| now constructor].
           apply negb_true_iff in Hhash.
           constructor; cbn [ps_title ps_description ps_descriptionLines];
             try assumption.
           destruct (ps_descriptionLines st) as [| l rest];
             [| exact Hlines].
           cbn [app description_lines]. now apply trim_plain_start.
        -- destruct (startsWith "- **" (trim line)); [| now constructor].
           destruct (match_question (trim line)) as [[type text] |];
             now constructor.
Qed.

Lemma fold_parse_line_lines_invariant (lines : list string) :
  forall st,
    Forall (fun line => contains_newline line = false) lines ->
    parser_lines_invariant st ->
    parser_lines_invariant (fold_left parse_line lines st).
Proof.
  induction lines as [| line lines IH]; intros st Hlines Hst; [exact Hst |].
  inversion Hlines as [| ? ? Hline Hrest]; subst.
  cbn [fold_left]. apply IH; [exact Hrest |].
  now apply parse_line_lines_invariant.
Qed.

(** What the parser returns with a title can be written and read back. *)
Lemma parsed_survey_writable (markdown : string) :
  p_title (parseSurveyMarkdown markdown) <> "" ->
  writable (parseSurveyMarkdown markdown).
Proof.
  intros Htitle.
  pose proof (fold_parse_line_invariant (split_lines markdown) initial_state
                parser_invariant_initial) as [Ht Hd Hqs Hids _].
  assert (Hinitial : parser_lines_invariant initial_state)
    by (constructor; [reflexivity | now split | exact I]).
  pose proof (fold_parse_line_lines_invariant (split_lines markdown)
                initial_state (split_lines_one_line markdown) Hinitial)
    as [Hline [Hspaces Hplain] Hlines].
  unfold parseSurveyMarkdown in *. cbv zeta in *. cbn [p_title] in Htitle.
  set (st := fold_left parse_line (split_lines markdown) initial_state) in *.
  constructor; cbn [p_title p_description p_questions]; try assumption.
  - destruct (ps_currentSection st); [| exact Hd].
    unfold description_of. apply trim_idem.
  - destruct (ps_currentSection st); [| exact Hspaces].
    apply collapse_spaces_description_of.
  - destruct (ps_currentSection st); [| exact Hplain].
    now apply plain_description_of.
Qed.

(** X26. Reading, writing and reading again: whatever text is parsed,
    if the parsed survey has a title then writing it with
    [surveyToMarkdown] and parsing the result gives the same survey. *)
Theorem parseSurveyMarkdown_twice :
  forall markdown : string,
    p_title (parseSurveyMarkdown markdown) <> "" ->
    parseSurveyMarkdown (surveyToMarkdown (parseSurveyMarkdown markdown))
    = parseSurveyMarkdown markdown.
Proof.
  intros markdown Htitle.
  now apply written_survey_read_back, parsed_survey_writable.
Qed.

Lemma parseSurveyMarkdown_twice_witness :
  p_title (parseSurveyMarkdown getExampleSurvey) <> ""
  /\ parseSurveyMarkdown
       (surveyToMarkdown (parseSurveyMarkdown getExampleSurvey))
     = parseSurveyMarkdown getExampleSurvey.
Proof.
  assert (Htitle : p_title (parseSurveyMarkdown getExampleSurvey) <> "")
    by (vm_compute; intros H; discriminate H).
  split; [exact Htitle |].
  exact (parseSurveyMarkdown_twice getExampleSurvey Htitle).
Defined.

(** ** Validating answers *)

Lemma answer_errors_nil (responses : Responses) (question : Question) :
  answer_errors responses question = []
  <-> acceptable_answer responses question.
Proof.
  unfold answer_errors, acceptable_answer. cbv zeta.
  set (response := lookup_answer (q_id question) responses).
  destruct (truthy_property response).
  2:{ cbn [negb]. split; [intros H; discriminate H |].
      intros (H & _). discriminate H. }
  cbn [negb].
  destruct (String.eqb (q_type question) "yes_no") eqn:Hyes.
  - apply String.eqb_eq in Hyes. split.
    + intros H. split; [reflexivity |]. split.
      * intros _. destruct (value_of response); try discriminate H; tauto.
      * intros Htext. rewrite Hyes in Htext. discriminate Htext.
    + intros (_ & Hvalue & _).
      destruct (Hvalue Hyes) as [-> | [-> | ->]]; reflexivity.
  - apply String.eqb_neq in Hyes.
    destruct (String.eqb (q_type question) "text") eqn:Htext.
    + apply String.eqb_eq in Htext. split.
      * intros H. split; [reflexivity |].
        split; [intros Hq; contradiction |]. intros _.
        destruct (value_of response) as [| | | s | |]; try discriminate H.
        exists s. split; [reflexivity |].
        destruct (5000 <? String.length s)%nat eqn:Hlong;
          [discriminate H |]. now apply Nat.ltb_ge in Hlong.
      * intros (_ & _ & Hvalue).
        destruct (Hvalue Htext) as (s & -> & Hlen).
        apply Nat.ltb_ge in Hlen. now rewrite Hlen.
    + apply String.eqb_neq in Htext. split; [| reflexivity].
      intros _. split; [reflexivity |].
      split; intros Hq; contradiction.
Qed.

(** An id without an entry, in an object whose prototype was left alone:
    what is read is a function of [Object.prototype], or nothing. *)
Lemma inherited_answer (responses : Responses) (question : Question) :
  own_property (q_id question) (r_own responses) = None ->
  r_proto responses = None ->
  acceptable_answer responses question
  <-> In (q_id question) Object_prototype_names
      /\ q_type question <> "yes_no" /\ q_type question <> "text".
Proof.
  intros Hown Hproto. unfold acceptable_answer, lookup_answer.
  rewrite Hown, Hproto. unfold Object_prototype.
  destruct (existsb (String.eqb (q_id question)) Object_prototype_names)
    eqn:Hname.
  - apply existsb_exists in Hname. destruct Hname as (name & Hin & Heq).
    apply String.eqb_eq in Heq. subst name.
    cbn [truthy_property truthy_value builtin value_of]. split.
    + intros (_ & Hyes & Htext). split; [exact Hin |]. split.
      * intros H. destruct (Hyes H) as [H' | [H' | H']]; discriminate H'.
      * intros H. destruct (Htext H) as (s & H' & _). discriminate H'.
    + intros (_ & Hyes & Htext). split; [reflexivity |].
      split; intros H; contradiction.
  - cbn [truthy_property truthy_value]. split.
    + intros (H & _). discriminate H.
    + intros (Hin & _). exfalso.
      assert (Hex : existsb (String.eqb (q_id question)) Object_prototype_names
                    = true).
      { apply existsb_exists. exists (q_id question).
        split; [exact Hin | apply String.eqb_refl]. }
      congruence.
Qed.

Lemma flat_map_nil_iff {A B} (f : A -> list B) (l : list A) :
  flat_map f l = [] <-> Forall (fun a => f a = []) l.
Proof.
  induction l as [| a l IH]; cbn [flat_map].
  - split; [constructor | reflexivity].
  - split.
    + intros H. apply app_eq_nil in H. destruct H as [Ha Hl].
      constructor; [exact Ha | now apply IH].
    + intros H. inversion H as [| ? ? Ha Hl]; subst.
      rewrite Ha. now apply IH.
Qed.

(** X27. [validateResponses] accepts the answers exactly when, for
    every question of the survey, what is read under its id is truthy,
    and its [value] is [true], [false] or [null] for a yes/no question
    and a string of at most 5000 characters for a text question;
    questions of another type need nothing more, and [valid] is true
    exactly when no error is reported. What is read under an id counts
    inherited properties: in a plain object without an entry for it, a
    question passes exactly when its id names a property of
    [Object.prototype] and its type is neither [yes_no] nor [text]. *)
Theorem validateResponses_valid_iff :
  forall (survey : ParsedSurvey) (responses : Responses),
    (v_valid (validateResponses survey responses) = true
     <-> Forall (acceptable_answer responses) (p_questions survey))
    /\ (v_valid (validateResponses survey responses) = true
        <-> v_errors (validateResponses survey responses) = [])
    /\ (forall question,
          own_property (q_id question) (r_own responses) = None ->
          r_proto responses = None ->
          (acceptable_answer responses question
           <-> In (q_id question) Object_prototype_names
               /\ q_type question <> "yes_no" /\ q_type question <> "text")).
Proof.
  intros survey responses. unfold validateResponses. cbv zeta.
  cbn [v_valid v_errors].
  split; [| split; [apply length_zero_iff_nil | apply inherited_answer]].
  rewrite length_zero_iff_nil, flat_map_nil_iff.
  split; intros H; eapply Forall_impl; try exact H;
    intros q Hq; now apply answer_errors_nil.
Qed.
